(** * SQLRAG: extraction of SQL and chart code from model responses,
      the Redis cache wrapper and the request pipeline

    A shallow embedding of [sqlrag/utils.py], [sqlrag/cache.py],
    [sqlrag/open_llm.py] and [sqlrag/open_sql_rag.py].

    Conventions of the embedding.
    - A Python [str] is a list of characters whose code points lie below
      256 (the Latin-1 part of Unicode); Rocq's [ascii] is read as such a
      code point.  Every character test below ([isspace], [\w], case
      mapping) is the Unicode one restricted to that range.
    - Python's [re] is a backtracking matcher; [Re.exec] follows its
      priorities (alternatives left to right, [*] longest first, [*?]
      shortest first) and [Re.search] tries the start positions from left
      to right.
    - A call that can raise returns [Raise e] or [Ret v]; the pipeline
      threads an explicit world (collaborator states, clock, call trace)
      that survives a raise, as the side effects of a Python call do. *)

From Stdlib Require Import List Ascii String NArith ZArith Bool Arith Lia.
From Stdlib Require Import Floats.
Import ListNotations.

Set Implicit Arguments.
Set Warnings "-register-all".

(** ** Python strings *)

Definition str := list ascii.

(** A literal of the source, as a [str]. *)
Definition s_ (x : string) : str := list_ascii_of_string x.

Definition code (c : ascii) : N := N_of_ascii c.

Definition in_range (lo hi n : N) : bool := ((lo <=? n) && (n <=? hi))%N.

Module Py.

(** [str.isspace] on one character, also the class [\s] of a [str]
    pattern: TAB..CR, FS..US, SPACE, NEL and NBSP below 256. *)
Definition isspace (c : ascii) : bool :=
  let n := code c in
  in_range 9 13 n || in_range 28 32 n || (n =? 133)%N || (n =? 160)%N.

(** The class [\w] of a [str] pattern: alphanumeric (alphabetic,
    decimal, digit or numeric) or the underscore. *)
Definition isword (c : ascii) : bool :=
  let n := code c in
  in_range 48 57 n || in_range 65 90 n || (n =? 95)%N || in_range 97 122 n
  || (n =? 170)%N || in_range 178 179 n || (n =? 181)%N
  || in_range 185 186 n || in_range 188 190 n
  || in_range 192 214 n || in_range 216 246 n || in_range 248 255 n.

(** [str.lower] on one character: A-Z and the capitals of the Latin-1
    supplement (all of 192..222 but the multiplication sign). *)
Definition lower_char (c : ascii) : ascii :=
  let n := code c in
  if in_range 65 90 n || (in_range 192 222 n && negb (n =? 215)%N)
  then ascii_of_N (n + 32) else c.

Definition lower (s : str) : str := map lower_char s.

(** [str.upper] on one character.  The result is a sequence of code
    points: the sharp s becomes two letters, and the micro sign and the
    y with diaeresis leave the range below 256. *)
Definition upper_char (c : ascii) : list N :=
  let n := code c in
  (if in_range 97 122 n then [n - 32]
   else if n =? 181 then [924]
   else if n =? 223 then [83; 83]
   else if in_range 224 254 n && negb (n =? 247) then [n - 32]
   else if n =? 255 then [376]
   else [n])%N.

Definition upper (s : str) : list N := flat_map upper_char s.

Definition codes (s : str) : list N := map code s.

(** [x.startswith(p)] *)
Fixpoint startswith (x p : list N) : bool :=
  match p, x with
  | [], _ => true
  | _ :: _, [] => false
  | b :: p', a :: x' => (a =? b)%N && startswith x' p'
  end.

Fixpoint lstrip (s : str) : str :=
  match s with
  | c :: t => if isspace c then lstrip t else s
  | [] => []
  end.

Definition rstrip (s : str) : str := rev (lstrip (rev s)).

(** [str.strip()] *)
Definition strip (s : str) : str := rstrip (lstrip s).

Definition ascii_eqb (a b : ascii) : bool := (code a =? code b)%N.

Fixpoint str_eqb (a b : str) : bool :=
  match a, b with
  | [], [] => true
  | x :: a', y :: b' => ascii_eqb x y && str_eqb a' b'
  | _, _ => false
  end.

End Py.

(** ** The part of Python's [re] that the patterns of the package use *)

Module Re.

(** One-character items. *)
Inductive cset : Type :=
| CAny                 (* .      *)
| CSpace               (* \s     *)
| CNot (c : ascii)     (* [^c]   *)
| CLit (c : ascii).    (* c      *)

Inductive regex : Type :=
| Eps
| Chr (cs : cset)
| Bnd                              (* \b        *)
| Seq (r1 r2 : regex)
| Alt (r1 r2 : regex)              (* r1|r2     *)
| Star (greedy : bool) (cs : cset) (* cs* , cs*? *)
| Grp (n : nat) (r : regex).       (* (r), numbered *)

Record flags : Type := { ignorecase : bool; dotall : bool }.

(** [re.DOTALL] and [re.DOTALL | re.IGNORECASE] *)
Definition DOTALL : flags := {| ignorecase := false; dotall := true |}.
Definition DOTALL_IGNORECASE : flags := {| ignorecase := true; dotall := true |}.

Definition newline : ascii := ascii_of_N 10.

(** Does character [c] belong to the item?  Under IGNORECASE a literal
    is compared after lowering both sides. *)
Definition accepts (f : flags) (cs : cset) (c : ascii) : bool :=
  match cs with
  | CAny => dotall f || negb (Py.ascii_eqb c newline)
  | CSpace => Py.isspace c
  | CNot x => negb (Py.ascii_eqb c x)
  | CLit x =>
      if ignorecase f
      then Py.ascii_eqb (Py.lower_char c) (Py.lower_char x)
      else Py.ascii_eqb c x
  end.

(** A literal string of the pattern. *)
Fixpoint lit (s : str) : regex :=
  match s with
  | [] => Eps
  | c :: t => Seq (Chr (CLit c)) (lit t)
  end.

(** Captured groups, most recent first. *)
Definition caps := list (nat * str).

Fixpoint lookup (n : nat) (g : caps) : option str :=
  match g with
  | [] => None
  | (k, v) :: g' => if Nat.eqb k n then Some v else lookup n g'
  end.

(** [\b]: exactly one of the two neighbours is a word character. *)
Definition at_boundary (prev : option ascii) (s : str) : bool :=
  let w o := match o with Some c => Py.isword c | None => false end in
  xorb (w prev) (w (hd_error s)).

Section Exec.
Variable f : flags.
Variable R : Type.

(** What remains to be matched: it receives the character before the
    position, the rest of the text and the groups so far. *)
Definition cont := option ascii -> str -> caps -> option R.

(** [cs*?]: the continuation first, one more character on failure. *)
Fixpoint star_lazy (cs : cset) (prev : option ascii) (s : str)
         (k : option ascii -> str -> option R) : option R :=
  match k prev s with
  | Some x => Some x
  | None =>
      match s with
      | c :: t => if accepts f cs c then star_lazy cs (Some c) t k else None
      | [] => None
      end
  end.

(** [cs*]: as many characters as possible, then one less on failure. *)
Fixpoint star_greedy (cs : cset) (prev : option ascii) (s : str)
         (k : option ascii -> str -> option R) : option R :=
  match s with
  | c :: t =>
      if accepts f cs c
      then match star_greedy cs (Some c) t k with
           | Some x => Some x
           | None => k prev s
           end
      else k prev s
  | [] => k prev s
  end.

Fixpoint exec (r : regex) (prev : option ascii) (s : str) (g : caps)
         (k : cont) : option R :=
  match r with
  | Eps => k prev s g
  | Chr cs =>
      match s with
      | c :: t => if accepts f cs c then k (Some c) t g else None
      | [] => None
      end
  | Bnd => if at_boundary prev s then k prev s g else None
  | Seq r1 r2 => exec r1 prev s g (fun p' s' g' => exec r2 p' s' g' k)
  | Alt r1 r2 =>
      match exec r1 prev s g k with
      | Some x => Some x
      | None => exec r2 prev s g k
      end
  | Star true cs => star_greedy cs prev s (fun p' s' => k p' s' g)
  | Star false cs => star_lazy cs prev s (fun p' s' => k p' s' g)
  | Grp n r1 =>
      exec r1 prev s g
           (fun p' s' g' =>
              k p' s' ((n, firstn (List.length s - List.length s') s) :: g'))
  end.
End Exec.

(** A match object: where the match starts, the whole match
    ([group(0)]) and the groups that took part in it. *)
Record Match : Type := {
  m_start : nat;
  m_group0 : str;
  m_caps : caps
}.

(** [m.group(n)] for n >= 1: [None] when the group took no part. *)
Definition group (n : nat) (m : Match) : option str := lookup n (m_caps m).

(** One match attempt at the current position. *)
Definition attempt (f : flags) (r : regex) (prev : option ascii) (s : str)
  : option (str * caps) :=
  exec f r prev s [] (fun _ s' g => Some (s', g)).

(** [re.search]: the first position, from the left, with a match. *)
Fixpoint search_from (f : flags) (r : regex) (prev : option ascii)
         (i : nat) (s : str) : option Match :=
  match attempt f r prev s with
  | Some (s', g) =>
      Some {| m_start := i;
              m_group0 := firstn (List.length s - List.length s') s;
              m_caps := g |}
  | None =>
      match s with
      | c :: t => search_from f r (Some c) (S i) t
      | [] => None
      end
  end.

Definition search (r : regex) (s : str) (f : flags) : option Match :=
  search_from f r None 0 s.

End Re.

(** ** Python values and exceptions *)

(** The values the package handles: what [json.loads] can return, and
    the match object of [re]. *)
Inductive pyvalue : Type :=
| PNone
| PBool (b : bool)
| PInt (z : Z)
| PFloat (x : float)
| PStr (s : str)
| PList (l : list pyvalue)
| PDict (d : list (str * pyvalue))
| PMatch (m : Re.Match).

(** Truth value of an object, as [if x:] tests it. *)
Definition truthy (v : pyvalue) : bool :=
  match v with
  | PNone => false
  | PBool b => b
  | PInt z => negb (z =? 0)%Z
  | PFloat x => negb (PrimFloat.eqb x PrimFloat.zero)
  | PStr s => match s with [] => false | _ => true end
  | PList l => match l with [] => false | _ => true end
  | PDict d => match d with [] => false | _ => true end
  | PMatch _ => true
  end.

Inductive exn_class : Type :=
| InvalidInputError        (* sqlrag/exceptions.py *)
| KeyError
| AttributeError
| TypeError
| OtherException (name : str).  (* any other subclass of Exception *)

(** A raised exception: its class and [str(e)]. *)
Record exn : Type := { e_class : exn_class; e_str : str }.

Inductive result (A : Type) : Type :=
| Ret (a : A)
| Raise (e : exn).
Arguments Ret {A} a.
Arguments Raise {A} e.

(** ** sqlrag/constants.py *)

Import Re.

(** r"```python(.*?)```" *)
Definition PYTHON_REGEX : regex :=
  Seq (lit (s_ "```python"))
      (Seq (Grp 1 (Star false CAny)) (lit (s_ "```"))).

(** r"```(?:javascript|js)(.*?)```|<script\b[^>]*>(.*?)</script>" *)
Definition JAVASCRIPT_REGEX : regex :=
  Alt (Seq (lit (s_ "```"))
           (Seq (Alt (lit (s_ "javascript")) (lit (s_ "js")))
                (Seq (Grp 1 (Star false CAny)) (lit (s_ "```")))))
      (Seq (lit (s_ "<script"))
           (Seq Bnd
                (Seq (Star true (CNot ">"%char))
                     (Seq (lit (s_ ">"))
                          (Seq (Grp 2 (Star false CAny))
                               (lit (s_ "</script>"))))))).

Definition ALLOWED_CHART_TYPES : list str := [s_ "matplotlib"; s_ "chart.js"].

(** ** sqlrag/utils.py *)

(** r"SELECT.*?;" *)
Definition select_plain_pattern : regex :=
  Seq (lit (s_ "SELECT")) (Seq (Star false CAny) (lit (s_ ";"))).

(** r"```sql\s*(.*?)\s*```" *)
Definition sql_block_pattern : regex :=
  Seq (lit (s_ "```sql"))
      (Seq (Star true CSpace)
           (Seq (Grp 1 (Star false CAny))
                (Seq (Star true CSpace) (lit (s_ "```"))))).

(** r"\bSELECT\b.*?;" *)
Definition select_pattern : regex :=
  Seq Bnd (Seq (lit (s_ "SELECT"))
               (Seq Bnd (Seq (Star false CAny) (lit (s_ ";"))))).

(** [response.strip().upper().startswith("SELECT")] *)
Definition starts_with_select (response : str) : bool :=
  Py.startswith (Py.upper (Py.strip response)) (Py.codes (s_ "SELECT")).

(** [x.strip()] where [x] is [m.group(n)]: a group that took no part is
    [None], which has no [strip]. *)
Definition strip_group (g : option str) : result str :=
  match g with
  | Some x => Ret (Py.strip x)
  | None =>
      Raise {| e_class := AttributeError;
               e_str := s_ "'NoneType' object has no attribute 'strip'" |}
  end.

Definition extract_sql_query (response : str) : result str :=
  (* Case 1: Only query *)
  let case1 :=
    if starts_with_select response
    then match search select_plain_pattern response DOTALL_IGNORECASE with
         | Some m => Some (Py.strip (m_group0 m))
         | None => None
         end
    else None in
  match case1 with
  | Some q => Ret q
  | None =>
      (* Case 2: Query in SQL code block *)
      match search sql_block_pattern response DOTALL_IGNORECASE with
      | Some m => strip_group (group 1 m)
      | None =>
          (* Case 3: First SELECT statement *)
          match search select_pattern response DOTALL_IGNORECASE with
          | Some m => Ret (Py.strip (m_group0 m))
          | None => Ret (Py.strip response)
          end
      end
  end.

(** [m.group(n)] as a Python value. *)
Definition group_value (n : nat) (m : Match) : pyvalue :=
  match group n m with Some x => PStr x | None => PNone end.

Definition extract_code_response (response chart_type : str) : pyvalue :=
  if Py.str_eqb chart_type (s_ "matplotlib") then
    match search PYTHON_REGEX response DOTALL with
    | Some m => PMatch m
    | None => PNone
    end
  else if Py.str_eqb chart_type (s_ "chart.js") then
    match search JAVASCRIPT_REGEX response DOTALL with
    | Some m =>
        if truthy (group_value 1 m) then group_value 1 m else group_value 2 m
    | None => PNone
    end
  else PNone.

(** ** The world of a request: collaborators, clock and calls made *)

(** A call that reached a collaborator. *)
Inductive event : Type :=
| EvModel (prompt : str)                        (* the model was invoked   *)
| EvDbRun (sql : str)                           (* [db.run(sql)]           *)
| EvCacheGet (key : str)                        (* [client.get(key)]       *)
| EvCacheSet (key value : str) (ex : Z).        (* [client.set(key, value, ex=ex)] *)

(** A request: a [dict] with [str] keys; the values are any values. *)
Definition dict := list (str * pyvalue).

(** The value of a key, if the key is there. *)
Fixpoint dict_get (V : Type) (d : list (str * V)) (key : str) : option V :=
  match d with
  | [] => None
  | (k, v) :: d' => if Py.str_eqb k key then Some v else dict_get d' key
  end.

(** [value.get(key)]: only a [dict] has the method. *)
Fixpoint assoc (d : list (str * pyvalue)) (key : str) : pyvalue :=
  match d with
  | [] => PNone
  | (k, v) :: d' => if Py.str_eqb k key then v else assoc d' key
  end.

(** [type(v).__name__] *)
Definition type_name (v : pyvalue) : str :=
  match v with
  | PNone => s_ "NoneType"
  | PBool _ => s_ "bool"
  | PInt _ => s_ "int"
  | PFloat _ => s_ "float"
  | PStr _ => s_ "str"
  | PList _ => s_ "list"
  | PDict _ => s_ "dict"
  | PMatch _ => s_ "re.Match"
  end.

Definition no_get_attribute (v : pyvalue) : exn :=
  {| e_class := AttributeError;
     e_str := s_ "'" ++ type_name v ++ s_ "' object has no attribute 'get'" |}.

Definition py_get (v : pyvalue) (key : str) : result pyvalue :=
  match v with
  | PDict d => Ret (assoc d key)
  | _ => Raise (no_get_attribute v)
  end.

(** [value.lower()]: only a [str] has the method. *)
Definition no_lower_attribute (v : pyvalue) : exn :=
  {| e_class := AttributeError;
     e_str := s_ "'" ++ type_name v ++ s_ "' object has no attribute 'lower'" |}.

Definition py_lower (v : pyvalue) : result str :=
  match v with
  | PStr s => Ret (Py.lower s)
  | _ => Raise (no_lower_attribute v)
  end.

(** [x in l] for a list of strings. *)
Definition str_in (x : str) (l : list str) : bool := existsb (Py.str_eqb x) l.

(** The returned [dict] of [generate_code_and_sql]. *)
Record Response : Type := {
  message : str;
  sql_query : pyvalue;
  chart_code : pyvalue;
  total_time : float
}.

(** The fields of an [OpenSQLRAG] object that the request reads. *)
Record OpenSQLRAG : Type := {
  model_name : str;
  is_openai : bool;
  top_k : Z;
  schema : str;
  prompt_template : str;
  chart_prompt_template : str
}.

(** The collaborators outside the package, each with the state it keeps
    between calls. *)
Record Collaborators : Type := {
  (** the Redis server behind [redis.StrictRedis(decode_responses=True)] *)
  Redis : Type;
  redis_get : Redis -> str -> result (option str) * Redis;
  redis_set : Redis -> str -> str -> Z -> result unit * Redis;
  (** [json.loads] and [json.dumps] *)
  json_loads : str -> result pyvalue;
  json_dumps : pyvalue -> result str;
  (** the model behind [self.llm]: [ChatOpenAI.invoke(input=[m]).content]
      for the content of [m], and
      [gpt4all.GPT4All.generate(prompt, max_tokens=n)] *)
  Model : Type;
  chat_invoke : Model -> str -> result str * Model;
  gpt4all_generate : Model -> str -> Z -> result str * Model;
  (** [SQLDatabase.run] *)
  Database : Type;
  db_run : Database -> str -> result str * Database;
  (** [SystemMessagePromptTemplate(prompt=template).format] on the slots:
      the content of the message *)
  format_message : str -> list (str * pyvalue) -> str;
  (** the successive readings of [time.time()] *)
  clock : nat -> float
}.

Section Pipeline.

Context {env : Collaborators}.

Record World : Type := {
  w_redis : Redis env;
  w_model : Model env;
  w_db : Database env;
  w_ticks : nat;
  w_trace : list event
}.

(** A computation: it reads and changes the world, and returns or
    raises; the world it leaves is kept in both cases. *)
Definition M (A : Type) : Type := World -> result A * World.

Definition ret {A} (a : A) : M A := fun w => (Ret a, w).

Definition raise {A} (e : exn) : M A := fun w => (Raise e, w).

Definition bind {A B} (c : M A) (k : A -> M B) : M B :=
  fun w =>
    match c w with
    | (Ret a, w') => k a w'
    | (Raise e, w') => (Raise e, w')
    end.

(** [try: c  except Exception as e: h(e)] *)
Definition try_except {A} (c : M A) (h : exn -> M A) : M A :=
  fun w =>
    match c w with
    | (Ret a, w') => (Ret a, w')
    | (Raise e, w') => h e w'
    end.

Definition lift {A} (r : result A) : M A := fun w => (r, w).

Notation "x <- c ;; k" := (bind c (fun x => k))
  (at level 61, c at next level, right associativity).

Definition time_time : M float :=
  fun w =>
    (Ret (clock env (w_ticks w)),
     {| w_redis := w_redis w; w_model := w_model w; w_db := w_db w;
        w_ticks := S (w_ticks w); w_trace := w_trace w |}).

Definition client_get (key : str) : M (option str) :=
  fun w =>
    let (r, s) := redis_get env (w_redis w) key in
    (r, {| w_redis := s; w_model := w_model w; w_db := w_db w;
           w_ticks := w_ticks w; w_trace := w_trace w ++ [EvCacheGet key] |}).

Definition client_set (key value : str) (ex : Z) : M unit :=
  fun w =>
    let (r, s) := redis_set env (w_redis w) key value ex in
    (r, {| w_redis := s; w_model := w_model w; w_db := w_db w;
           w_ticks := w_ticks w;
           w_trace := w_trace w ++ [EvCacheSet key value ex] |}).

Definition model_call (step : Model env -> result str * Model env)
           (prompt : str)
  : M str :=
  fun w =>
    let (r, s) := step (w_model w) in
    (r, {| w_redis := w_redis w; w_model := s; w_db := w_db w;
           w_ticks := w_ticks w; w_trace := w_trace w ++ [EvModel prompt] |}).

Definition db_call (sql : str) : M str :=
  fun w =>
    let (r, s) := db_run env (w_db w) sql in
    (r, {| w_redis := w_redis w; w_model := w_model w; w_db := s;
           w_ticks := w_ticks w; w_trace := w_trace w ++ [EvDbRun sql] |}).

(** *** sqlrag/cache.py *)

Definition RedisCache_get (key : str) : M pyvalue :=
  cached_data <- client_get key ;;
  match cached_data with
  | Some data =>
      if truthy (PStr data) then lift (json_loads env data) else ret PNone
  | None => ret PNone
  end.

Definition RedisCache_set (key : str) (value : pyvalue) (expiration : Z)
  : M unit :=
  text <- lift (json_dumps env value) ;;
  client_set key text expiration.

(** The default of the parameter [expiration]. *)
Definition default_expiration : Z := 3600.

(** *** sqlrag/open_llm.py *)

Definition type_error (msg : string) : exn :=
  {| e_class := TypeError; e_str := s_ msg |}.

(** [OpenLLM.invoke(self, data, max_tokens=3000)], called with one
    keyword argument [kw=messages].  Only the names [data] and
    [max_tokens] are parameters; [prompt = data[0].content]. *)
Definition OpenLLM_invoke (kw : str) (messages : list str) : M str :=
  if Py.str_eqb kw (s_ "data") then
    match messages with
    | prompt :: _ => model_call (fun m => gpt4all_generate env m prompt 3000) prompt
    | [] => raise {| e_class := OtherException (s_ "IndexError");
                     e_str := s_ "list index out of range" |}
    end
  else if Py.str_eqb kw (s_ "max_tokens") then
    raise (type_error
      "OpenLLM.invoke() missing 1 required positional argument: 'data'")
  else
    raise {| e_class := TypeError;
             e_str := s_ "OpenLLM.invoke() got an unexpected keyword argument '"
                      ++ kw ++ s_ "'" |}.

(** [ChatOpenAI.invoke(input=[message]).content]; [input] is the name
    of the first parameter of that method. *)
Definition ChatOpenAI_invoke_content (message : str) : M str :=
  model_call (fun m => chat_invoke env m message) message.

(** *** sqlrag/open_sql_rag.py *)

Variable self : OpenSQLRAG.

(** [self.llm.invoke(input=[message])], then [.content] of the answer of
    the OpenAI model; [self.llm] is a [ChatOpenAI] when [is_openai] and
    an [OpenLLM] otherwise ([_get_model]). *)
Definition llm_invoke_input (message : str) : M str :=
  if is_openai self
  then ChatOpenAI_invoke_content message
  else OpenLLM_invoke (s_ "input") [message].

Definition _generate_sql_query (query : pyvalue) : M str :=
  let system_message :=
    format_message env (prompt_template self)
      [(s_ "dialect", PStr (s_ "SQLite")); (s_ "top_k", PInt (top_k self));
       (s_ "schema", PStr (schema self)); (s_ "query", query)] in
  response <- llm_invoke_input system_message ;;
  if is_openai self
  then ret (Py.strip response)
  else lift (extract_sql_query response).

Definition _check_cache (cache_key : str) : M pyvalue :=
  RedisCache_get cache_key.

Definition invalid_input (msg : str) : exn :=
  {| e_class := InvalidInputError; e_str := msg |}.

Definition _generate_chart_code (chart_type result : str) : M pyvalue :=
  let chart_system_message :=
    format_message env (chart_prompt_template self)
      [(s_ "chart_type", PStr chart_type);
       (s_ "chart_data", PStr (s_ "Query Result: " ++ result))] in
  response <- llm_invoke_input chart_system_message ;;
  let parsed_response := extract_code_response response chart_type in
  match parsed_response with
  | PNone =>
      raise (invalid_input (s_ "Something went wrong: Could not generate code"))
  | _ => ret parsed_response
  end.

Definition _cache_result (cache_key result : str) (chart_code : pyvalue)
  : M unit :=
  RedisCache_set cache_key
    (PDict [(s_ "sql_query", PStr cache_key); (s_ "result", PStr result);
            (s_ "chart_code", chart_code)])
    default_expiration.

Definition _format_response (message : str) (result : pyvalue)
           (start_time : float) : M Response :=
  sql <- lift (py_get result (s_ "sql_query")) ;;
  code <- lift (py_get result (s_ "chart_code")) ;;
  now <- time_time ;;
  ret {| message := message; sql_query := sql; chart_code := code;
         total_time := PrimFloat.sub now start_time |}.

(** [str(e)] of the [KeyError] of a missing key: the [repr] of the key.
    The two keys read are plain words. *)
Definition key_error_str (key : str) : str := s_ "'" ++ key ++ s_ "'".

Definition missing_key_message (key : str) : str :=
  s_ "Missing required key: " ++ key_error_str key ++ s_ "." ++ [newline]
  ++ s_ "                Dict should have 'chart_type' and 'query' as keys.".

Definition invalid_chart_type_message : str :=
  s_ "Invalid chart type. Allowed types: ['matplotlib', 'chart.js']".

Definition something_went_wrong (e : exn) : exn :=
  invalid_input (s_ "Something went wrong: " ++ e_str e ++ s_ ".").

Definition generate_code_and_sql (data : dict) : M Response :=
  start_time <- time_time ;;
  match dict_get data (s_ "chart_type") with
  | None => raise (invalid_input (missing_key_message (s_ "chart_type")))
  | Some chart_type_value =>
      match py_lower chart_type_value with
      | Raise e => raise e  (* an AttributeError: [except KeyError] lets it pass *)
      | Ret chart_type =>
          match dict_get data (s_ "query") with
          | None => raise (invalid_input (missing_key_message (s_ "query")))
          | Some query =>
              if negb (str_in chart_type ALLOWED_CHART_TYPES)
              then raise (invalid_input invalid_chart_type_message)
              else
                (* Generate SQL query and check cache *)
                generated_sql_query <- _generate_sql_query query ;;
                cached_result <- _check_cache generated_sql_query ;;
                if truthy cached_result
                then _format_response (s_ "Fetching result from Redis cache...")
                                      cached_result start_time
                else
                  try_except
                    ((* Run SQL query and generate chart code *)
                     result <- db_call generated_sql_query ;;
                     chart_code <- _generate_chart_code chart_type result ;;
                     (* Cache the result in Redis *)
                     _ <- _cache_result generated_sql_query result chart_code ;;
                     _format_response
                       (s_ "Query and chart generated successfully.")
                       (PDict [(s_ "sql_query", PStr generated_sql_query);
                               (s_ "chart_code", chart_code)])
                       start_time)
                    (fun e => raise (something_went_wrong e))
          end
      end
  end.

End Pipeline.

(** * Notions used in the statements *)

(** ** Plain string search, to state what the patterns find *)

Module Find.

(** Does [s] begin with the literal [p] (characters compared as the
    flags say)?  The matched text and the rest. *)
Fixpoint strip_prefix (f : flags) (p s : str) : option (str * str) :=
  match p with
  | [] => Some ([], s)
  | x :: p' =>
      match s with
      | c :: t =>
          if accepts f (CLit x) c
          then match strip_prefix f p' t with
               | Some (m, r) => Some (c :: m, r)
               | None => None
               end
          else None
      | [] => None
      end
  end.

(** The first occurrence of [p] in [s]: the text before it, the
    occurrence and the text after it. *)
Fixpoint split_at_first (f : flags) (p s : str) : option (str * str * str) :=
  match strip_prefix f p s with
  | Some (m, r) => Some ([], m, r)
  | None =>
      match s with
      | c :: t =>
          match split_at_first f p t with
          | Some (a, m, r) => Some (c :: a, m, r)
          | None => None
          end
      | [] => None
      end
  end.

(** The character before the position reached after reading [a]. *)
Definition lastc (prev : option ascii) (a : str) : option ascii :=
  fold_left (fun _ c => Some c) a prev.

End Find.
Import Find.

(** ** White space, word characters and fences *)

Definition is_space_run (w : str) : Prop := Forall (fun c => Py.isspace c = true) w.

Definition no_space_head (s : str) : Prop :=
  match s with c :: _ => Py.isspace c = false | [] => True end.

Definition no_space_last (s : str) : Prop := no_space_head (rev s).

(** The text does not go on with a character of the item. *)
Definition refuses_head (f : flags) (cs : cset) (b : str) : Prop :=
  match b with c :: _ => accepts f cs c = false | [] => True end.

Definition backtick : ascii := "`"%char.

Definition word_status (o : option ascii) : bool :=
  match o with Some c => Py.isword c | None => false end.

Definition no_word_head (b : str) : Prop := word_status (hd_error b) = false.

(** A continuation that looks at the previous character only to know
    whether it is a word character. *)
Definition respects_status (R : Type) (k : cont R) : Prop :=
  forall p p' s g, word_status p = word_status p' -> k p s g = k p' s g.

(** What [k] accepts on a text, [k'] accepts on the text followed by [b]. *)
Definition carries (b : str) (R R' : Type) (k : cont R) (k' : cont R') : Prop :=
  forall p s g, k p s g <> None -> k' p (s ++ b) g <> None.

(** ** Alternatives and groups of a pattern *)

(** Of two alternatives the one that matches further left wins, the
    first one at equal positions. *)
Definition leftmost (o1 o2 : option Match) : option Match :=
  match o1, o2 with
  | Some m1, Some m2 => if m_start m1 <=? m_start m2 then Some m1 else Some m2
  | Some m1, None => Some m1
  | None, _ => o2
  end.

(** The groups a match of [r] adds to the groups [g]. *)
Fixpoint adds (r : regex) (g g' : caps) : Prop :=
  match r with
  | Seq r1 r2 => exists g1, adds r1 g g1 /\ adds r2 g1 g'
  | Alt r1 r2 => adds r1 g g' \/ adds r2 g g'
  | Grp n r1 => exists g1 c, adds r1 g g1 /\ g' = (n, c) :: g1
  | _ => g' = g
  end.

(** The two alternatives of [JAVASCRIPT_REGEX]. *)
Definition js_fenced_alternative : regex :=
  Seq (lit (s_ "```"))
      (Seq (Alt (lit (s_ "javascript")) (lit (s_ "js")))
           (Seq (Grp 1 (Star false CAny)) (lit (s_ "```")))).

Definition script_tag_alternative : regex :=
  Seq (lit (s_ "<script"))
      (Seq Bnd
           (Seq (Star true (CNot ">"%char))
                (Seq (lit (s_ ">"))
                     (Seq (Grp 2 (Star false CAny))
                          (lit (s_ "</script>")))))).

Definition chartjs_code (response : str) : pyvalue :=
  extract_code_response response (s_ "chart.js").

(** ** The world before and after a call *)


(** The SQL text an event carries, if it carries one, is [k]. *)
Definition keyed_by (k : str) (ev : event) : Prop :=
  match ev with
  | EvModel _ => True
  | EvDbRun sql => sql = k
  | EvCacheGet key => key = k
  | EvCacheSet key _ _ => key = k
  end.

(** The prompt of the SQL step for a query. *)
Definition sql_prompt (env : Collaborators) (self : OpenSQLRAG) (query : pyvalue)
  : str :=
  format_message env (prompt_template self)
    [(s_ "dialect", PStr (s_ "SQLite")); (s_ "top_k", PInt (top_k self));
     (s_ "schema", PStr (schema self)); (s_ "query", query)].

Section Notions.
Context {env : Collaborators}.

(** The world after one reading of the clock and nothing else. *)
Definition tick (w : @World env) : @World env :=
  {| w_redis := w_redis w; w_model := w_model w; w_db := w_db w;
     w_ticks := S (w_ticks w); w_trace := w_trace w |}.

(** The world after a collaborator call that left the states [r], [m]
    and [d] and was logged as [ev]. *)
Definition logged (w : @World env) (r : Redis env) (m : Model env)
           (d : Database env) (evs : list event) : @World env :=
  {| w_redis := r; w_model := m; w_db := d;
     w_ticks := w_ticks w; w_trace := w_trace w ++ evs |}.

(** From [w] to [w'] only calls for the SQL text [k] were logged. *)
Definition extends_by (k : str) (w w' : @World env) : Prop :=
  exists tail, w_trace w' = w_trace w ++ tail /\ Forall (keyed_by k) tail.

(** Whatever the world, the computation logs only calls for [k]. *)
Definition keeps (k : str) (A : Type) (c : M A) : Prop :=
  forall w, extends_by k w (snd (c w)).

End Notions.

(** * Sample texts and collaborators *)

Definition LF : string := String (ascii_of_N 10) EmptyString.

Definition example_fenced_sql : str :=
  s_ ("Here is the result:" ++ LF ++ "```sql" ++ LF ++
      "SELECT name FROM users;" ++ LF ++ "```").

Definition example_python_block : str :=
  s_ ("```python" ++ LF ++ "print(1)" ++ LF ++ "```").

Definition example_script_only : str := s_ "<script>var x=1;</script>".

Definition example_script_then_fence : str :=
  s_ ("<script>var x=1;</script>```js" ++ LF ++ "var y=2;```").

(** ** Collaborators *)

Module Sample.

Definition json_decode_error (msg : string) : exn :=
  {| e_class := OtherException (s_ "JSONDecodeError"); e_str := s_ msg |}.

(** [x] between double quotes. *)
Definition quoted (x : str) : str := [ascii_of_N 34] ++ x ++ [ascii_of_N 34].

(** [json.dumps] on the values of the examples: a dict of strings made
    of plain characters (no quote, backslash, control or non-ASCII
    character) is written out; a dict that holds a match object is
    refused, as it is by [json.dumps]. *)
Fixpoint dumps_items (d : list (str * pyvalue)) : option str :=
  match d with
  | [] => Some []
  | (k, PStr v) :: d' =>
      match dumps_items d' with
      | Some rest =>
          Some (quoted k ++ s_ ": " ++ quoted v
                ++ match d' with [] => [] | _ => s_ ", " end ++ rest)
      | None => None
      end
  | _ => None
  end.

Definition dumps (v : pyvalue) : result str :=
  match v with
  | PDict d =>
      match dumps_items d with
      | Some items => Ret (s_ "{" ++ items ++ s_ "}")
      | None =>
          Raise {| e_class := TypeError;
                   e_str := s_ "Object of type Match is not JSON serializable" |}
      end
  | _ => Raise {| e_class := TypeError;
                  e_str := s_ "Object of type Match is not JSON serializable" |}
  end.

(** A stored entry and its text. *)
Definition entry : pyvalue :=
  PDict [(s_ "sql_query", PStr (s_ "SELECT 1;"));
         (s_ "result", PStr (s_ "[(1,)]"));
         (s_ "chart_code", PStr (s_ "draw();"))].

Definition entry_text : str :=
  s_ "{" ++ quoted (s_ "sql_query") ++ s_ ": " ++ quoted (s_ "SELECT 1;")
  ++ s_ ", " ++ quoted (s_ "result") ++ s_ ": " ++ quoted (s_ "[(1,)]")
  ++ s_ ", " ++ quoted (s_ "chart_code") ++ s_ ": " ++ quoted (s_ "draw();")
  ++ s_ "}".

(** [json.loads] on the stored texts of the examples: the entry above
    decodes, a lone opening brace does not. *)
Definition loads (text : str) : result pyvalue :=
  if Py.str_eqb text entry_text then Ret entry
  else if Py.str_eqb text (s_ "{") then
    Raise (json_decode_error
      "Expecting property name enclosed in double quotes: line 1 column 2 (char 1)")
  else Raise (json_decode_error "Expecting value: line 1 column 1 (char 0)").

(** A store as a list of pairs, newest first; it never fails. *)
Definition store := list (str * str).

Definition get (r : store) (key : str) : result (option str) * store :=
  (Ret (dict_get r key), r).

Definition set (r : store) (key value : str) (ex : Z) : result unit * store :=
  (Ret tt, (key, value) :: r).

(** A model that answers the SQL prompt with one text and any other
    prompt with another, and a model that cannot be reached. *)
Definition answer (sql_answer chart_answer : string) (m : unit) (prompt : str)
  : result str * unit :=
  (Ret (if Py.str_eqb prompt (s_ "sql prompt")
        then s_ sql_answer else s_ chart_answer), m).


Definition run_sql (d : unit) (sql : str) : result str * unit :=
  (Ret (s_ "[(1,)]"), d).

Definition collaborators (chat : unit -> str -> result str * unit)
  : Collaborators :=
  {| Redis := store; redis_get := get; redis_set := set;
     json_loads := loads; json_dumps := dumps;
     Model := unit; chat_invoke := chat;
     gpt4all_generate := fun m prompt _ => chat m prompt;
     Database := unit; db_run := run_sql;
     format_message := fun template _ => template;
     clock := fun _ => PrimFloat.zero |}.

Definition rag (openai : bool) : OpenSQLRAG :=
  {| model_name := s_ "gpt-3.5-turbo-0125"; is_openai := openai; top_k := 5;
     schema := s_ "CREATE TABLE users (name TEXT)";
     prompt_template := s_ "sql prompt";
     chart_prompt_template := s_ "chart prompt" |}.

Definition world (chat : unit -> str -> result str * unit) (r : store)
  : @World (collaborators chat) :=
  @Build_World (collaborators chat) r tt tt 0 [].

Definition request (chart_type query : string) : dict :=
  [(s_ "chart_type", PStr (s_ chart_type)); (s_ "query", PStr (s_ query))].

End Sample.

(** ** Worlds *)

Module Examples.
Import Sample.

(** An OpenAI model that answers the SQL prompt with a plain statement
    and the chart prompt with a script tag; an empty store. *)
Definition chat : unit -> str -> result str * unit :=
  answer "SELECT 1;" "<script>draw();</script>".

Definition w0 : @World (collaborators chat) := world chat [].

(** The same model, and a store that holds an entry for the statement. *)
Definition w_stored : @World (collaborators chat) :=
  world chat [(s_ "SELECT 1;", entry_text)].

(** A model that wraps the statement in prose and a fence. *)
Definition fenced_answer : string :=
  "Here is the query:" ++ LF ++ "```sql" ++ LF ++ "SELECT 1;" ++ LF ++ "```".

Definition chat_fenced : unit -> str -> result str * unit :=
  answer fenced_answer "<script>draw();</script>".

Definition w_fenced : @World (collaborators chat_fenced) := world chat_fenced [].


(** A store whose entry for the key is not JSON. *)
Definition w_corrupt : @World (collaborators chat) :=
  world chat [(s_ "SELECT 1;", s_ "{")].



End Examples.

Import Examples.

(** * Further notions *)

(** [x] is a contiguous piece of [s]. *)
Definition infix (x s : str) : Prop := exists a b, s = a ++ x ++ b.

(** Every group of [g'] is a group of [g] or a piece of [s]. *)
Definition caps_within (s : str) (g g' : caps) : Prop :=
  forall n c, In (n, c) g' -> In (n, c) g \/ infix c s.

(** The text between the first occurrence of the tag [p1] and the first
    occurrence of [p2] after it, if there are such occurrences. *)
Definition fenced_block (f : flags) (p1 p2 s : str) : option str :=
  match split_at_first f p1 s with
  | Some (_, _, rest) =>
      match split_at_first f p2 rest with
      | Some (body, _, _) => Some body
      | None => None
      end
  | None => None
  end.

(** The word [p] begins [s] with a word boundary on both sides; [prev]
    is the character before [s].  The word read and the rest. *)
Definition word_here (f : flags) (p : str) (prev : option ascii) (s : str)
  : option (str * str) :=
  if at_boundary prev s
  then match strip_prefix f p s with
       | Some (m, r) => if at_boundary (lastc prev m) r then Some (m, r) else None
       | None => None
       end
  else None.

(** The first such occurrence of the word [p] in [s]: the text before
    it, the occurrence and the text after it. *)
Fixpoint split_at_first_word (f : flags) (p : str) (prev : option ascii)
         (s : str) : option (str * str * str) :=
  match word_here f p prev s with
  | Some (m, r) => Some ([], m, r)
  | None =>
      match s with
      | c :: t =>
          match split_at_first_word f p (Some c) t with
          | Some (a, m, r) => Some (c :: a, m, r)
          | None => None
          end
      | [] => None
      end
  end.

Definition example_select_then_block : str :=
  s_ (" select a; ```sql" ++ LF ++ "SELECT b;" ++ LF ++ "```").

Definition example_select_in_prose : str :=
  s_ "The SELECTED rows: use SELECT name FROM users; and SELECT 2;".

Definition example_empty_fence_then_script : str :=
  s_ "```js```<script>var x=1;</script>".

Definition example_script_with_attributes : str :=
  s_ ("Chart:" ++ LF ++ "<script type='module' defer>" ++ LF ++ "draw();" ++ LF
      ++ "</script> done").

(** ** The calls of one request *)

(** The prompt of the chart step for a chart type and a query result. *)
Definition chart_prompt (env : Collaborators) (self : OpenSQLRAG)
           (chart_type result : str) : str :=
  format_message env (chart_prompt_template self)
    [(s_ "chart_type", PStr chart_type);
     (s_ "chart_data", PStr (s_ "Query Result: " ++ result))].

(** The entry stored for a SQL text, its result and the chart code. *)
Definition cache_entry (sql result : str) (chart_code : pyvalue) : pyvalue :=
  PDict [(s_ "sql_query", PStr sql); (s_ "result", PStr result);
         (s_ "chart_code", chart_code)].

Definition is_cache_set (ev : event) : bool :=
  match ev with EvCacheSet _ _ _ => true | _ => false end.

(** The calls logged are a beginning of: model, cache get, database,
    model, cache set; the get, the run and the set carry the same SQL
    text and the set expires after the default time. *)
Definition in_pipeline_order (evs : list event) : Prop :=
  match evs with
  | [] => True
  | [EvModel _] => True
  | [EvModel _; EvCacheGet _] => True
  | [EvModel _; EvCacheGet k; EvDbRun k1] => k1 = k
  | [EvModel _; EvCacheGet k; EvDbRun k1; EvModel _] => k1 = k
  | [EvModel _; EvCacheGet k; EvDbRun k1; EvModel _; EvCacheSet k2 _ ex] =>
      k1 = k /\ k2 = k /\ ex = 3600%Z
  | _ => False
  end.

(** ** [get_open_source_models] *)

(** [d[key]] on a dict: the value, or [KeyError(key)]. *)
Fixpoint dict_item (d : list (str * pyvalue)) (key : str) : result pyvalue :=
  match d with
  | [] => Raise {| e_class := KeyError; e_str := s_ "'" ++ key ++ s_ "'" |}
  | (k, v) :: d' => if Py.str_eqb k key then Ret v else dict_item d' key
  end.

(** The keys of the summary of a model and the keys they are read from,
    in the order of the dict display. *)
Definition summary_fields : list (str * str) :=
  [(s_ "name", s_ "name"); (s_ "model_id", s_ "filename");
   (s_ "filesize", s_ "filesize"); (s_ "ram", s_ "ramrequired");
   (s_ "parameters", s_ "parameters"); (s_ "type", s_ "type")].

(** The items of a dict display, evaluated from left to right. *)
Fixpoint display_items (fields : list (str * str)) (model : list (str * pyvalue))
  : result (list (str * pyvalue)) :=
  match fields with
  | [] => Ret []
  | (key, source) :: fields' =>
      match dict_item model source with
      | Ret v =>
          match display_items fields' model with
          | Ret items => Ret ((key, v) :: items)
          | Raise e => Raise e
          end
      | Raise e => Raise e
      end
  end.

(** The loop [for model in models: models_list.append({...})]. *)
Fixpoint summarize_models (models : list (list (str * pyvalue)))
         (models_list : list pyvalue) : result (list pyvalue) :=
  match models with
  | [] => Ret models_list
  | model :: models' =>
      match display_items summary_fields model with
      | Ret items => summarize_models models' (models_list ++ [PDict items])
      | Raise e => Raise e
      end
  end.

(** [get_open_source_models], given what [OpenLLM.list_models()] (that
    is [gpt4all.GPT4All.list_models()]) returns or raises. *)
Definition get_open_source_models (list_models : result (list (list (str * pyvalue))))
  : result (list pyvalue) :=
  match list_models with
  | Ret models => summarize_models models []
  | Raise e => Raise e
  end.

(** The summary of a model that has all the keys. *)
Definition summary_of (model : list (str * pyvalue)) : pyvalue :=
  PDict (map (fun field => (fst field, assoc model (snd field))) summary_fields).

(** [key in d] *)
Definition has_key (d : list (str * pyvalue)) (key : str) : bool :=
  existsb (fun item => Py.str_eqb (fst item) key) d.

(** The model has every key that the summary reads. *)
Definition has_summary_keys (model : list (str * pyvalue)) : Prop :=
  forall field, In field summary_fields -> has_key model (snd field) = true.

(** The first key read, in the order of the display, that the model
    lacks. *)
Fixpoint first_missing (fields : list (str * str)) (model : list (str * pyvalue))
  : option str :=
  match fields with
  | [] => None
  | (_, source) :: fields' =>
      if has_key model source then first_missing fields' model else Some source
  end.

(** ** More sample collaborators *)

Module MoreSamples.

(** A database that has no such table. *)
Definition no_such_table : exn :=
  {| e_class := OtherException (s_ "OperationalError");
     e_str := s_ "(sqlite3.OperationalError) no such table: users" |}.

Definition run_sql_fails (d : unit) (sql : str) : result str * unit :=
  (Raise no_such_table, d).

(** [json.loads] that also decodes the empty object. *)
Definition loads_empty_object (text : str) : result pyvalue :=
  if Py.str_eqb text (s_ "{}") then Ret (PDict []) else Sample.loads text.

(** The sample collaborators with another database and decoder. *)
Definition collaborators_with (chat : unit -> str -> result str * unit)
           (run : unit -> str -> result str * unit)
           (loads : str -> result pyvalue) : Collaborators :=
  {| Redis := Sample.store; redis_get := Sample.get; redis_set := Sample.set;
     json_loads := loads; json_dumps := Sample.dumps;
     Model := unit; chat_invoke := chat;
     gpt4all_generate := fun m prompt _ => chat m prompt;
     Database := unit; db_run := run;
     format_message := fun template _ => template;
     clock := fun _ => PrimFloat.zero |}.

Definition w_no_table
  : @World (collaborators_with Examples.chat run_sql_fails Sample.loads) :=
  @Build_World (collaborators_with Examples.chat run_sql_fails Sample.loads)
               [] tt tt 0 [].

(** A store whose entry for the statement is the empty object. *)
Definition w_empty_object
  : @World (collaborators_with Examples.chat Sample.run_sql loads_empty_object) :=
  @Build_World (collaborators_with Examples.chat Sample.run_sql loads_empty_object)
               [(s_ "SELECT 1;", s_ "{}")] tt tt 0 [].

(** A model that answers the chart prompt with prose only. *)
Definition chat_prose : unit -> str -> result str * unit :=
  Sample.answer "SELECT 1;" "Sorry, I cannot draw that.".

Definition w_prose : @World (Sample.collaborators chat_prose) :=
  Sample.world chat_prose [].

(** A model that answers the chart prompt with a python block. *)
Definition python_answer : string :=
  "```python" ++ LF ++ "plt.show()" ++ LF ++ "```".

Definition chat_python : unit -> str -> result str * unit :=
  Sample.answer "SELECT 1;" python_answer.

Definition w_python : @World (Sample.collaborators chat_python) :=
  Sample.world chat_python [].

(** Two models as [gpt4all] lists them, and one without its file name. *)
Definition model_entry (name filename : string) : list (str * pyvalue) :=
  [(s_ "order", PStr (s_ "a")); (s_ "name", PStr (s_ name));
   (s_ "filename", PStr (s_ filename)); (s_ "filesize", PStr (s_ "4661724384"));
   (s_ "ramrequired", PStr (s_ "8")); (s_ "parameters", PStr (s_ "8 billion"));
   (s_ "type", PStr (s_ "LLaMA3"))].

Definition model_without_filename : list (str * pyvalue) :=
  [(s_ "name", PStr (s_ "Remote model")); (s_ "type", PStr (s_ "GPT"))].

End MoreSamples.

(** * Properties *)

(** ** The matcher on literals and on starred items *)

Arguments accepts : simpl never.

Lemma lastc_app prev a b : lastc prev (a ++ b) = lastc (lastc prev a) b.
Proof. unfold lastc. apply fold_left_app. Qed.

Lemma strip_prefix_app f p : forall s m r,
  strip_prefix f p s = Some (m, r) -> s = m ++ r /\ List.length m = List.length p.
Proof.
  induction p as [|x p IH]; intros s m r H.
  - simpl in H. inversion H; subst. split; reflexivity.
  - destruct s as [|c t]; simpl in H; try discriminate H.
    destruct (accepts f (CLit x) c); [|discriminate H].
    destruct (strip_prefix f p t) as [[m' r']|] eqn:E; [|discriminate H].
    inversion H; subst. destruct (IH _ _ _ E) as [-> Hl].
    split; simpl; congruence.
Qed.

Lemma exec_lit f R p : forall prev s g (k : cont R),
  exec f (lit p) prev s g k =
  match strip_prefix f p s with
  | Some (m, r) => k (lastc prev m) r g
  | None => None
  end.
Proof.
  induction p as [|x p IH]; intros prev s g k; simpl.
  - reflexivity.
  - destruct s as [|c t]; [reflexivity|].
    destruct (accepts f (CLit x) c); [|reflexivity].
    rewrite IH. destruct (strip_prefix f p t) as [[m r]|]; reflexivity.
Qed.

Lemma split_at_first_spec f p : forall s a m r,
  split_at_first f p s = Some (a, m, r) ->
  s = a ++ m ++ r /\
  strip_prefix f p (m ++ r) = Some (m, r) /\
  (forall a1 a2, a = a1 ++ a2 -> a2 <> [] ->
                 strip_prefix f p (a2 ++ m ++ r) = None).
Proof.
  induction s as [|c t IH]; intros a m r H.
  - simpl in H. destruct (strip_prefix f p []) as [[m' r']|] eqn:E; [|discriminate].
    inversion H; subst. destruct (strip_prefix_app _ _ _ E) as [Hs _].
    rewrite <- Hs. repeat split; auto.
    intros a1 a2 Ha. destruct a1; destruct a2; try discriminate. congruence.
  - simpl in H.
    destruct (strip_prefix f p (c :: t)) as [[m' r']|] eqn:E.
    + inversion H; subst. destruct (strip_prefix_app _ _ _ E) as [Hs _].
      simpl. rewrite <- Hs. repeat split; auto.
      intros a1 a2 Ha. destruct a1; destruct a2; try discriminate. congruence.
    + destruct (split_at_first f p t) as [[[a' m'] r']|] eqn:E2; [|discriminate].
      inversion H; subst. destruct (IH _ _ _ eq_refl) as (Ht & Hm & Hbefore).
      repeat split; auto.
      * simpl. congruence.
      * intros a1 a2 Ha Hne. destruct a1 as [|x a1]; simpl in Ha.
        -- subst a2. simpl. rewrite <- Ht. exact E.
        -- inversion Ha; subst. eauto.
Qed.

Lemma split_at_first_none f p : forall s,
  split_at_first f p s = None ->
  forall a1 a2, s = a1 ++ a2 -> strip_prefix f p a2 = None.
Proof.
  induction s as [|c t IH]; intros H a1 a2 Hs.
  - destruct a1; destruct a2; try discriminate.
    simpl in H. destruct (strip_prefix f p []) as [[? ?]|]; [discriminate|reflexivity].
  - simpl in H.
    destruct (strip_prefix f p (c :: t)) as [[m' r']|] eqn:E; [discriminate|].
    destruct (split_at_first f p t) as [[[a' m'] r']|] eqn:E2; [discriminate|].
    destruct a1 as [|x a1]; simpl in Hs.
    + subst. exact E.
    + inversion Hs; subst. eapply IH; eauto.
Qed.

Section Stars.
Variable f : flags.
Variable R : Type.
Implicit Types k : option ascii -> str -> option R.

Lemma star_lazy_hit cs prev s k x :
  k prev s = Some x -> star_lazy f cs prev s k = Some x.
Proof. intros H. destruct s; simpl; rewrite H; reflexivity. Qed.

Lemma star_lazy_skip cs : forall a prev b k,
  Forall (fun c => accepts f cs c = true) a ->
  (forall a1 a2, a = a1 ++ a2 -> a2 <> [] ->
                 k (lastc prev a1) (a2 ++ b) = None) ->
  star_lazy f cs prev (a ++ b) k = star_lazy f cs (lastc prev a) b k.
Proof.
  induction a as [|c a IH]; intros prev b k Hall Hk.
  - reflexivity.
  - inversion Hall; subst. simpl.
    assert (H0 : k prev (c :: a ++ b) = None)
      by (apply (Hk [] (c :: a) eq_refl); discriminate).
    rewrite H0, H1. apply IH; auto.
    intros a1 a2 Ha Hne. apply (Hk (c :: a1) a2); simpl; congruence.
Qed.

Lemma star_lazy_fail cs : forall s prev k,
  (forall a1 a2, s = a1 ++ a2 -> k (lastc prev a1) a2 = None) ->
  star_lazy f cs prev s k = None.
Proof.
  induction s as [|c t IH]; intros prev k Hk.
  - pose proof (Hk [] [] eq_refl) as H0. simpl in *. rewrite H0. reflexivity.
  - pose proof (Hk [] (c :: t) eq_refl) as H0. simpl in *. rewrite H0.
    destruct (accepts f cs c); [|reflexivity].
    apply IH. intros a1 a2 Hs. apply (Hk (c :: a1) a2). simpl; congruence.
Qed.

Lemma star_lazy_inv cs : forall s prev k x,
  star_lazy f cs prev s k = Some x ->
  exists a1 a2, s = a1 ++ a2 /\ k (lastc prev a1) a2 = Some x.
Proof.
  induction s as [|c t IH]; intros prev k x H; simpl in H.
  - destruct (k prev []) eqn:E; [|discriminate].
    exists [], []. split; [reflexivity|]. simpl. congruence.
  - destruct (k prev (c :: t)) eqn:E.
    + exists [], (c :: t). split; [reflexivity|]. simpl. congruence.
    + destruct (accepts f cs c); [|discriminate].
      destruct (IH _ _ _ H) as (a1 & a2 & -> & Hk).
      exists (c :: a1), a2. split; [reflexivity|exact Hk].
Qed.

Lemma star_greedy_max cs : forall a prev b k x,
  Forall (fun c => accepts f cs c = true) a ->
  refuses_head f cs b ->
  k (lastc prev a) b = Some x ->
  star_greedy f cs prev (a ++ b) k = Some x.
Proof.
  induction a as [|c a IH]; intros prev b k x Hall Hb Hk.
  - simpl in *. destruct b as [|c b]; [exact Hk|].
    simpl in *. rewrite Hb. exact Hk.
  - inversion Hall; subst. simpl. rewrite H1.
    rewrite (IH (Some c) b k x); auto.
Qed.

Lemma star_greedy_fail cs : forall a prev b k,
  refuses_head f cs b ->
  (forall a1 a2, a = a1 ++ a2 -> k (lastc prev a1) (a2 ++ b) = None) ->
  star_greedy f cs prev (a ++ b) k = None.
Proof.
  induction a as [|c a IH]; intros prev b k Hb Hk.
  - specialize (Hk [] [] eq_refl). simpl in Hk.
    destruct b as [|c b]; [exact Hk|]. simpl in *. rewrite Hb. exact Hk.
  - simpl. pose proof (Hk [] (c :: a) eq_refl) as H0. simpl in H0.
    destruct (accepts f cs c); [|exact H0].
    rewrite IH; auto.
    intros a1 a2 Ha. apply (Hk (c :: a1) a2). simpl; congruence.
Qed.

Lemma star_greedy_inv cs : forall s prev k x,
  star_greedy f cs prev s k = Some x ->
  exists a1 a2, s = a1 ++ a2 /\ k (lastc prev a1) a2 = Some x.
Proof.
  induction s as [|c t IH]; intros prev k x H; simpl in H.
  - exists [], []. auto.
  - destruct (accepts f cs c).
    + destruct (star_greedy f cs (Some c) t k) eqn:E.
      * inversion H; subst. destruct (IH _ _ _ E) as (a1 & a2 & -> & Hk).
        exists (c :: a1), a2. auto.
      * exists [], (c :: t). auto.
    + exists [], (c :: t). auto.
Qed.
End Stars.

(** ** [re.search] tries the positions from the left *)

Lemma search_from_hit f r prev i s s' g :
  attempt f r prev s = Some (s', g) ->
  search_from f r prev i s =
  Some {| m_start := i;
          m_group0 := firstn (List.length s - List.length s') s;
          m_caps := g |}.
Proof. intros H. destruct s; simpl; rewrite H; reflexivity. Qed.

Lemma search_from_skip f r : forall a prev i b,
  (forall a1 a2, a = a1 ++ a2 -> a2 <> [] ->
                 attempt f r (lastc prev a1) (a2 ++ b) = None) ->
  search_from f r prev i (a ++ b) =
  search_from f r (lastc prev a) (i + List.length a) b.
Proof.
  induction a as [|c a IH]; intros prev i b Hk.
  - simpl. rewrite Nat.add_0_r. reflexivity.
  - simpl.
    assert (H0 : attempt f r prev (c :: a ++ b) = None)
      by (apply (Hk [] (c :: a) eq_refl); discriminate).
    rewrite H0, IH.
    + f_equal. lia.
    + intros a1 a2 Ha Hne. apply (Hk (c :: a1) a2); simpl; congruence.
Qed.

Lemma search_from_fail f r : forall s prev i,
  (forall a1 a2, s = a1 ++ a2 -> attempt f r (lastc prev a1) a2 = None) ->
  search_from f r prev i s = None.
Proof.
  induction s as [|c t IH]; intros prev i Hk.
  - pose proof (Hk [] [] eq_refl) as H0. simpl in *. rewrite H0. reflexivity.
  - pose proof (Hk [] (c :: t) eq_refl) as H0. simpl in *. rewrite H0.
    apply IH. intros a1 a2 Hs. apply (Hk (c :: a1) a2). simpl; congruence.
Qed.

Lemma search_from_inv f r : forall s prev i m,
  search_from f r prev i s = Some m ->
  exists a1 a2 s' g,
    s = a1 ++ a2 /\ attempt f r (lastc prev a1) a2 = Some (s', g) /\
    m = {| m_start := i + List.length a1;
           m_group0 := firstn (List.length a2 - List.length s') a2;
           m_caps := g |} /\
    (forall b1 b2, a1 = b1 ++ b2 -> b2 <> [] ->
                   attempt f r (lastc prev b1) (b2 ++ a2) = None).
Proof.
  induction s as [|c t IH]; intros prev i m H; simpl in H.
  - destruct (attempt f r prev []) as [[s' g]|] eqn:E; [|discriminate].
    exists [], [], s', g. simpl. rewrite Nat.add_0_r.
    repeat split; try congruence.
    intros b1 b2 Hb. destruct b1; destruct b2; try discriminate. congruence.
  - destruct (attempt f r prev (c :: t)) as [[s' g]|] eqn:E.
    + exists [], (c :: t), s', g. simpl. rewrite Nat.add_0_r.
      repeat split; try congruence.
      intros b1 b2 Hb. destruct b1; destruct b2; try discriminate. congruence.
    + destruct (IH _ _ _ H) as (a1 & a2 & s' & g & -> & Ha & -> & Hb).
      exists (c :: a1), a2, s', g. simpl.
      repeat split; auto.
      * f_equal. lia.
      * intros b1 b2 Hb' Hne. destruct b1 as [|y b1]; simpl in Hb'.
        -- subst b2. simpl. exact E.
        -- inversion Hb'; subst. simpl. eauto.
Qed.

(** ** [strip] *)

Lemma lstrip_spec : forall s,
  exists w, s = w ++ Py.lstrip s /\ is_space_run w /\ no_space_head (Py.lstrip s).
Proof.
  induction s as [|c t IH].
  - exists []. repeat split; constructor.
  - simpl. destruct (Py.isspace c) eqn:E.
    + destruct IH as (w & Ht & Hw & Hh).
      exists (c :: w). repeat split; auto.
      * simpl. congruence.
      * constructor; auto.
    + exists []. repeat split; auto. constructor.
Qed.

Lemma lstrip_fixed s : no_space_head s -> Py.lstrip s = s.
Proof. destruct s as [|c t]; simpl; intros H; [reflexivity|]. rewrite H. reflexivity. Qed.

Lemma lstrip_snoc c : Py.isspace c = false ->
  forall x, Py.lstrip (x ++ [c]) = Py.lstrip x ++ [c].
Proof.
  intros Hc. induction x as [|y x IH]; simpl.
  - rewrite Hc. reflexivity.
  - destruct (Py.isspace y); auto.
Qed.

Lemma rstrip_cons c t : Py.isspace c = false ->
  Py.rstrip (c :: t) = c :: Py.rstrip t.
Proof.
  intros Hc. unfold Py.rstrip. simpl.
  rewrite lstrip_snoc by assumption. rewrite rev_app_distr. reflexivity.
Qed.

Lemma rstrip_spec s :
  exists w, s = Py.rstrip s ++ w /\ is_space_run w /\ no_space_last (Py.rstrip s).
Proof.
  unfold Py.rstrip, no_space_last.
  destruct (lstrip_spec (rev s)) as (w & Hs & Hw & Hh).
  exists (rev w). repeat split.
  - rewrite <- rev_app_distr, <- Hs, rev_involutive. reflexivity.
  - apply Forall_rev. exact Hw.
  - rewrite rev_involutive. exact Hh.
Qed.

Lemma rstrip_fixed s : no_space_last s -> Py.rstrip s = s.
Proof.
  unfold no_space_last, Py.rstrip. intros H.
  rewrite lstrip_fixed by assumption. apply rev_involutive.
Qed.

Lemma rstrip_head s : no_space_head s -> no_space_head (Py.rstrip s).
Proof.
  destruct s as [|c t]; simpl; intros H.
  - exact I.
  - rewrite rstrip_cons by assumption. exact H.
Qed.

Lemma strip_spec s :
  exists w1 w2,
    s = w1 ++ Py.strip s ++ w2 /\ is_space_run w1 /\ is_space_run w2 /\
    no_space_head (Py.strip s) /\ no_space_last (Py.strip s) /\
    (Py.strip s = [] -> w2 = []).
Proof.
  unfold Py.strip.
  destruct (lstrip_spec s) as (w1 & Hs & Hw1 & Hh).
  destruct (rstrip_spec (Py.lstrip s)) as (w2 & Hl & Hw2 & Ht).
  exists w1, w2. repeat split; auto.
  - rewrite <- Hl. exact Hs.
  - apply rstrip_head. exact Hh.
  - intros E. rewrite E in Hl. simpl in Hl. rewrite Hl in Hh.
    destruct w2 as [|c w2]; [reflexivity|].
    inversion Hw2; subst. simpl in Hh. congruence.
Qed.

Lemma strip_fixed s : no_space_head s -> no_space_last s -> Py.strip s = s.
Proof.
  intros Hh Ht. unfold Py.strip.
  rewrite lstrip_fixed by assumption. apply rstrip_fixed. exact Ht.
Qed.

Lemma strip_idempotent s : Py.strip (Py.strip s) = Py.strip s.
Proof.
  destruct (strip_spec s) as (w1 & w2 & _ & _ & _ & Hh & Ht & _).
  apply strip_fixed; assumption.
Qed.

(** ** The matcher, one constructor at a time *)

Section ExecEquations.
Variable f : flags.
Variable R : Type.
Implicit Types k : cont R.

Lemma exec_seq r1 r2 prev s g k :
  exec f (Seq r1 r2) prev s g k =
  exec f r1 prev s g (fun p' s' g' => exec f r2 p' s' g' k).
Proof. reflexivity. Qed.

Lemma exec_alt r1 r2 prev s g k :
  exec f (Alt r1 r2) prev s g k =
  match exec f r1 prev s g k with
  | Some x => Some x
  | None => exec f r2 prev s g k
  end.
Proof. reflexivity. Qed.

Lemma exec_grp n r prev s g k :
  exec f (Grp n r) prev s g k =
  exec f r prev s g
       (fun p' s' g' =>
          k p' s' ((n, firstn (List.length s - List.length s') s) :: g')).
Proof. reflexivity. Qed.

Lemma exec_star_lazy cs prev s g k :
  exec f (Star false cs) prev s g k =
  star_lazy f cs prev s (fun p' s' => k p' s' g).
Proof. reflexivity. Qed.

Lemma exec_star_greedy cs prev s g k :
  exec f (Star true cs) prev s g k =
  star_greedy f cs prev s (fun p' s' => k p' s' g).
Proof. reflexivity. Qed.

Lemma exec_bnd prev s g k :
  exec f Bnd prev s g k = if at_boundary prev s then k prev s g else None.
Proof. reflexivity. Qed.
End ExecEquations.

Lemma firstn_app_minus (a x : str) :
  firstn (List.length (a ++ x) - List.length x) (a ++ x) = a.
Proof.
  rewrite length_app. replace (List.length a + List.length x - List.length x)
    with (List.length a + 0) by lia.
  rewrite firstn_app_2. simpl. apply app_nil_r.
Qed.

Lemma all_any f (a : str) :
  dotall f = true -> Forall (fun c => accepts f CAny c = true) a.
Proof.
  intros H. apply Forall_forall. intros c _. unfold accepts. rewrite H. reflexivity.
Qed.

Lemma all_space f (w : str) :
  is_space_run w -> Forall (fun c => accepts f CSpace c = true) w.
Proof. intros H. exact H. Qed.

(** ** The fence *)

Lemma accepts_backtick f c : accepts f (CLit backtick) c = true -> c = backtick.
Proof.
  unfold accepts. destruct (ignorecase f);
    destruct c as [[] [] [] [] [] [] [] []]; vm_compute; congruence.
Qed.

Lemma strip_prefix_fence f s m r :
  strip_prefix f (s_ "```") s = Some (m, r) -> m = s_ "```".
Proof.
  intros H.
  destruct s as [|c1 [|c2 [|c3 t]]]; simpl in H; try discriminate H.
  - destruct (accepts f (CLit "`"%char) c1); discriminate H.
  - destruct (accepts f (CLit "`"%char) c1); [|discriminate H].
    destruct (accepts f (CLit "`"%char) c2); discriminate H.
  - destruct (accepts f (CLit "`"%char) c1) eqn:E1; [|discriminate H].
    destruct (accepts f (CLit "`"%char) c2) eqn:E2; [|discriminate H].
    destruct (accepts f (CLit "`"%char) c3) eqn:E3; [|discriminate H].
    apply accepts_backtick in E1, E2, E3. inversion H; subst. reflexivity.
Qed.

Lemma fence_refuses_space f close post :
  strip_prefix f (s_ "```") (close ++ post) = Some (close, post) ->
  refuses_head f CSpace (close ++ post).
Proof.
  intros H. rewrite (strip_prefix_fence _ _ H). reflexivity.
Qed.

(** [\s*```] at the end of a run of white space that the fence follows. *)
Lemma closing_fence f R prev ws close post G (K : cont R) x :
  is_space_run ws ->
  strip_prefix f (s_ "```") (close ++ post) = Some (close, post) ->
  K (lastc (lastc prev ws) close) post G = Some x ->
  star_greedy f CSpace prev (ws ++ close ++ post)
              (fun p s => exec f (lit (s_ "```")) p s G K) = Some x.
Proof.
  intros Hws Hc HK. apply star_greedy_max.
  - apply all_space. exact Hws.
  - eapply fence_refuses_space. exact Hc.
  - rewrite exec_lit, Hc. exact HK.
Qed.

Lemma space_run_not_last a w :
  is_space_run w -> w <> [] -> no_space_last (a ++ w) -> False.
Proof.
  intros Hw Hne. unfold no_space_last. rewrite rev_app_distr.
  apply Forall_rev in Hw. destruct (rev w) as [|c t] eqn:E.
  - apply (f_equal (@rev ascii)) in E. rewrite rev_involutive in E. simpl in E. congruence.
  - inversion Hw; subst. simpl. congruence.
Qed.

(** ** The SQL block pattern *)

Lemma sql_block_attempt f prev fence rest body close post :
  dotall f = true ->
  strip_prefix f (s_ "```sql") (fence ++ rest) = Some (fence, rest) ->
  split_at_first f (s_ "```") rest = Some (body, close, post) ->
  attempt f sql_block_pattern prev (fence ++ rest) =
  Some (post, [(1, Py.strip body)]).
Proof.
  intros Hf Hfence Hsplit. unfold attempt, sql_block_pattern.
  rewrite exec_seq, exec_lit, Hfence. cbv beta.
  rewrite exec_seq, exec_star_greedy.
  destruct (split_at_first_spec _ _ _ Hsplit) as (Hrest & Hclose & Hbefore).
  destruct (strip_spec body) as (w1 & w2 & Hbody & Hw1 & Hw2 & Hh & Hl & Hempty).
  set (core := Py.strip body) in *.
  assert (Hrest' : rest = w1 ++ (core ++ w2 ++ close ++ post)).
  { rewrite Hrest, Hbody. repeat rewrite <- app_assoc. reflexivity. }
  rewrite Hrest'.
  apply star_greedy_max.
  - apply all_space. exact Hw1.
  - destruct core as [|c0 core0] eqn:Ecore.
    + rewrite (Hempty eq_refl). simpl. eapply fence_refuses_space. exact Hclose.
    + exact Hh.
  - cbv beta. rewrite exec_seq, exec_grp, exec_star_lazy.
    rewrite star_lazy_skip.
    + apply star_lazy_hit. cbv beta. rewrite exec_seq, exec_star_greedy.
      eapply closing_fence; eauto.
      rewrite firstn_app_minus. reflexivity.
    + apply all_any. exact Hf.
    + intros a1 a2 Ha Hne. cbv beta. rewrite exec_seq, exec_star_greedy.
      destruct (lstrip_spec a2) as (w & Ha2 & Hw & Hh2).
      set (a3 := Py.lstrip a2) in *.
      assert (Ha3 : a3 <> []).
      { intros E. rewrite E, app_nil_r in Ha2. subst a2.
        rewrite Ha in Hl. eapply space_run_not_last; eauto. }
      rewrite Ha2. rewrite <- app_assoc.
      apply star_greedy_fail.
      * destruct a3; [congruence|exact Hh2].
      * intros x1 x2 Hx. rewrite exec_lit.
        replace (x2 ++ a3 ++ w2 ++ close ++ post)
          with ((x2 ++ a3 ++ w2) ++ close ++ post)
          by (repeat rewrite <- app_assoc; reflexivity).
        rewrite (Hbefore (w1 ++ a1 ++ x1) (x2 ++ a3 ++ w2)); [reflexivity| |].
        -- rewrite Hbody, Ha, Ha2, Hx. repeat rewrite <- app_assoc. reflexivity.
        -- destruct x2; [destruct a3; [congruence|discriminate]|discriminate].
Qed.

Lemma attempt_lit_fail f p r prev s :
  strip_prefix f p s = None -> attempt f (Seq (lit p) r) prev s = None.
Proof. intros H. unfold attempt. rewrite exec_seq, exec_lit, H. reflexivity. Qed.

Lemma sql_block_search response pre fence rest body close post :
  split_at_first DOTALL_IGNORECASE (s_ "```sql") response = Some (pre, fence, rest) ->
  split_at_first DOTALL_IGNORECASE (s_ "```") rest = Some (body, close, post) ->
  search sql_block_pattern response DOTALL_IGNORECASE =
  Some {| m_start := List.length pre;
          m_group0 := fence ++ body ++ close;
          m_caps := [(1, Py.strip body)] |}.
Proof.
  intros H1 H2.
  destruct (split_at_first_spec _ _ _ H1) as (Hresp & Hfence & Hbefore).
  destruct (split_at_first_spec _ _ _ H2) as (Hrest & _ & _).
  unfold search. rewrite Hresp, search_from_skip.
  - erewrite search_from_hit by (eapply sql_block_attempt; eauto).
    simpl. rewrite Hrest.
    replace (fence ++ body ++ close ++ post) with ((fence ++ body ++ close) ++ post)
      by (repeat rewrite <- app_assoc; reflexivity).
    rewrite firstn_app_minus. reflexivity.
  - intros a1 a2 Ha Hne. apply attempt_lit_fail. eauto.
Qed.

(** C6.  When the trimmed text does not begin with SELECT, the text after
    the first [```sql] tag (in any letter case) up to the next [```] is
    returned, trimmed. *)
Theorem extract_sql_query_fenced_block response pre fence rest body close post :
  starts_with_select response = false ->
  split_at_first DOTALL_IGNORECASE (s_ "```sql") response = Some (pre, fence, rest) ->
  split_at_first DOTALL_IGNORECASE (s_ "```") rest = Some (body, close, post) ->
  extract_sql_query response = Ret (Py.strip body).
Proof.
  intros Hsel H1 H2. unfold extract_sql_query.
  rewrite Hsel, (sql_block_search _ H1 H2).
  unfold group. simpl. rewrite strip_idempotent. reflexivity.
Qed.

Lemma extract_sql_query_fenced_block_example :
  extract_sql_query example_fenced_sql = Ret (s_ "SELECT name FROM users;").
Proof.
  apply (@extract_sql_query_fenced_block example_fenced_sql
           (s_ ("Here is the result:" ++ LF)) (s_ "```sql")
           (s_ (LF ++ "SELECT name FROM users;" ++ LF ++ "```"))
           (s_ (LF ++ "SELECT name FROM users;" ++ LF)) (s_ "```") []);
    vm_compute; reflexivity.
Defined.

(** ** Matching in a text and in the same text between white space *)

Lemma space_not_word c : Py.isspace c = true -> Py.isword c = false.
Proof.
  destruct c as [[] [] [] [] [] [] [] []]; vm_compute; congruence.
Qed.

Lemma space_run_no_word_head w : is_space_run w -> no_word_head w.
Proof.
  intros H. destruct w as [|c w]; [reflexivity|].
  inversion H; subst. unfold no_word_head. simpl. apply space_not_word. assumption.
Qed.

Lemma space_run_word_status w : is_space_run w ->
  forall prev, word_status prev = false -> word_status (lastc prev w) = false.
Proof.
  induction 1 as [|c w Hc Hw IH]; intros prev Hp; simpl.
  - exact Hp.
  - apply IH. simpl. apply space_not_word. exact Hc.
Qed.

Section PrevIrrelevant.
Variable f : flags.
Variable R : Type.

Lemma exec_prev r : forall p1 p2 s g (k : cont R),
  word_status p1 = word_status p2 -> respects_status k ->
  exec f r p1 s g k = exec f r p2 s g k.
Proof.
  induction r; intros p1 p2 s g k Hp Hk.
  - simpl. apply Hk. exact Hp.
  - reflexivity.
  - simpl. unfold at_boundary. fold (word_status p1). fold (word_status p2).
    rewrite Hp. rewrite (Hk p1 p2 s g Hp). reflexivity.
  - simpl. apply IHr1; auto. intros q q' s' g' Hq. apply IHr2; auto.
  - simpl. rewrite (IHr1 p1 p2), (IHr2 p1 p2); auto.
  - destruct greedy; simpl.
    + destruct s as [|c t]; simpl.
      * apply Hk. exact Hp.
      * rewrite (Hk p1 p2 (c :: t) g Hp). reflexivity.
    + destruct s as [|c t]; simpl; rewrite (Hk p1 p2 _ g Hp); reflexivity.
  - simpl. apply IHr; auto. intros q q' s' g' Hq. apply Hk. exact Hq.
Qed.
End PrevIrrelevant.

Lemma attempt_prev f r p1 p2 s :
  word_status p1 = word_status p2 -> attempt f r p1 s = attempt f r p2 s.
Proof.
  intros H. unfold attempt. apply exec_prev; auto.
  intros p p' s' g _. reflexivity.
Qed.

Lemma search_from_prev f r p1 p2 i s :
  word_status p1 = word_status p2 ->
  search_from f r p1 i s = search_from f r p2 i s.
Proof.
  intros H. destruct s; simpl; rewrite (@attempt_prev f r p1 p2 _ H); reflexivity.
Qed.

Lemma search_from_index f r : forall s prev i j,
  search_from f r prev i s = None -> search_from f r prev j s = None.
Proof.
  induction s as [|c t IH]; intros prev i j H; simpl in *.
  - destruct (attempt f r prev []) as [[? ?]|]; [discriminate H|reflexivity].
  - destruct (attempt f r prev (c :: t)) as [[? ?]|]; [discriminate H|].
    eapply IH. exact H.
Qed.

Section Extend.
Variable f : flags.
Variable b : str.
Hypothesis Hb : no_word_head b.
Variables R R' : Type.

Lemma at_boundary_extend prev s : at_boundary prev (s ++ b) = at_boundary prev s.
Proof.
  destruct s as [|c t]; [|reflexivity].
  unfold at_boundary. simpl. fold (word_status (hd_error b)).
  rewrite Hb. reflexivity.
Qed.

Lemma star_lazy_extend cs : forall s prev k k',
  (forall p s', k p s' <> None -> k' p (s' ++ b) <> None) ->
  star_lazy f cs prev s k <> @None R ->
  star_lazy f cs prev (s ++ b) k' <> @None R'.
Proof.
  induction s as [|c t IH]; intros prev k k' Hk H.
  - simpl in H. destruct (k prev []) eqn:E; [|congruence].
    assert (H' : k' prev ([] ++ b) <> None) by (apply Hk; congruence).
    simpl in *. destruct b; simpl; destruct (k' prev _); congruence.
  - simpl in *. destruct (k prev (c :: t)) eqn:E.
    + assert (H' : k' prev ((c :: t) ++ b) <> None) by (apply Hk; congruence).
      simpl in H'. destruct (k' prev (c :: t ++ b)); congruence.
    + destruct (k' prev (c :: t ++ b)); [congruence|].
      destruct (accepts f cs c); [|congruence].
      eapply IH; eauto.
Qed.

Lemma star_greedy_extend cs : forall s prev k k',
  (forall p s', k p s' <> None -> k' p (s' ++ b) <> None) ->
  star_greedy f cs prev s k <> @None R ->
  star_greedy f cs prev (s ++ b) k' <> @None R'.
Proof.
  induction s as [|c t IH]; intros prev k k' Hk H.
  - simpl in H. apply Hk in H. simpl in *.
    destruct b as [|c0 b0]; simpl; [exact H|].
    destruct (accepts f cs c0); [|exact H].
    destruct (star_greedy f cs (Some c0) b0 k'); [congruence|exact H].
  - simpl in *. destruct (accepts f cs c).
    + destruct (star_greedy f cs (Some c) t k) eqn:E.
      * assert (H' : star_greedy f cs (Some c) (t ++ b) k' <> None)
          by (eapply IH; eauto; congruence).
        destruct (star_greedy f cs (Some c) (t ++ b) k'); congruence.
      * destruct (star_greedy f cs (Some c) (t ++ b) k'); [congruence|].
        apply (Hk prev (c :: t)). exact H.
    + apply (Hk prev (c :: t)). exact H.
Qed.

Lemma exec_extend r : forall prev s g (k : cont R) (k' : cont R'),
  carries b k k' ->
  exec f r prev s g k <> None -> exec f r prev (s ++ b) g k' <> None.
Proof.
  induction r; intros prev s g k k' Hk H.
  - simpl in *. apply Hk. exact H.
  - simpl in *. destruct s as [|c t]; [congruence|]. simpl.
    destruct (accepts f cs c); [|congruence]. apply Hk. exact H.
  - simpl in *. rewrite at_boundary_extend.
    destruct (at_boundary prev s); [|congruence]. apply Hk. exact H.
  - simpl in *. eapply IHr1; [|exact H].
    intros p s' g' H'. eapply IHr2; eauto.
  - simpl in *. destruct (exec f r1 prev s g k) eqn:E.
    + assert (H' : exec f r1 prev (s ++ b) g k' <> None)
        by (eapply IHr1; eauto; congruence).
      destruct (exec f r1 prev (s ++ b) g k'); congruence.
    + destruct (exec f r1 prev (s ++ b) g k'); [congruence|].
      eapply IHr2; eauto.
  - destruct greedy; simpl in *.
    + eapply star_greedy_extend; [|exact H]. intros p s'. apply Hk.
    + eapply star_lazy_extend; [|exact H]. intros p s'. apply Hk.
  - simpl in *. eapply IHr; [|exact H].
    intros p s' g' H'. apply Hk in H'.
    replace (firstn (List.length (s ++ b) - List.length (s' ++ b)) (s ++ b))
      with (firstn (List.length s - List.length s') s); [exact H'|].
    repeat rewrite length_app.
    replace (List.length s + List.length b - (List.length s' + List.length b))
      with (List.length s - List.length s') by lia.
    rewrite firstn_app.
    replace (List.length s - List.length s' - List.length s) with 0 by lia.
    simpl. rewrite app_nil_r. reflexivity.
Qed.
End Extend.

Lemma attempt_extend f r prev s b :
  no_word_head b ->
  attempt f r prev s <> None -> attempt f r prev (s ++ b) <> None.
Proof.
  intros Hb. unfold attempt. apply exec_extend; auto.
  intros p s' g _. discriminate.
Qed.

Lemma search_from_extend f r b : no_word_head b ->
  forall s prev i,
    search_from f r prev i s <> None -> search_from f r prev i (s ++ b) <> None.
Proof.
  intros Hb. induction s as [|c t IH]; intros prev i H.
  - simpl in H. destruct (attempt f r prev []) as [[s' g]|] eqn:E; [|congruence].
    assert (H' : attempt f r prev ([] ++ b) <> None)
      by (apply attempt_extend; auto; congruence).
    simpl in *. destruct (attempt f r prev b) as [[s1 g1]|] eqn:E1; [|congruence].
    erewrite search_from_hit by eassumption. discriminate.
  - simpl in *. destruct (attempt f r prev (c :: t)) as [[s' g]|] eqn:E.
    + assert (H' : attempt f r prev ((c :: t) ++ b) <> None)
        by (apply attempt_extend; auto; congruence).
      simpl in H'. destruct (attempt f r prev (c :: t ++ b)) as [[? ?]|]; congruence.
    + destruct (attempt f r prev (c :: t ++ b)) as [[? ?]|]; [discriminate|].
      apply IH. exact H.
Qed.

Lemma search_from_after_spaces f r s : forall w prev i j,
  is_space_run w -> word_status prev = false ->
  search_from f r None i s <> None ->
  search_from f r prev j (w ++ s) <> None.
Proof.
  induction w as [|c w IH]; intros prev i j Hw Hp H.
  - simpl. rewrite (@search_from_prev f r prev None j s Hp).
    intros E. apply H. eapply search_from_index. exact E.
  - inversion Hw; subst. simpl.
    destruct (attempt f r prev (c :: w ++ s)) as [[? ?]|]; [discriminate|].
    eapply IH; eauto. simpl. apply space_not_word. assumption.
Qed.

(** A pattern found in the trimmed text is found in the text. *)
Lemma search_strip_none r response f :
  search r response f = None -> search r (Py.strip response) f = None.
Proof.
  intros H.
  destruct (strip_spec response) as (w1 & w2 & Hs & Hw1 & Hw2 & _).
  destruct (search r (Py.strip response) f) eqn:E; [|reflexivity].
  exfalso. unfold search in *.
  assert (H1 : search_from f r None 0 (Py.strip response ++ w2) <> None).
  { apply search_from_extend.
    - apply space_run_no_word_head. exact Hw2.
    - congruence. }
  assert (H2 : search_from f r None 0 (w1 ++ Py.strip response ++ w2) <> None).
  { eapply search_from_after_spaces; eauto. }
  rewrite <- Hs in H2. congruence.
Qed.

(** C7.  When the text does not begin with SELECT and neither the
    [```sql] block pattern nor the [\bSELECT\b.*?;] pattern is found in
    it, the trimmed text is returned, and extracting again from that
    result returns it unchanged. *)
Theorem extract_sql_query_fallback_idempotent response :
  starts_with_select response = false ->
  search sql_block_pattern response DOTALL_IGNORECASE = None ->
  search select_pattern response DOTALL_IGNORECASE = None ->
  extract_sql_query response = Ret (Py.strip response) /\
  extract_sql_query (Py.strip response) = Ret (Py.strip response).
Proof.
  intros Hsel Hblock Hselect. split.
  - unfold extract_sql_query. rewrite Hsel, Hblock, Hselect. reflexivity.
  - unfold extract_sql_query, starts_with_select.
    rewrite strip_idempotent. fold (starts_with_select response).
    rewrite Hsel, (search_strip_none _ _ _ Hblock), (search_strip_none _ _ _ Hselect).
    reflexivity.
Qed.

Lemma extract_sql_query_fallback_idempotent_example :
  extract_sql_query (s_ "  I cannot answer that.  ") = Ret (s_ "I cannot answer that.") /\
  extract_sql_query (s_ "I cannot answer that.") = Ret (s_ "I cannot answer that.").
Proof.
  apply (@extract_sql_query_fallback_idempotent (s_ "  I cannot answer that.  "));
    vm_compute; reflexivity.
Defined.

(** ** The chart code of the matplotlib kind *)

Lemma lazy_any_lit_attempt f p1 p2 n prev fence rest body close post :
  dotall f = true ->
  strip_prefix f p1 (fence ++ rest) = Some (fence, rest) ->
  split_at_first f p2 rest = Some (body, close, post) ->
  attempt f (Seq (lit p1) (Seq (Grp n (Star false CAny)) (lit p2))) prev
          (fence ++ rest) = Some (post, [(n, body)]).
Proof.
  intros Hf Hfence Hsplit. unfold attempt.
  rewrite exec_seq, exec_lit, Hfence. cbv beta.
  rewrite exec_seq, exec_grp, exec_star_lazy.
  destruct (split_at_first_spec _ _ _ Hsplit) as (Hrest & Hclose & Hbefore).
  rewrite Hrest, star_lazy_skip.
  - apply star_lazy_hit. rewrite exec_lit, Hclose, firstn_app_minus. reflexivity.
  - apply all_any. exact Hf.
  - intros a1 a2 Ha Hne. rewrite exec_lit, (Hbefore a1 a2 Ha Hne). reflexivity.
Qed.

Lemma lazy_any_lit_search f p1 p2 n response pre fence rest body close post :
  dotall f = true ->
  split_at_first f p1 response = Some (pre, fence, rest) ->
  split_at_first f p2 rest = Some (body, close, post) ->
  search (Seq (lit p1) (Seq (Grp n (Star false CAny)) (lit p2))) response f =
  Some {| m_start := List.length pre;
          m_group0 := fence ++ body ++ close;
          m_caps := [(n, body)] |}.
Proof.
  intros Hf H1 H2.
  destruct (split_at_first_spec _ _ _ H1) as (Hresp & Hfence & Hbefore).
  destruct (split_at_first_spec _ _ _ H2) as (Hrest & _ & _).
  unfold search. rewrite Hresp, search_from_skip.
  - erewrite search_from_hit by (eapply lazy_any_lit_attempt; eauto).
    simpl. rewrite Hrest.
    replace (fence ++ body ++ close ++ post) with ((fence ++ body ++ close) ++ post)
      by (repeat rewrite <- app_assoc; reflexivity).
    rewrite firstn_app_minus. reflexivity.
  - intros a1 a2 Ha Hne. apply attempt_lit_fail. eauto.
Qed.

(** Where a [```python] block exists, the value returned for the
    matplotlib kind is the match object of the search; the interior of
    the block is its group 1. *)
Lemma extract_code_response_matplotlib_block response pre fence rest body close post :
  split_at_first DOTALL (s_ "```python") response = Some (pre, fence, rest) ->
  split_at_first DOTALL (s_ "```") rest = Some (body, close, post) ->
  extract_code_response response (s_ "matplotlib") =
  PMatch {| m_start := List.length pre;
            m_group0 := fence ++ body ++ close;
            m_caps := [(1, body)] |}.
Proof.
  intros H1 H2. unfold extract_code_response.
  change (Py.str_eqb (s_ "matplotlib") (s_ "matplotlib")) with true. cbv iota.
  unfold PYTHON_REGEX. rewrite (@lazy_any_lit_search DOTALL _ _ 1 _ _ _ _ _ _ _ eq_refl H1 H2). reflexivity.
Qed.

(** For no text at all is the value returned for the matplotlib kind a
    string. *)
Lemma extract_code_response_matplotlib_never_str response code :
  extract_code_response response (s_ "matplotlib") <> PStr code.
Proof.
  unfold extract_code_response.
  change (Py.str_eqb (s_ "matplotlib") (s_ "matplotlib")) with true. cbv iota.
  destruct (search PYTHON_REGEX response DOTALL); discriminate.
Qed.

(** C1.  On a text that holds a [```python] block the matplotlib kind
    returns the match object of [re.search], not the interior of the block
    as a string (the interior is group 1 of that object). *)
Theorem extract_code_response_matplotlib_returns_match :
  extract_code_response example_python_block (s_ "matplotlib") =
  PMatch {| m_start := 0;
            m_group0 := example_python_block;
            m_caps := [(1, s_ (LF ++ "print(1)" ++ LF))] |} /\
  extract_code_response example_python_block (s_ "matplotlib") <>
  PStr (s_ (LF ++ "print(1)" ++ LF)).
Proof.
  split.
  - vm_compute. reflexivity.
  - apply extract_code_response_matplotlib_never_str.
Qed.

(** ** Alternatives and groups *)

Lemma attempt_alt f r1 r2 prev s :
  attempt f (Alt r1 r2) prev s =
  match attempt f r1 prev s with
  | Some x => Some x
  | None => attempt f r2 prev s
  end.
Proof. reflexivity. Qed.

Lemma search_from_start_ge f r : forall s prev i m,
  search_from f r prev i s = Some m -> i <= m_start m.
Proof.
  induction s as [|c t IH]; intros prev i m H; simpl in H.
  - destruct (attempt f r prev []) as [[? ?]|]; [|discriminate H].
    inversion H; subst. simpl. lia.
  - destruct (attempt f r prev (c :: t)) as [[? ?]|].
    + inversion H; subst. simpl. lia.
    + apply IH in H. lia.
Qed.

Lemma search_from_alt f r1 r2 : forall s prev i,
  search_from f (Alt r1 r2) prev i s =
  leftmost (search_from f r1 prev i s) (search_from f r2 prev i s).
Proof.
  induction s as [|c t IH]; intros prev i; simpl; rewrite attempt_alt.
  - destruct (attempt f r1 prev []) as [[s1 g1]|];
      destruct (attempt f r2 prev []) as [[s2 g2]|]; simpl;
      try rewrite Nat.leb_refl; reflexivity.
  - destruct (attempt f r1 prev (c :: t)) as [[s1 g1]|] eqn:E1.
    + destruct (attempt f r2 prev (c :: t)) as [[s2 g2]|] eqn:E2.
      * simpl. rewrite Nat.leb_refl. reflexivity.
      * destruct (search_from f r2 (Some c) (S i) t) as [m2|] eqn:E; [|reflexivity].
        apply search_from_start_ge in E. simpl.
        replace (i <=? m_start m2) with true
          by (symmetry; apply Nat.leb_le; lia).
        reflexivity.
    + destruct (attempt f r2 prev (c :: t)) as [[s2 g2]|] eqn:E2.
      * destruct (search_from f r1 (Some c) (S i) t) as [m1|] eqn:E; [|reflexivity].
        apply search_from_start_ge in E. simpl.
        replace (m_start m1 <=? i) with false
          by (symmetry; apply Nat.leb_gt; lia).
        reflexivity.
      * apply IH.
Qed.

Lemma search_alt f r1 r2 s :
  search (Alt r1 r2) s f = leftmost (search r1 s f) (search r2 s f).
Proof. apply search_from_alt. Qed.

Lemma exec_adds f R r : forall prev s g (k : cont R) x,
  exec f r prev s g k = Some x ->
  exists p' s' g', adds r g g' /\ k p' s' g' = Some x.
Proof.
  induction r; intros prev s g k x H; simpl in H.
  - exists prev, s, g. split; [reflexivity|exact H].
  - destruct s as [|c t]; [discriminate H|].
    destruct (accepts f cs c); [|discriminate H].
    exists (Some c), t, g. split; [reflexivity|exact H].
  - destruct (at_boundary prev s); [|discriminate H].
    exists prev, s, g. split; [reflexivity|exact H].
  - apply IHr1 in H. destruct H as (p1 & s1 & g1 & Ha1 & H).
    apply IHr2 in H. destruct H as (p2 & s2 & g2 & Ha2 & H).
    exists p2, s2, g2. split; [|exact H]. exists g1. auto.
  - destruct (exec f r1 prev s g k) eqn:E.
    + inversion H; subst. apply IHr1 in E.
      destruct E as (p1 & s1 & g1 & Ha & Hk).
      exists p1, s1, g1. split; [left; exact Ha|exact Hk].
    + apply IHr2 in H. destruct H as (p1 & s1 & g1 & Ha & Hk).
      exists p1, s1, g1. split; [right; exact Ha|exact Hk].
  - destruct greedy.
    + apply star_greedy_inv in H. destruct H as (a1 & a2 & _ & H).
      exists (lastc prev a1), a2, g. split; [reflexivity|exact H].
    + apply star_lazy_inv in H. destruct H as (a1 & a2 & _ & H).
      exists (lastc prev a1), a2, g. split; [reflexivity|exact H].
  - apply IHr in H. destruct H as (p1 & s1 & g1 & Ha & H).
    exists p1, s1, ((n, firstn (List.length s - List.length s1) s) :: g1).
    split; [|exact H]. exists g1. eexists. split; [exact Ha|reflexivity].
Qed.

Lemma adds_lit p : forall g g', adds (lit p) g g' -> g' = g.
Proof.
  induction p as [|c p IH]; intros g g' H; simpl in H.
  - exact H.
  - destruct H as (g1 & H1 & H2). apply IH in H2. congruence.
Qed.

Lemma search_adds f r s m : search r s f = Some m -> adds r [] (m_caps m).
Proof.
  unfold search. intros H. apply search_from_inv in H.
  destruct H as (a1 & a2 & s' & g & _ & Ha & -> & _). simpl.
  unfold attempt in Ha. apply exec_adds in Ha.
  destruct Ha as (p' & s1 & g' & Hadds & Hk). inversion Hk; subst. exact Hadds.
Qed.

(** ** The chart code of the chart.js kind *)

Lemma JAVASCRIPT_REGEX_alternatives :
  JAVASCRIPT_REGEX = Alt js_fenced_alternative script_tag_alternative.
Proof. reflexivity. Qed.

Lemma js_fenced_groups s m :
  search js_fenced_alternative s DOTALL = Some m ->
  exists c, m_caps m = [(1, c)].
Proof.
  intros H. apply search_adds in H. unfold js_fenced_alternative in H.
  destruct H as (g1 & H1 & g2 & H2 & g3 & (g4 & c & H3 & E3) & H4).
  apply adds_lit in H1, H4. simpl in H3.
  assert (g2 = g1) by (destruct H2 as [H2|H2]; apply adds_lit in H2; exact H2).
  exists c. congruence.
Qed.

Lemma script_tag_groups s m :
  search script_tag_alternative s DOTALL = Some m ->
  exists c, m_caps m = [(2, c)].
Proof.
  intros H. apply search_adds in H. unfold script_tag_alternative in H.
  destruct H as (g1 & H1 & g2 & H2 & g3 & H3 & g4 & H4 & g5 & (g6 & c & H5 & E5) & H6).
  apply adds_lit in H1, H4, H6. simpl in H2, H3, H5.
  exists c. congruence.
Qed.

Lemma chartjs_code_search response :
  chartjs_code response =
  match leftmost (search js_fenced_alternative response DOTALL)
                 (search script_tag_alternative response DOTALL) with
  | Some m =>
      if truthy (group_value 1 m) then group_value 1 m else group_value 2 m
  | None => PNone
  end.
Proof.
  unfold chartjs_code, extract_code_response.
  change (Py.str_eqb (s_ "chart.js") (s_ "matplotlib")) with false.
  change (Py.str_eqb (s_ "chart.js") (s_ "chart.js")) with true. cbv iota.
  rewrite JAVASCRIPT_REGEX_alternatives, search_alt. reflexivity.
Qed.

Lemma chartjs_code_of_script response m :
  search script_tag_alternative response DOTALL = Some m ->
  exists c, group 2 m = Some c /\
            (if truthy (group_value 1 m) then group_value 1 m else group_value 2 m)
            = PStr c.
Proof.
  intros H. destruct (script_tag_groups _ H) as (c & Hc).
  exists c. unfold group_value, group. rewrite Hc. simpl. auto.
Qed.

Lemma chartjs_code_of_fence response m c :
  search js_fenced_alternative response DOTALL = Some m ->
  group 1 m = Some c -> c <> [] ->
  (if truthy (group_value 1 m) then group_value 1 m else group_value 2 m) = PStr c.
Proof.
  intros H Hc Hne. unfold group_value. rewrite Hc. simpl.
  destruct c; [congruence|reflexivity].
Qed.

(** C4, amended.  For the chart.js kind: nothing found gives [None]; a
    script tag that no fenced block precedes gives the content of the
    tag; a fenced block with a non-empty capture that no script tag
    precedes gives that capture. *)
Theorem extract_code_response_chartjs_leftmost response :
  (search js_fenced_alternative response DOTALL = None ->
   search script_tag_alternative response DOTALL = None ->
   chartjs_code response = PNone) /\
  (forall ms,
     search script_tag_alternative response DOTALL = Some ms ->
     (forall mf, search js_fenced_alternative response DOTALL = Some mf ->
                 m_start ms < m_start mf) ->
     exists c, group 2 ms = Some c /\ chartjs_code response = PStr c) /\
  (forall mf c,
     search js_fenced_alternative response DOTALL = Some mf ->
     group 1 mf = Some c -> c <> [] ->
     (forall ms, search script_tag_alternative response DOTALL = Some ms ->
                 m_start mf < m_start ms) ->
     chartjs_code response = PStr c).
Proof.
  rewrite chartjs_code_search. repeat split.
  - intros -> ->. reflexivity.
  - intros ms Hs Hfirst.
    destruct (search js_fenced_alternative response DOTALL) as [mf|] eqn:Ef.
    + specialize (Hfirst mf eq_refl). rewrite Hs. simpl.
      replace (m_start mf <=? m_start ms) with false
        by (symmetry; apply Nat.leb_gt; exact Hfirst).
      eapply chartjs_code_of_script; eauto.
    + rewrite Hs. simpl. eapply chartjs_code_of_script; eauto.
  - intros mf c Hf Hc Hne Hfirst. rewrite Hf.
    destruct (search script_tag_alternative response DOTALL) as [ms|] eqn:Es.
    + specialize (Hfirst ms eq_refl). simpl.
      replace (m_start mf <=? m_start ms) with true
        by (symmetry; apply Nat.leb_le; lia).
      eapply chartjs_code_of_fence; eauto.
    + simpl. eapply chartjs_code_of_fence; eauto.
Qed.

Lemma extract_code_response_chartjs_leftmost_example :
  exists c, c = s_ "var x=1;" /\ chartjs_code example_script_only = PStr c.
Proof.
  destruct (proj1 (proj2 (extract_code_response_chartjs_leftmost example_script_only))
              {| m_start := 0; m_group0 := example_script_only;
                 m_caps := [(2, s_ "var x=1;")] |})
    as (c & Hc & H).
  - vm_compute. reflexivity.
  - intros mf Hmf. vm_compute in Hmf. discriminate Hmf.
  - exists c. split; [|exact H]. unfold group in Hc. simpl in Hc.
    injection Hc as <-. reflexivity.
Defined.

(** C4 as stated fails: a fenced block and a script tag are both present,
    the tag first, and the content of the tag is returned, not the fenced
    capture. *)
Lemma extract_code_response_chartjs_script_first :
  (exists mf, search js_fenced_alternative example_script_then_fence DOTALL = Some mf /\
              group 1 mf = Some (s_ (LF ++ "var y=2;"))) /\
  (exists ms, search script_tag_alternative example_script_then_fence DOTALL = Some ms) /\
  chartjs_code example_script_then_fence = PStr (s_ "var x=1;") /\
  chartjs_code example_script_then_fence <> PStr (s_ (LF ++ "var y=2;")).
Proof.
  split; [|split; [|split]].
  - eexists. split; vm_compute; reflexivity.
  - eexists. vm_compute. reflexivity.
  - vm_compute. reflexivity.
  - intros H. vm_compute in H. discriminate H.
Qed.

(** ** The request pipeline *)

Section PipelineFacts.
Context {env : Collaborators}.
Variable self : OpenSQLRAG.

Lemma bind_ret A B (c : M A) (k : A -> M B) (w w' : @World env) a :
  c w = (Ret a, w') -> bind c k w = k a w'.
Proof. intros H. unfold bind. rewrite H. reflexivity. Qed.

Lemma bind_raise A B (c : M A) (k : A -> M B) (w w' : @World env) e :
  c w = (Raise e, w') -> bind c k w = (Raise e, w').
Proof. intros H. unfold bind. rewrite H. reflexivity. Qed.

Lemma time_time_run (w : @World env) :
  time_time w = (Ret (clock env (w_ticks w)), tick w).
Proof. reflexivity. Qed.



(** C9, amended.  [get] returns [None] when the server has no value for
    the key, and when the stored text is empty; when the stored text
    does not decode, the error of the decoder is raised. *)
Theorem RedisCache_get_absent_or_raises (key : str) (w : @World env) :
  (forall r,
     redis_get env (w_redis w) key = (Ret None, r) ->
     RedisCache_get key w =
       (Ret PNone, logged w r (w_model w) (w_db w) [EvCacheGet key])) /\
  (forall r,
     redis_get env (w_redis w) key = (Ret (Some []), r) ->
     RedisCache_get key w =
       (Ret PNone, logged w r (w_model w) (w_db w) [EvCacheGet key])) /\
  (forall r text e,
     redis_get env (w_redis w) key = (Ret (Some text), r) ->
     text <> [] ->
     json_loads env text = Raise e ->
     RedisCache_get key w =
       (Raise e, logged w r (w_model w) (w_db w) [EvCacheGet key])).
Proof.
  unfold RedisCache_get, bind, client_get, logged, lift, ret.
  split; [|split].
  - intros r ->. reflexivity.
  - intros r ->. reflexivity.
  - intros r text e -> Hne ->. destruct text; [congruence|reflexivity].
Qed.

(** The SQL step: the OpenAI model is called once and the trimmed
    content of its answer is the SQL; the call of the local model is
    refused before it starts, [input] being no parameter of
    [OpenLLM.invoke]. *)
Lemma generate_sql_query_run (query : pyvalue) (w : @World env) :
  _generate_sql_query self query w =
  if is_openai self then
    match chat_invoke env (w_model w) (sql_prompt env self query) with
    | (Ret content, m) =>
        (Ret (Py.strip content),
         logged w (w_redis w) m (w_db w) [EvModel (sql_prompt env self query)])
    | (Raise e, m) =>
        (Raise e,
         logged w (w_redis w) m (w_db w) [EvModel (sql_prompt env self query)])
    end
  else
    (Raise {| e_class := TypeError;
              e_str := s_ "OpenLLM.invoke() got an unexpected keyword argument 'input'" |},
     w).
Proof.
  unfold _generate_sql_query, llm_invoke_input, bind, sql_prompt.
  destruct (is_openai self).
  - unfold ChatOpenAI_invoke_content, model_call, logged, ret.
    destruct (chat_invoke env (w_model w) _) as [[content|e] m]; reflexivity.
  - reflexivity.
Qed.

(** With the local model every valid request stops at the SQL step, the
    model not called. *)
Lemma generate_code_and_sql_local_backend
      (data : dict) (chart_type : str) (query : pyvalue) (w : @World env) :
  is_openai self = false ->
  dict_get data (s_ "chart_type") = Some (PStr chart_type) ->
  dict_get data (s_ "query") = Some query ->
  str_in (Py.lower chart_type) ALLOWED_CHART_TYPES = true ->
  generate_code_and_sql self data w =
    (Raise {| e_class := TypeError;
              e_str := s_ "OpenLLM.invoke() got an unexpected keyword argument 'input'" |},
     tick w).
Proof.
  intros Hlocal Hct Hq Hallowed. unfold generate_code_and_sql.
  erewrite bind_ret by apply time_time_run.
  rewrite Hct. cbn [py_lower]. rewrite Hq, Hallowed. change (negb true) with false. cbv iota.
  erewrite bind_raise; [reflexivity|].
  rewrite generate_sql_query_run, Hlocal. reflexivity.
Qed.

(** C5.  A valid request whose SQL is the key of a stored entry (a text
    that decodes to a dict with at least one key) is answered from the
    entry: after the model call that produced the SQL and the lookup,
    nothing is called (no SQL is run, no chart code is asked for, nothing
    is stored) and the clock is read. *)
Theorem generate_code_and_sql_cache_hit
        (data : dict) (chart_type : str) (query : pyvalue) (sql text : str)
        (w w1 : @World env) (r : Redis env)
        (entry : list (str * pyvalue)) :
  dict_get data (s_ "chart_type") = Some (PStr chart_type) ->
  dict_get data (s_ "query") = Some query ->
  str_in (Py.lower chart_type) ALLOWED_CHART_TYPES = true ->
  _generate_sql_query self query (tick w) = (Ret sql, w1) ->
  redis_get env (w_redis w1) sql = (Ret (Some text), r) ->
  text <> [] ->
  json_loads env text = Ret (PDict entry) ->
  entry <> [] ->
  generate_code_and_sql self data w =
    (Ret {| message := s_ "Fetching result from Redis cache...";
            sql_query := assoc entry (s_ "sql_query");
            chart_code := assoc entry (s_ "chart_code");
            total_time := PrimFloat.sub (clock env (S (w_ticks w)))
                                        (clock env (w_ticks w)) |},
     {| w_redis := r; w_model := w_model w1; w_db := w_db w;
        w_ticks := S (S (w_ticks w));
        w_trace := w_trace w ++ [EvModel (sql_prompt env self query); EvCacheGet sql] |}).
Proof.
  intros Hct Hq Hallowed Hsql Hget Htext Hloads Hentry.
  assert (Hw1 : w_db w1 = w_db w /\ w_ticks w1 = S (w_ticks w) /\
                w_trace w1 = w_trace w ++ [EvModel (sql_prompt env self query)]).
  { rewrite generate_sql_query_run in Hsql.
    destruct (is_openai self); [|discriminate Hsql].
    destruct (chat_invoke env (w_model (tick w)) _) as [[content|e] m];
      inversion Hsql; subst; simpl; auto. }
  destruct Hw1 as (Hdb & Hticks & Htrace).
  unfold generate_code_and_sql.
  erewrite bind_ret by apply time_time_run.
  rewrite Hct. cbn [py_lower]. rewrite Hq, Hallowed.
  change (negb true) with false. cbv iota.
  erewrite bind_ret by exact Hsql.
  assert (Hcache : _check_cache sql w1 =
            (Ret (PDict entry),
             logged w1 r (w_model w1) (w_db w1) [EvCacheGet sql])).
  { unfold _check_cache, RedisCache_get, bind, client_get. rewrite Hget.
    destruct text as [|c text]; [congruence|].
    simpl. unfold lift. rewrite Hloads. reflexivity. }
  erewrite bind_ret by exact Hcache.
  destruct entry as [|item entry]; [congruence|].
  simpl truthy. cbv iota.
  unfold _format_response, bind, lift, time_time, ret, logged, py_get. simpl w_ticks.
  simpl w_trace. simpl w_db. simpl w_redis. simpl w_model.
  rewrite Hdb, Hticks, Htrace, <- app_assoc. reflexivity.
Qed.

(** *** Which calls a computation makes *)

Lemma extends_by_refl k (w : @World env) : extends_by k w w.
Proof. exists []. split; [symmetry; apply app_nil_r|constructor]. Qed.

Lemma extends_by_trans k (w1 w2 w3 : @World env) :
  extends_by k w1 w2 -> extends_by k w2 w3 -> extends_by k w1 w3.
Proof.
  intros (t1 & H1 & F1) (t2 & H2 & F2). exists (t1 ++ t2). split.
  - rewrite H2, H1, app_assoc. reflexivity.
  - apply Forall_app. auto.
Qed.

Lemma extends_by_log k (w w' : @World env) ev :
  w_trace w' = w_trace w ++ [ev] -> keyed_by k ev -> extends_by k w w'.
Proof. intros H Hk. exists [ev]. split; [exact H|]. constructor; auto. Qed.

Lemma keeps_ret k A (a : A) : @keeps env k _ (ret a).
Proof. intros w. apply extends_by_refl. Qed.

Lemma keeps_raise k A e : @keeps env k _ (@raise env A e).
Proof. intros w. apply extends_by_refl. Qed.

Lemma keeps_lift k A (r : result A) : @keeps env k _ (lift r).
Proof. intros w. apply extends_by_refl. Qed.

Lemma keeps_bind k A B (c : M A) (f : A -> M B) :
  @keeps env k _ c -> (forall a, @keeps env k _ (f a)) -> @keeps env k _ (bind c f).
Proof.
  intros Hc Hf w. unfold bind. specialize (Hc w).
  destruct (c w) as [[a|e] w1]; simpl in *.
  - eapply extends_by_trans; [exact Hc|apply Hf].
  - exact Hc.
Qed.

Lemma keeps_try k A (c : M A) (h : exn -> M A) :
  @keeps env k _ c -> (forall e, @keeps env k _ (h e)) -> @keeps env k _ (try_except c h).
Proof.
  intros Hc Hh w. unfold try_except. specialize (Hc w).
  destruct (c w) as [[a|e] w1]; simpl in *.
  - exact Hc.
  - eapply extends_by_trans; [exact Hc|apply Hh].
Qed.

Lemma keeps_time k : @keeps env k _ time_time.
Proof.
  intros w. exists []. simpl. split; [symmetry; apply app_nil_r|constructor].
Qed.

Lemma keeps_client_get k : @keeps env k _ (client_get k).
Proof.
  intros w. unfold client_get. destruct (redis_get env (w_redis w) k).
  eapply extends_by_log; reflexivity.
Qed.

Lemma keeps_client_set k value ex : @keeps env k _ (client_set k value ex).
Proof.
  intros w. unfold client_set. destruct (redis_set env (w_redis w) k value ex).
  eapply extends_by_log; reflexivity.
Qed.

Lemma keeps_model_call k step prompt : @keeps env k _ (model_call step prompt).
Proof.
  intros w. unfold model_call. destruct (step (w_model w)).
  eapply extends_by_log; [reflexivity|exact I].
Qed.

Lemma keeps_db_call k : @keeps env k _ (db_call k).
Proof.
  intros w. unfold db_call. destruct (db_run env (w_db w) k).
  eapply extends_by_log; reflexivity.
Qed.

Lemma keeps_llm_invoke_input k message : @keeps env k _ (llm_invoke_input self message).
Proof.
  unfold llm_invoke_input. destruct (is_openai self).
  - apply keeps_model_call.
  - apply keeps_raise.
Qed.

Lemma keeps_check_cache k : @keeps env k _ (_check_cache k).
Proof.
  unfold _check_cache, RedisCache_get. apply keeps_bind.
  - apply keeps_client_get.
  - intros [data|]; [|apply keeps_ret].
    destruct (truthy (PStr data)); [apply keeps_lift|apply keeps_ret].
Qed.

Lemma keeps_format_response k msg result start :
  @keeps env k _ (_format_response msg result start).
Proof.
  unfold _format_response.
  apply keeps_bind; [apply keeps_lift|intros sql].
  apply keeps_bind; [apply keeps_lift|intros code].
  apply keeps_bind; [apply keeps_time|intros now]. apply keeps_ret.
Qed.

Lemma keeps_generate_chart_code k chart_type result :
  @keeps env k _ (_generate_chart_code self chart_type result).
Proof.
  unfold _generate_chart_code.
  apply keeps_bind; [apply keeps_llm_invoke_input|intros response].
  destruct (extract_code_response response chart_type);
    solve [apply keeps_raise | apply keeps_ret].
Qed.

Lemma keeps_cache_result k result chart_code :
  @keeps env k _ (_cache_result k result chart_code).
Proof.
  unfold _cache_result, RedisCache_set.
  apply keeps_bind; [apply keeps_lift|intros text]. apply keeps_client_set.
Qed.

(** What follows the lookup, on a miss. *)
Lemma keeps_miss_branch k chart_type start :
  @keeps env k _
    (try_except
       (bind (db_call k)
          (fun result =>
             bind (_generate_chart_code self chart_type result)
               (fun chart_code =>
                  bind (_cache_result k result chart_code)
                    (fun _ =>
                       _format_response
                         (s_ "Query and chart generated successfully.")
                         (PDict [(s_ "sql_query", PStr k);
                                 (s_ "chart_code", chart_code)])
                         start))))
       (fun e => raise (something_went_wrong e))).
Proof.
  apply keeps_try; [|intros e; apply keeps_raise].
  apply keeps_bind; [apply keeps_db_call|intros result].
  apply keeps_bind; [apply keeps_generate_chart_code|intros chart_code].
  apply keeps_bind; [apply keeps_cache_result|intros _].
  apply keeps_format_response.
Qed.

(** What follows the SQL step logs only calls for the SQL text. *)
Lemma keeps_after_sql_step k chart_type start :
  @keeps env k _
    (bind (_check_cache k)
       (fun cached_result =>
          if truthy cached_result
          then _format_response (s_ "Fetching result from Redis cache...")
                                cached_result start
          else
            try_except
              (bind (db_call k)
                 (fun result =>
                    bind (_generate_chart_code self chart_type result)
                      (fun chart_code =>
                         bind (_cache_result k result chart_code)
                           (fun _ =>
                              _format_response
                                (s_ "Query and chart generated successfully.")
                                (PDict [(s_ "sql_query", PStr k);
                                        (s_ "chart_code", chart_code)])
                                start))))
              (fun e => raise (something_went_wrong e)))).
Proof.
  apply keeps_bind; [apply keeps_check_cache|intros cached].
  destruct (truthy cached);
    [apply keeps_format_response|apply keeps_miss_branch].
Qed.

Lemma lower_allowed allowed :
  In allowed ALLOWED_CHART_TYPES ->
  Py.lower allowed = allowed /\ str_in allowed ALLOWED_CHART_TYPES = true.
Proof.
  intros [<-|[<-|[]]]; split; reflexivity.
Qed.

(** C10.  A request whose [chart_type] is an allowed value in another
    letter case passes the check: with the OpenAI model the model is
    asked for the SQL of its query, with the local model the run stops
    at the call of [invoke] and not at the check.  The whole run is the
    run of a request with the same query and the allowed value itself. *)
Theorem generate_code_and_sql_chart_type_case
        (data1 data2 : dict) (chart_type allowed : str) (query : pyvalue)
        (w : @World env) :
  In allowed ALLOWED_CHART_TYPES ->
  Py.lower chart_type = allowed ->
  dict_get data1 (s_ "chart_type") = Some (PStr chart_type) ->
  dict_get data2 (s_ "chart_type") = Some (PStr allowed) ->
  dict_get data1 (s_ "query") = Some query ->
  dict_get data2 (s_ "query") = Some query ->
  generate_code_and_sql self data1 w = generate_code_and_sql self data2 w /\
  (is_openai self = true ->
   exists tail,
     w_trace (snd (generate_code_and_sql self data1 w)) =
       w_trace w ++ EvModel (sql_prompt env self query) :: tail) /\
  (is_openai self = false ->
   generate_code_and_sql self data1 w =
     (Raise {| e_class := TypeError;
               e_str := s_ "OpenLLM.invoke() got an unexpected keyword argument 'input'" |},
      tick w)) /\
  (forall msg,
     generate_code_and_sql self data1 w <> (Raise (invalid_input msg), tick w)).
Proof.
  intros Hin Hl H1 H2 Hq1 Hq2.
  destruct (lower_allowed Hin) as (Hfix & Hallowed).
  assert (Hsame : generate_code_and_sql self data1 w =
                  generate_code_and_sql self data2 w).
  { unfold generate_code_and_sql. rewrite H1, H2. cbn [py_lower].
    rewrite Hq1, Hq2, Hl, Hfix. reflexivity. }
  assert (Hopen : is_openai self = true ->
            exists tail,
              w_trace (snd (generate_code_and_sql self data1 w)) =
                w_trace w ++ EvModel (sql_prompt env self query) :: tail).
  { intros Hopenai. unfold generate_code_and_sql.
    erewrite bind_ret by apply time_time_run.
    rewrite H1. cbn [py_lower]. rewrite Hq1, Hl, Hallowed.
    change (negb true) with false. cbv iota.
    unfold bind at 1. rewrite generate_sql_query_run, Hopenai.
    destruct (chat_invoke env (w_model (tick w)) (sql_prompt env self query))
      as [[content|e] m].
    - match goal with
      | |- context [snd (?c ?w1)] =>
          destruct (@keeps_after_sql_step (Py.strip content) allowed
                      (clock env (w_ticks w)) w1) as (tail & Ht & _)
      end.
      exists tail. rewrite Ht. unfold logged, tick. simpl.
      rewrite <- app_assoc. reflexivity.
    - exists []. reflexivity. }
  assert (Hlocal : is_openai self = false ->
            generate_code_and_sql self data1 w =
              (Raise {| e_class := TypeError;
                        e_str := s_ "OpenLLM.invoke() got an unexpected keyword argument 'input'" |},
               tick w)).
  { intros Hloc.
    apply (@generate_code_and_sql_local_backend data1 chart_type query w Hloc H1 Hq1).
    rewrite Hl. exact Hallowed. }
  split; [exact Hsame|]. split; [exact Hopen|]. split; [exact Hlocal|].
  intros msg Hrefused.
  destruct (is_openai self) eqn:Hbackend.
  - destruct (Hopen eq_refl) as (tail & Ht). rewrite Hrefused in Ht.
    simpl in Ht. apply (f_equal (@List.length event)) in Ht.
    rewrite length_app in Ht. simpl in Ht. lia.
  - rewrite (Hlocal eq_refl) in Hrefused. discriminate Hrefused.
Qed.

(** C3, amended.  With the OpenAI model, the key of the cache lookup and
    every SQL text used after it (run against the database, key of the
    stored entry) is the trimmed content of the answer of the model. *)
Theorem generate_code_and_sql_openai_sql_is_trimmed_content
        (data : dict) (chart_type : str) (query : pyvalue) (content : str) (m : Model env)
        (w w' : @World env) (out : result Response) :
  is_openai self = true ->
  dict_get data (s_ "chart_type") = Some (PStr chart_type) ->
  dict_get data (s_ "query") = Some query ->
  str_in (Py.lower chart_type) ALLOWED_CHART_TYPES = true ->
  chat_invoke env (w_model w) (sql_prompt env self query) = (Ret content, m) ->
  generate_code_and_sql self data w = (out, w') ->
  exists tail,
    w_trace w' =
      w_trace w ++ EvModel (sql_prompt env self query)
                :: EvCacheGet (Py.strip content) :: tail /\
    Forall (keyed_by (Py.strip content)) tail.
Proof.
  intros Hopenai Hct Hq Hallowed Hchat Hrun.
  unfold generate_code_and_sql in Hrun.
  erewrite bind_ret in Hrun by apply time_time_run.
  rewrite Hct in Hrun. cbn [py_lower] in Hrun. rewrite Hq, Hallowed in Hrun.
  change (negb true) with false in Hrun. cbv iota in Hrun.
  assert (Hsql : _generate_sql_query self query (tick w) =
            (Ret (Py.strip content),
             logged (tick w) (w_redis w) m (w_db w)
                    [EvModel (sql_prompt env self query)])).
  { rewrite generate_sql_query_run, Hopenai. simpl w_model. rewrite Hchat.
    reflexivity. }
  erewrite bind_ret in Hrun by exact Hsql.
  set (k := Py.strip content) in *.
  set (w1 := logged (tick w) (w_redis w) m (w_db w)
                    [EvModel (sql_prompt env self query)]) in *.
  assert (Hget : exists o w2,
             _check_cache k w1 = (o, w2) /\
             w_trace w2 = w_trace w1 ++ [EvCacheGet k]).
  { unfold _check_cache, RedisCache_get, bind, client_get.
    destruct (redis_get env (w_redis w1) k) as [[[data0|]|e] r]; simpl.
    - destruct data0; unfold lift, ret; eexists; eexists; split; reflexivity.
    - unfold ret. eexists; eexists; split; reflexivity.
    - eexists; eexists; split; reflexivity. }
  destruct Hget as (o & w2 & Hcheck & Htrace2).
  assert (Hfinal : extends_by k w2 w').
  { destruct o as [cached|e].
    - erewrite bind_ret in Hrun by exact Hcheck.
      destruct (truthy cached).
      + pose proof (@keeps_format_response k
                      (s_ "Fetching result from Redis cache...") cached
                      (clock env (w_ticks w)) w2) as H.
        rewrite Hrun in H. exact H.
      + pose proof (@keeps_miss_branch k (Py.lower chart_type)
                      (clock env (w_ticks w)) w2) as H.
        rewrite Hrun in H. exact H.
    - erewrite bind_raise in Hrun by exact Hcheck.
      inversion Hrun; subst. apply extends_by_refl. }
  destruct Hfinal as (tail & Ht & Hk).
  exists tail. split; [|exact Hk].
  rewrite Ht, Htrace2. unfold w1, logged, tick. simpl.
  repeat rewrite <- app_assoc. reflexivity.
Qed.



End PipelineFacts.



Lemma generate_code_and_sql_chart_type_case_example :
  generate_code_and_sql (Sample.rag true) (Sample.request "Chart.JS" "how many") w0 =
  generate_code_and_sql (Sample.rag true) (Sample.request "chart.js" "how many") w0 /\
  (is_openai (Sample.rag true) = true ->
   exists tail,
     w_trace (snd (generate_code_and_sql (Sample.rag true)
                     (Sample.request "Chart.JS" "how many") w0)) =
       w_trace w0
       ++ EvModel (sql_prompt (Sample.collaborators chat) (Sample.rag true)
                              (PStr (s_ "how many"))) :: tail) /\
  (is_openai (Sample.rag true) = false ->
   generate_code_and_sql (Sample.rag true) (Sample.request "Chart.JS" "how many") w0 =
     (Raise {| e_class := TypeError;
               e_str := s_ "OpenLLM.invoke() got an unexpected keyword argument 'input'" |},
      tick w0)) /\
  (forall msg,
     generate_code_and_sql (Sample.rag true) (Sample.request "Chart.JS" "how many") w0
     <> (Raise (invalid_input msg), tick w0)).
Proof.
  apply (@generate_code_and_sql_chart_type_case
           (Sample.collaborators chat) (Sample.rag true)
           (Sample.request "Chart.JS" "how many")
           (Sample.request "chart.js" "how many")
           (s_ "Chart.JS") (s_ "chart.js") (PStr (s_ "how many")) w0);
    try reflexivity.
  right. left. reflexivity.
Defined.

Lemma generate_code_and_sql_cache_hit_example :
  generate_code_and_sql (Sample.rag true) (Sample.request "chart.js" "how many")
                        w_stored =
    (Ret {| message := s_ "Fetching result from Redis cache...";
            sql_query := PStr (s_ "SELECT 1;");
            chart_code := PStr (s_ "draw();");
            total_time := PrimFloat.sub PrimFloat.zero PrimFloat.zero |},
     @Build_World (Sample.collaborators chat)
        [(s_ "SELECT 1;", Sample.entry_text)] tt tt 2
        [EvModel (s_ "sql prompt"); EvCacheGet (s_ "SELECT 1;")]).
Proof.
  apply (@generate_code_and_sql_cache_hit
           (Sample.collaborators chat) (Sample.rag true)
           (Sample.request "chart.js" "how many")
           (s_ "chart.js") (PStr (s_ "how many")) (s_ "SELECT 1;") Sample.entry_text
           w_stored
           (@Build_World (Sample.collaborators chat)
              [(s_ "SELECT 1;", Sample.entry_text)] tt tt 1
              [EvModel (s_ "sql prompt")])
           [(s_ "SELECT 1;", Sample.entry_text)]
           [(s_ "sql_query", PStr (s_ "SELECT 1;"));
            (s_ "result", PStr (s_ "[(1,)]"));
            (s_ "chart_code", PStr (s_ "draw();"))]);
    try reflexivity.
  - intros H. vm_compute in H. discriminate H.
  - discriminate.
Defined.

Lemma generate_code_and_sql_openai_sql_is_trimmed_content_example :
  exists tail,
    w_trace (snd (generate_code_and_sql (Sample.rag true)
                    (Sample.request "chart.js" "how many") w_fenced)) =
      [] ++ EvModel (s_ "sql prompt") :: EvCacheGet (s_ fenced_answer) :: tail /\
    Forall (keyed_by (s_ fenced_answer)) tail.
Proof.
  apply (@generate_code_and_sql_openai_sql_is_trimmed_content
           (Sample.collaborators chat_fenced) (Sample.rag true)
           (Sample.request "chart.js" "how many")
           (s_ "chart.js") (PStr (s_ "how many")) (s_ fenced_answer) tt w_fenced
           (snd (generate_code_and_sql (Sample.rag true)
                   (Sample.request "chart.js" "how many") w_fenced))
           (fst (generate_code_and_sql (Sample.rag true)
                   (Sample.request "chart.js" "how many") w_fenced)));
    reflexivity.
Defined.

(** C3 as stated fails: the OpenAI model wraps the statement in a fence;
    the extractor would return the statement, but the whole trimmed answer
    is the key of the lookup and the text run against the database. *)
Lemma generate_code_and_sql_openai_skips_extractor :
  extract_sql_query (s_ fenced_answer) = Ret (s_ "SELECT 1;") /\
  (exists tail,
     w_trace (snd (generate_code_and_sql (Sample.rag true)
                     (Sample.request "chart.js" "how many") w_fenced)) =
       EvModel (s_ "sql prompt") :: EvCacheGet (s_ fenced_answer)
       :: EvDbRun (s_ fenced_answer) :: tail) /\
  s_ fenced_answer <> s_ "SELECT 1;".
Proof.
  split; [|split].
  - vm_compute. reflexivity.
  - eexists. vm_compute. reflexivity.
  - intros H. vm_compute in H. discriminate H.
Qed.



Lemma RedisCache_get_absent_or_raises_example :
  RedisCache_get (s_ "SELECT 2;") w_corrupt =
    (Ret PNone, @logged (Sample.collaborators chat) w_corrupt
                        [(s_ "SELECT 1;", s_ "{")] tt tt
                        [EvCacheGet (s_ "SELECT 2;")]) /\
  RedisCache_get (s_ "SELECT 1;") w_corrupt =
    (Raise (Sample.json_decode_error
       "Expecting property name enclosed in double quotes: line 1 column 2 (char 1)"),
     @logged (Sample.collaborators chat) w_corrupt
             [(s_ "SELECT 1;", s_ "{")] tt tt [EvCacheGet (s_ "SELECT 1;")]).
Proof.
  split.
  - apply (proj1 (RedisCache_get_absent_or_raises (s_ "SELECT 2;") w_corrupt)).
    reflexivity.
  - apply (proj2 (proj2 (RedisCache_get_absent_or_raises (s_ "SELECT 1;") w_corrupt))
             [(s_ "SELECT 1;", s_ "{")] (s_ "{")).
    + reflexivity.
    + discriminate.
    + reflexivity.
Defined.

(** C9 as stated fails: a stored text that does not decode makes [get]
    raise the error of the decoder instead of returning [None]. *)
Lemma RedisCache_get_corrupt_entry_raises :
  fst (RedisCache_get (s_ "SELECT 1;") w_corrupt) =
    Raise (Sample.json_decode_error
      "Expecting property name enclosed in double quotes: line 1 column 2 (char 1)") /\
  fst (RedisCache_get (s_ "SELECT 1;") w_corrupt) <> Ret PNone.
Proof.
  split.
  - vm_compute. reflexivity.
  - intros H. vm_compute in H. discriminate H.
Qed.

(** * Further properties *)

(** ** Where a match ends and what its groups hold *)

Lemma infix_refl (s : str) : infix s s.
Proof. exists [], []. rewrite app_nil_r. reflexivity. Qed.

Lemma infix_trans (x y z : str) : infix x y -> infix y z -> infix x z.
Proof.
  intros (a & b & ->) (c & d & ->). exists (c ++ a), (b ++ d).
  repeat rewrite <- app_assoc. reflexivity.
Qed.

Lemma infix_app_l (x a s : str) : infix x s -> infix x (a ++ s).
Proof.
  intros (b & c & ->). exists (a ++ b), c. rewrite <- app_assoc. reflexivity.
Qed.

Lemma infix_firstn (n : nat) (s : str) : infix (firstn n s) s.
Proof. exists [], (skipn n s). simpl. symmetry. apply firstn_skipn. Qed.

Lemma infix_strip (s : str) : infix (Py.strip s) s.
Proof.
  destruct (strip_spec s) as (w1 & w2 & Hs & _). exists w1, w2. exact Hs.
Qed.

Section Within.
Variable f : flags.
Variable R : Type.

Lemma exec_within r : forall prev s g (k : cont R) x,
  exec f r prev s g k = Some x ->
  exists p' a s' g',
    s = a ++ s' /\ k p' s' g' = Some x /\ caps_within s g g'.
Proof.
  induction r; intros prev s g k x H; simpl in H.
  - exists prev, [], s, g. repeat split; auto. intros n c Hin. left. exact Hin.
  - destruct s as [|c t]; [discriminate H|].
    destruct (accepts f cs c); [|discriminate H].
    exists (Some c), [c], t, g. repeat split; auto. intros n c' Hin. left. exact Hin.
  - destruct (at_boundary prev s); [|discriminate H].
    exists prev, [], s, g. repeat split; auto. intros n c Hin. left. exact Hin.
  - apply IHr1 in H. destruct H as (p1 & a1 & s1 & g1 & Hs1 & H & Hc1).
    apply IHr2 in H. destruct H as (p2 & a2 & s2 & g2 & Hs2 & H & Hc2).
    exists p2, (a1 ++ a2), s2, g2. repeat split; auto.
    + rewrite Hs1, Hs2, app_assoc. reflexivity.
    + intros n c Hin. destruct (Hc2 n c Hin) as [Hg1|Hi].
      * apply Hc1. exact Hg1.
      * right. rewrite Hs1. apply infix_app_l. exact Hi.
  - destruct (exec f r1 prev s g k) eqn:E.
    + inversion H; subst. apply IHr1 in E. exact E.
    + apply IHr2 in H. exact H.
  - destruct greedy.
    + apply star_greedy_inv in H. destruct H as (a1 & a2 & Hs & H).
      exists (lastc prev a1), a1, a2, g. repeat split; auto.
      intros n c Hin. left. exact Hin.
    + apply star_lazy_inv in H. destruct H as (a1 & a2 & Hs & H).
      exists (lastc prev a1), a1, a2, g. repeat split; auto.
      intros n c Hin. left. exact Hin.
  - apply IHr in H. destruct H as (p1 & a1 & s1 & g1 & Hs1 & H & Hc1).
    exists p1, a1, s1, ((n, firstn (List.length s - List.length s1) s) :: g1).
    repeat split; auto.
    intros n' c [Heq|Hin].
    + inversion Heq; subst. right. apply infix_firstn.
    + apply Hc1. exact Hin.
Qed.
End Within.

(** The whole match and every group of a match are pieces of the text. *)
Lemma search_within f r s m :
  search r s f = Some m ->
  infix (m_group0 m) s /\ (forall n c, group n m = Some c -> infix c s).
Proof.
  unfold search. intros H. apply search_from_inv in H.
  destruct H as (a1 & a2 & s' & g & Hs & Ha & Hm & _). subst m. simpl.
  split.
  - rewrite Hs. apply infix_app_l. apply infix_firstn.
  - intros n c Hg. unfold group in Hg. simpl in Hg.
    unfold attempt in Ha. apply exec_within in Ha.
    destruct Ha as (p' & a & s1 & g' & _ & Hk & Hc).
    assert (Eg : g' = g) by congruence. subst g'.
    assert (Hin : In (n, c) g).
    { clear - Hg. induction g as [|[k v] g IH]; simpl in Hg; [discriminate Hg|].
      destruct (Nat.eqb k n) eqn:E.
      - apply Nat.eqb_eq in E. inversion Hg; subst. left. reflexivity.
      - right. apply IH. exact Hg. }
    destruct (Hc n c Hin) as [[]|Hi]. rewrite Hs. apply infix_app_l. exact Hi.
Qed.

Lemma sql_block_groups s m :
  search sql_block_pattern s DOTALL_IGNORECASE = Some m ->
  exists c, m_caps m = [(1, c)].
Proof.
  intros H. apply search_adds in H. unfold sql_block_pattern in H.
  destruct H as (g1 & H1 & g2 & H2 & g3 & (g4 & c & H3 & E3) & g5 & H5 & H6).
  apply adds_lit in H1, H6. simpl in H2, H3, H5.
  exists c. congruence.
Qed.

(** ** [extract_sql_query] on every response *)

(** X1.  [extract_sql_query] never raises, and what it returns is
    trimmed and is a contiguous piece of the response. *)
Theorem extract_sql_query_returns_trimmed_piece response :
  exists q,
    extract_sql_query response = Ret q /\ Py.strip q = q /\ infix q response.
Proof.
  unfold extract_sql_query.
  destruct (starts_with_select response).
  - destruct (search select_plain_pattern response DOTALL_IGNORECASE) as [m|] eqn:E1.
    + eexists. split; [reflexivity|]. split; [apply strip_idempotent|].
      eapply infix_trans; [apply infix_strip|]. apply (search_within _ _ _ E1).
    + destruct (search sql_block_pattern response DOTALL_IGNORECASE) as [m|] eqn:E2.
      * destruct (sql_block_groups _ E2) as (c & Hc).
        assert (Hg : group 1 m = Some c) by (unfold group; rewrite Hc; reflexivity).
        rewrite Hg. eexists. split; [reflexivity|]. split; [apply strip_idempotent|].
        eapply infix_trans; [apply infix_strip|].
        apply (proj2 (search_within _ _ _ E2) 1 c Hg).
      * destruct (search select_pattern response DOTALL_IGNORECASE) as [m|] eqn:E3.
        -- eexists. split; [reflexivity|]. split; [apply strip_idempotent|].
           eapply infix_trans; [apply infix_strip|]. apply (search_within _ _ _ E3).
        -- eexists. split; [reflexivity|]. split; [apply strip_idempotent|].
           apply infix_strip.
  - destruct (search sql_block_pattern response DOTALL_IGNORECASE) as [m|] eqn:E2.
    + destruct (sql_block_groups _ E2) as (c & Hc).
      assert (Hg : group 1 m = Some c) by (unfold group; rewrite Hc; reflexivity).
      rewrite Hg. eexists. split; [reflexivity|]. split; [apply strip_idempotent|].
      eapply infix_trans; [apply infix_strip|].
      apply (proj2 (search_within _ _ _ E2) 1 c Hg).
    + destruct (search select_pattern response DOTALL_IGNORECASE) as [m|] eqn:E3.
      * eexists. split; [reflexivity|]. split; [apply strip_idempotent|].
        eapply infix_trans; [apply infix_strip|]. apply (search_within _ _ _ E3).
      * eexists. split; [reflexivity|]. split; [apply strip_idempotent|].
        apply infix_strip.
Qed.

(** ** A pattern that begins or ends with a literal *)

Lemma split_at_first_none_intro f p : forall s,
  (forall a1 a2, s = a1 ++ a2 -> strip_prefix f p a2 = None) ->
  split_at_first f p s = None.
Proof.
  induction s as [|c t IH]; intros H.
  - simpl. rewrite (H [] [] eq_refl). reflexivity.
  - simpl. rewrite (H [] (c :: t) eq_refl).
    rewrite IH; [reflexivity|].
    intros a1 a2 Ht. apply (H (c :: a1) a2). simpl. congruence.
Qed.

Lemma split_at_first_none_suffix f p a s :
  split_at_first f p (a ++ s) = None -> split_at_first f p s = None.
Proof.
  intros H. apply split_at_first_none_intro. intros a1 a2 Hs.
  eapply split_at_first_none with (a1 := a ++ a1); [exact H|].
  rewrite Hs, app_assoc. reflexivity.
Qed.

Lemma search_first_lit_none f p r s :
  split_at_first f p s = None -> search (Seq (lit p) r) s f = None.
Proof.
  intros H. unfold search. apply search_from_fail. intros a1 a2 Hs.
  apply attempt_lit_fail. eapply split_at_first_none; eauto.
Qed.

Lemma exec_last_lit_none f R A p prev s g (k : cont R) :
  split_at_first f p s = None ->
  exec f (Seq A (lit p)) prev s g k = None.
Proof.
  intros H. rewrite exec_seq.
  destruct (exec f A prev s g (fun p' s' g' => exec f (lit p) p' s' g' k)) eqn:E;
    [|reflexivity].
  apply exec_within in E. destruct E as (p' & a & s' & g' & Hs & Hk & _).
  rewrite exec_lit in Hk.
  assert (Hn : strip_prefix f p s' = None)
    by (eapply split_at_first_none; [exact H|exact Hs]).
  rewrite Hn in Hk. discriminate Hk.
Qed.

Lemma search_last_lit_none f r A p s :
  (forall prev t, attempt f r prev t = attempt f (Seq A (lit p)) prev t) ->
  split_at_first f p s = None -> search r s f = None.
Proof.
  intros Hr H. unfold search. apply search_from_fail. intros a1 a2 Hs.
  rewrite Hr. unfold attempt. apply exec_last_lit_none.
  rewrite Hs in H. eapply split_at_first_none_suffix. exact H.
Qed.

Lemma select_plain_needs_semicolon s :
  split_at_first DOTALL_IGNORECASE (s_ ";") s = None ->
  search select_plain_pattern s DOTALL_IGNORECASE = None.
Proof.
  apply search_last_lit_none
    with (A := Seq (lit (s_ "SELECT")) (Star false CAny)).
  reflexivity.
Qed.

Lemma select_needs_semicolon s :
  split_at_first DOTALL_IGNORECASE (s_ ";") s = None ->
  search select_pattern s DOTALL_IGNORECASE = None.
Proof.
  apply search_last_lit_none
    with (A := Seq Bnd (Seq (lit (s_ "SELECT")) (Seq Bnd (Star false CAny)))).
  reflexivity.
Qed.

Lemma app_eq_suffix (x : str) : forall y u v,
  x ++ y = u ++ v -> List.length x <= List.length u -> exists t, y = t ++ v.
Proof.
  induction x as [|c x IH]; intros y u v H Hl.
  - exists u. exact H.
  - destruct u as [|c' u]; [simpl in Hl; lia|].
    simpl in H. inversion H; subst. apply (IH y u v); [assumption|].
    simpl in Hl. lia.
Qed.

(** A tag that no closing fence follows is no block. *)
Lemma fenced_search_none f p1 p2 r A response :
  (forall R prev s g (k : cont R),
     exec f r prev s g k = exec f (Seq A (lit p2)) prev s g k) ->
  fenced_block f p1 p2 response = None ->
  search (Seq (lit p1) r) response f = None.
Proof.
  intros Hr Hnone. unfold search. apply search_from_fail. intros a1 a2 Hs.
  unfold attempt. rewrite exec_seq, exec_lit.
  destruct (strip_prefix f p1 a2) as [[m r']|] eqn:E; [|reflexivity].
  rewrite Hr. apply exec_last_lit_none.
  unfold fenced_block in Hnone.
  destruct (split_at_first f p1 response) as [[[pre fence] rest]|] eqn:E1.
  - destruct (split_at_first f p2 rest) as [[[body close] post]|] eqn:E2;
      [discriminate Hnone|].
    destruct (split_at_first_spec _ _ _ E1) as (Hresp & Hfence & Hbefore).
    destruct (strip_prefix_app _ _ _ E) as (Ha2 & Hlm).
    destruct (strip_prefix_app _ _ _ Hfence) as (_ & Hlf).
    assert (Hmid : exists l, fence ++ rest = l ++ a2).
    { rewrite Hresp in Hs.
      destruct (app_eq_app _ _ _ _ Hs) as (l & [(Hpre & Ha)|(Ha1 & Hrest)]).
      - destruct l as [|x l].
        + exists []. simpl in *. congruence.
        + exfalso.
          assert (Hn : strip_prefix f p1 ((x :: l) ++ fence ++ rest) = None)
            by (apply (Hbefore a1 (x :: l)); [exact Hpre|discriminate]).
          rewrite <- Ha in Hn. congruence.
      - exists l. exact Hrest. }
    destruct Hmid as (l & Hmid). rewrite Ha2 in Hmid.
    destruct (@app_eq_suffix fence rest (l ++ m) r') as (t & Ht).
    + rewrite Hmid, app_assoc. reflexivity.
    + rewrite length_app. lia.
    + rewrite Ht in E2. eapply split_at_first_none_suffix. exact E2.
  - exfalso. assert (Hn : strip_prefix f p1 a2 = None)
      by (eapply split_at_first_none; [exact E1|exact Hs]).
    congruence.
Qed.

Lemma sql_block_search_none response :
  fenced_block DOTALL_IGNORECASE (s_ "```sql") (s_ "```") response = None ->
  search sql_block_pattern response DOTALL_IGNORECASE = None.
Proof.
  unfold sql_block_pattern.
  apply fenced_search_none
    with (A := Seq (Star true CSpace) (Seq (Grp 1 (Star false CAny)) (Star true CSpace))).
  reflexivity.
Qed.

(** X2.  A response with no semicolon and no closed [```sql] block is
    returned trimmed and otherwise unchanged, whether or not it begins
    with SELECT; an opening [```sql] tag that no fence closes stays in
    the result. *)
Theorem extract_sql_query_without_semicolon response :
  split_at_first DOTALL_IGNORECASE (s_ ";") response = None ->
  fenced_block DOTALL_IGNORECASE (s_ "```sql") (s_ "```") response = None ->
  extract_sql_query response = Ret (Py.strip response).
Proof.
  intros Hsemi Hblock. unfold extract_sql_query.
  rewrite (@select_plain_needs_semicolon response Hsemi).
  rewrite (@sql_block_search_none response Hblock).
  rewrite (@select_needs_semicolon response Hsemi).
  destruct (starts_with_select response); reflexivity.
Qed.

Lemma extract_sql_query_without_semicolon_example :
  extract_sql_query (s_ " ```sql SELECT name FROM users ") =
  Ret (s_ "```sql SELECT name FROM users").
Proof.
  apply (extract_sql_query_without_semicolon (s_ " ```sql SELECT name FROM users "));
    vm_compute; reflexivity.
Defined.

(** ** The statement from SELECT to the first semicolon *)

Lemma accepts_S_not_space f c :
  accepts f (CLit "S"%char) c = true -> Py.isspace c = false.
Proof.
  unfold accepts. destruct (ignorecase f);
    destruct c as [[] [] [] [] [] [] [] []]; vm_compute; congruence.
Qed.

Lemma accepts_semicolon f c : accepts f (CLit ";"%char) c = true -> c = ";"%char.
Proof.
  unfold accepts. destruct (ignorecase f);
    destruct c as [[] [] [] [] [] [] [] []]; vm_compute; congruence.
Qed.

Lemma strip_prefix_cons f x p s m r :
  strip_prefix f (x :: p) s = Some (m, r) ->
  exists c m', m = c :: m' /\ accepts f (CLit x) c = true /\
               strip_prefix f p (m' ++ r) = Some (m', r).
Proof.
  intros H. destruct s as [|c t]; simpl in H; [discriminate H|].
  destruct (accepts f (CLit x) c) eqn:E; [|discriminate H].
  destruct (strip_prefix f p t) as [[m' r']|] eqn:E'; [|discriminate H].
  inversion H; subst. exists c, m'. repeat split; auto.
  destruct (strip_prefix_app _ _ _ E') as [<- _]. exact E'.
Qed.

Lemma strip_prefix_select_head f s m r :
  strip_prefix f (s_ "SELECT") s = Some (m, r) -> no_space_head m /\ m <> [].
Proof.
  change (s_ "SELECT") with ("S"%char :: s_ "ELECT"). intros H.
  apply strip_prefix_cons in H. destruct H as (c & m' & -> & E & _).
  split; [|discriminate]. simpl. eapply accepts_S_not_space. exact E.
Qed.

Lemma strip_prefix_semicolon f s m r :
  strip_prefix f (s_ ";") s = Some (m, r) -> m = s_ ";".
Proof.
  change (s_ ";") with [";"%char]. intros H.
  apply strip_prefix_cons in H. destruct H as (c & m' & -> & E & H).
  apply accepts_semicolon in E. simpl in H. inversion H; subst. reflexivity.
Qed.

(** A text from a SELECT to a semicolon has no white space to trim. *)
Lemma statement_is_trimmed f kw rest body semi post s1 s2 :
  strip_prefix f (s_ "SELECT") s1 = Some (kw, rest) ->
  strip_prefix f (s_ ";") s2 = Some (semi, post) ->
  Py.strip (kw ++ body ++ semi) = kw ++ body ++ semi.
Proof.
  intros Hkw Hsemi.
  destruct (strip_prefix_select_head _ _ Hkw) as (Hhead & Hne).
  rewrite (strip_prefix_semicolon _ _ Hsemi).
  apply strip_fixed.
  - destruct kw as [|c kw]; [congruence|exact Hhead].
  - unfold no_space_last. repeat rewrite rev_app_distr. reflexivity.
Qed.

Lemma lazy_lit_attempt f p1 p2 A prev s kw rest body semi post :
  dotall f = true ->
  (forall R g (k : cont R),
     exec f A prev s g k =
     match strip_prefix f p1 s with
     | Some (m, r) => k (lastc prev m) r g
     | None => None
     end) ->
  strip_prefix f p1 s = Some (kw, rest) ->
  split_at_first f p2 rest = Some (body, semi, post) ->
  attempt f (Seq A (Seq (Star false CAny) (lit p2))) prev s = Some (post, []).
Proof.
  intros Hf HA Hkw Hsplit. unfold attempt.
  rewrite exec_seq, HA, Hkw. rewrite exec_seq, exec_star_lazy.
  destruct (split_at_first_spec _ _ _ Hsplit) as (Hrest & Hclose & Hbefore).
  rewrite Hrest, star_lazy_skip.
  - apply star_lazy_hit. rewrite exec_lit, Hclose. reflexivity.
  - apply all_any. exact Hf.
  - intros a1 a2 Ha Hne. rewrite exec_lit, (Hbefore a1 a2 Ha Hne). reflexivity.
Qed.

Lemma firstn_statement (kw rest body semi post : str) :
  rest = body ++ semi ++ post ->
  firstn (List.length (kw ++ rest) - List.length post) (kw ++ rest) =
  kw ++ body ++ semi.
Proof.
  intros ->.
  replace (kw ++ body ++ semi ++ post) with ((kw ++ body ++ semi) ++ post)
    by (repeat rewrite <- app_assoc; reflexivity).
  apply firstn_app_minus.
Qed.

Lemma select_plain_search response pre kw rest body semi post :
  split_at_first DOTALL_IGNORECASE (s_ "SELECT") response = Some (pre, kw, rest) ->
  split_at_first DOTALL_IGNORECASE (s_ ";") rest = Some (body, semi, post) ->
  search select_plain_pattern response DOTALL_IGNORECASE =
  Some {| m_start := List.length pre;
          m_group0 := kw ++ body ++ semi;
          m_caps := [] |}.
Proof.
  intros H1 H2.
  destruct (split_at_first_spec _ _ _ H1) as (Hresp & Hkw & Hbefore).
  destruct (split_at_first_spec _ _ _ H2) as (Hrest & _ & _).
  unfold search. rewrite Hresp, search_from_skip.
  - erewrite search_from_hit.
    + rewrite (@firstn_statement kw _ _ _ _ Hrest). reflexivity.
    + unfold select_plain_pattern.
      eapply lazy_lit_attempt with (p1 := s_ "SELECT"); eauto.
      intros R g k. apply exec_lit.
  - intros a1 a2 Ha Hne. apply attempt_lit_fail. eauto.
Qed.

(** X3.  When the trimmed response begins with SELECT and a semicolon
    follows the first SELECT, the text from that SELECT to the first
    semicolon after it is returned, whatever else the response holds (a
    [```sql] block is not looked at). *)
Theorem extract_sql_query_leading_select response pre kw rest body semi post :
  starts_with_select response = true ->
  split_at_first DOTALL_IGNORECASE (s_ "SELECT") response = Some (pre, kw, rest) ->
  split_at_first DOTALL_IGNORECASE (s_ ";") rest = Some (body, semi, post) ->
  extract_sql_query response = Ret (kw ++ body ++ semi).
Proof.
  intros Hsel H1 H2. unfold extract_sql_query.
  rewrite Hsel, (select_plain_search _ H1 H2). simpl m_group0.
  destruct (split_at_first_spec _ _ _ H1) as (_ & Hkw & _).
  destruct (split_at_first_spec _ _ _ H2) as (_ & Hsemi & _).
  rewrite (@statement_is_trimmed _ _ _ body _ _ _ _ Hkw Hsemi). reflexivity.
Qed.

Lemma extract_sql_query_leading_select_example :
  extract_sql_query example_select_then_block = Ret (s_ "select a;").
Proof.
  apply (@extract_sql_query_leading_select example_select_then_block
           (s_ " ") (s_ "select")
           (s_ (" a; ```sql" ++ LF ++ "SELECT b;" ++ LF ++ "```"))
           (s_ " a") (s_ ";")
           (s_ (" ```sql" ++ LF ++ "SELECT b;" ++ LF ++ "```")));
    vm_compute; reflexivity.
Defined.

(** ** The first SELECT that stands as a word *)

Lemma split_at_first_word_spec f p : forall s prev a m r,
  split_at_first_word f p prev s = Some (a, m, r) ->
  s = a ++ m ++ r /\
  word_here f p (lastc prev a) (m ++ r) = Some (m, r) /\
  (forall a1 a2, a = a1 ++ a2 -> a2 <> [] ->
                 word_here f p (lastc prev a1) (a2 ++ m ++ r) = None).
Proof.
  assert (Hhere : forall prev s m r,
             word_here f p prev s = Some (m, r) -> s = m ++ r).
  { intros prev s m r H. unfold word_here in H.
    destruct (at_boundary prev s); [|discriminate H].
    destruct (strip_prefix f p s) as [[m' r']|] eqn:E; [|discriminate H].
    destruct (at_boundary (lastc prev m') r'); [|discriminate H].
    inversion H; subst. apply (strip_prefix_app _ _ _ E). }
  induction s as [|c t IH]; intros prev a m r H; simpl in H.
  - destruct (word_here f p prev []) as [[m' r']|] eqn:E; [|discriminate H].
    inversion H; subst. pose proof (Hhere _ _ _ _ E) as Hs.
    simpl. rewrite <- Hs. repeat split; auto.
    intros a1 a2 Ha. destruct a1; destruct a2; try discriminate. congruence.
  - destruct (word_here f p prev (c :: t)) as [[m' r']|] eqn:E.
    + inversion H; subst. pose proof (Hhere _ _ _ _ E) as Hs.
      simpl. rewrite <- Hs. repeat split; auto.
      intros a1 a2 Ha. destruct a1; destruct a2; try discriminate. congruence.
    + destruct (split_at_first_word f p (Some c) t) as [[[a' m'] r']|] eqn:E2;
        [|discriminate H].
      inversion H; subst. destruct (IH _ _ _ _ E2) as (Ht & Hm & Hbefore).
      repeat split; auto.
      * simpl. congruence.
      * intros a1 a2 Ha Hne. destruct a1 as [|x a1]; simpl in Ha.
        -- subst a2. simpl. rewrite <- Ht. exact E.
        -- inversion Ha; subst. simpl. eauto.
Qed.

Lemma exec_word f R p prev s g (k : cont R) :
  exec f (Seq Bnd (Seq (lit p) Bnd)) prev s g k =
  match word_here f p prev s with
  | Some (m, r) => k (lastc prev m) r g
  | None => None
  end.
Proof.
  rewrite exec_seq, exec_bnd. unfold word_here.
  destruct (at_boundary prev s); [|reflexivity].
  rewrite exec_seq, exec_lit.
  destruct (strip_prefix f p s) as [[m r]|]; [|reflexivity].
  rewrite exec_bnd. destruct (at_boundary (lastc prev m) r); reflexivity.
Qed.

Lemma select_search response pre kw rest body semi post :
  split_at_first_word DOTALL_IGNORECASE (s_ "SELECT") None response =
    Some (pre, kw, rest) ->
  split_at_first DOTALL_IGNORECASE (s_ ";") rest = Some (body, semi, post) ->
  search select_pattern response DOTALL_IGNORECASE =
  Some {| m_start := List.length pre;
          m_group0 := kw ++ body ++ semi;
          m_caps := [] |}.
Proof.
  intros H1 H2.
  destruct (split_at_first_word_spec _ _ _ _ H1) as (Hresp & Hkw & Hbefore).
  destruct (split_at_first_spec _ _ _ H2) as (Hrest & Hsemi & Hnosemi).
  assert (Hexec : forall prev t R g (k : cont R),
             exec DOTALL_IGNORECASE select_pattern prev t g k =
             match word_here DOTALL_IGNORECASE (s_ "SELECT") prev t with
             | Some (m, r) =>
                 exec DOTALL_IGNORECASE (Seq (Star false CAny) (lit (s_ ";")))
                      (lastc prev m) r g k
             | None => None
             end).
  { intros prev t R g k.
    change (exec DOTALL_IGNORECASE select_pattern prev t g k)
      with (exec DOTALL_IGNORECASE (Seq Bnd (Seq (lit (s_ "SELECT")) Bnd)) prev t g
                 (fun p' s' g' =>
                    exec DOTALL_IGNORECASE (Seq (Star false CAny) (lit (s_ ";")))
                         p' s' g' k)).
    rewrite exec_word. reflexivity. }
  unfold search. rewrite Hresp, search_from_skip.
  - erewrite search_from_hit.
    + rewrite (@firstn_statement kw _ _ _ _ Hrest). reflexivity.
    + unfold attempt. rewrite Hexec, Hkw.
      rewrite exec_seq, exec_star_lazy, Hrest, star_lazy_skip.
      * apply star_lazy_hit. rewrite exec_lit, Hsemi. reflexivity.
      * apply all_any. reflexivity.
      * intros a1 a2 Ha Hne. rewrite exec_lit, (Hnosemi a1 a2 Ha Hne). reflexivity.
  - intros a1 a2 Ha Hne. unfold attempt.
    rewrite Hexec, (Hbefore a1 a2 Ha Hne). reflexivity.
Qed.

(** X4.  When the trimmed response does not begin with SELECT and holds
    no closed [```sql] block, the text from the first SELECT that stands as a word
    to the first semicolon after it is returned. *)
Theorem extract_sql_query_select_in_prose response pre kw rest body semi post :
  starts_with_select response = false ->
  fenced_block DOTALL_IGNORECASE (s_ "```sql") (s_ "```") response = None ->
  split_at_first_word DOTALL_IGNORECASE (s_ "SELECT") None response =
    Some (pre, kw, rest) ->
  split_at_first DOTALL_IGNORECASE (s_ ";") rest = Some (body, semi, post) ->
  extract_sql_query response = Ret (kw ++ body ++ semi).
Proof.
  intros Hsel Htag H1 H2. unfold extract_sql_query.
  rewrite Hsel, (@sql_block_search_none response Htag).
  rewrite (select_search _ H1 H2). simpl m_group0.
  destruct (split_at_first_word_spec _ _ _ _ H1) as (_ & Hkw & _).
  destruct (split_at_first_spec _ _ _ H2) as (_ & Hsemi & _).
  unfold word_here in Hkw.
  destruct (at_boundary _ (kw ++ rest)); [|discriminate Hkw].
  destruct (strip_prefix DOTALL_IGNORECASE (s_ "SELECT") (kw ++ rest))
    as [[m' r']|] eqn:E; [|discriminate Hkw].
  destruct (at_boundary _ r'); [|discriminate Hkw].
  inversion Hkw; subst.
  rewrite (@statement_is_trimmed _ _ _ body _ _ _ _ E Hsemi). reflexivity.
Qed.

Lemma extract_sql_query_select_in_prose_example :
  extract_sql_query example_select_in_prose = Ret (s_ "SELECT name FROM users;").
Proof.
  apply (@extract_sql_query_select_in_prose example_select_in_prose
           (s_ "The SELECTED rows: use ") (s_ "SELECT")
           (s_ " name FROM users; and SELECT 2;")
           (s_ " name FROM users") (s_ ";") (s_ " and SELECT 2;"));
    vm_compute; reflexivity.
Defined.

(** ** The chart code, block by block *)

(** X5.  For the matplotlib kind the result is [None] exactly when the
    response holds no [```python] tag followed by a closing fence. *)
Theorem extract_code_response_matplotlib_none_iff response :
  extract_code_response response (s_ "matplotlib") = PNone <->
  fenced_block DOTALL (s_ "```python") (s_ "```") response = None.
Proof.
  split.
  - intros H. unfold fenced_block.
    destruct (split_at_first DOTALL (s_ "```python") response)
      as [[[pre fence] rest]|] eqn:E1; [|reflexivity].
    destruct (split_at_first DOTALL (s_ "```") rest)
      as [[[body close] post]|] eqn:E2; [|reflexivity].
    rewrite (extract_code_response_matplotlib_block _ E1 E2) in H. discriminate H.
  - intros H. unfold extract_code_response.
    change (Py.str_eqb (s_ "matplotlib") (s_ "matplotlib")) with true. cbv iota.
    unfold PYTHON_REGEX.
    rewrite (@fenced_search_none DOTALL (s_ "```python") (s_ "```") _
               (Grp 1 (Star false CAny)) response); [reflexivity| |exact H].
    reflexivity.
Qed.

Lemma extract_code_response_matplotlib_none_iff_example :
  extract_code_response (s_ "```python print(1)") (s_ "matplotlib") = PNone.
Proof.
  apply (proj2 (extract_code_response_matplotlib_none_iff (s_ "```python print(1)"))).
  vm_compute. reflexivity.
Defined.

Lemma leftmost_inv o1 o2 m :
  leftmost o1 o2 = Some m -> o1 = Some m \/ o2 = Some m.
Proof.
  destruct o1 as [m1|]; destruct o2 as [m2|]; simpl; intros H.
  - destruct (m_start m1 <=? m_start m2); inversion H; auto.
  - auto.
  - auto.
  - discriminate H.
Qed.

Lemma chartjs_code_of_empty_fence response m :
  search js_fenced_alternative response DOTALL = Some m ->
  group 1 m = Some [] ->
  (if truthy (group_value 1 m) then group_value 1 m else group_value 2 m) = PNone.
Proof.
  intros H Hg. destruct (js_fenced_groups _ H) as (c & Hc).
  unfold group_value, group in *. rewrite Hc in *. simpl in *.
  inversion Hg; subst. reflexivity.
Qed.

(** X6.  For the chart.js kind the result is [None] or a string, never
    a match object, and the string is a contiguous piece of the
    response. *)
Theorem extract_code_response_chartjs_str_or_none response :
  chartjs_code response = PNone \/
  exists c, chartjs_code response = PStr c /\ infix c response.
Proof.
  rewrite chartjs_code_search.
  destruct (leftmost (search js_fenced_alternative response DOTALL)
                     (search script_tag_alternative response DOTALL))
    as [m|] eqn:E; [|left; reflexivity].
  destruct (leftmost_inv _ _ E) as [H|H].
  - destruct (js_fenced_groups _ H) as (c & Hc).
    assert (Hg : group 1 m = Some c) by (unfold group; rewrite Hc; reflexivity).
    destruct c as [|x c].
    + left. apply (chartjs_code_of_empty_fence _ H Hg).
    + right. exists (x :: c). split.
      * apply (chartjs_code_of_fence _ H Hg). discriminate.
      * apply (proj2 (search_within _ _ _ H) 1 _ Hg).
  - destruct (chartjs_code_of_script _ H) as (c & Hg & Hv).
    right. exists c. split; [exact Hv|].
    apply (proj2 (search_within _ _ _ H) 2 _ Hg).
Qed.

(** X7.  A javascript/js fenced block with nothing between its fences
    that no script tag precedes gives [None]: a script tag that follows
    it is not used. *)
Theorem extract_code_response_chartjs_empty_fence response mf :
  search js_fenced_alternative response DOTALL = Some mf ->
  group 1 mf = Some [] ->
  (forall ms, search script_tag_alternative response DOTALL = Some ms ->
              m_start mf < m_start ms) ->
  chartjs_code response = PNone.
Proof.
  intros Hf Hg Hfirst. rewrite chartjs_code_search, Hf.
  destruct (search script_tag_alternative response DOTALL) as [ms|] eqn:Es.
  - specialize (Hfirst ms eq_refl). simpl.
    replace (m_start mf <=? m_start ms) with true
      by (symmetry; apply Nat.leb_le; lia).
    apply (chartjs_code_of_empty_fence _ Hf Hg).
  - simpl. apply (chartjs_code_of_empty_fence _ Hf Hg).
Qed.

Lemma extract_code_response_chartjs_empty_fence_example :
  chartjs_code example_empty_fence_then_script = PNone.
Proof.
  apply (@extract_code_response_chartjs_empty_fence example_empty_fence_then_script
           {| m_start := 0; m_group0 := s_ "```js```"; m_caps := [(1, [])] |}).
  - vm_compute. reflexivity.
  - reflexivity.
  - intros ms Hms. vm_compute in Hms. inversion Hms; subst. simpl. lia.
Defined.

(** ** The script tag *)

Lemma ascii_eqb_eq a b : Py.ascii_eqb a b = true -> a = b.
Proof.
  unfold Py.ascii_eqb, code. intros H. apply N.eqb_eq in H.
  rewrite <- (ascii_N_embedding a), <- (ascii_N_embedding b), H. reflexivity.
Qed.

Lemma strip_prefix_exact f p : ignorecase f = false ->
  forall s m r, strip_prefix f p s = Some (m, r) -> m = p.
Proof.
  intros Hf. induction p as [|x p IH]; intros s m r H.
  - simpl in H. inversion H. reflexivity.
  - apply strip_prefix_cons in H. destruct H as (c & m' & -> & E & H).
    unfold accepts in E. rewrite Hf in E. apply ascii_eqb_eq in E.
    rewrite (IH _ _ _ H), E. reflexivity.
Qed.

(** Before the first [>] every character is another one. *)
Lemma before_first_gt attrs gt rest2 :
  (forall a1 a2, attrs = a1 ++ a2 -> a2 <> [] ->
                 strip_prefix DOTALL (s_ ">") (a2 ++ gt ++ rest2) = None) ->
  Forall (fun c => accepts DOTALL (CNot ">"%char) c = true) attrs.
Proof.
  induction attrs as [|c attrs IH]; intros H; constructor.
  - assert (H0 : strip_prefix DOTALL (s_ ">") ((c :: attrs) ++ gt ++ rest2) = None)
      by (apply (H [] (c :: attrs)); [reflexivity|discriminate]).
    change (s_ ">") with [">"%char] in H0. simpl in H0.
    unfold accepts in *. simpl in *.
    destruct (Py.ascii_eqb c ">"%char); [discriminate H0|reflexivity].
  - apply IH. intros a1 a2 Ha Hne. apply (H (c :: a1) a2); [|exact Hne].
    simpl. congruence.
Qed.

Lemma script_tag_search response pre tag rest1 attrs gt rest2 content close post :
  split_at_first DOTALL (s_ "<script") response = Some (pre, tag, rest1) ->
  no_word_head rest1 ->
  split_at_first DOTALL (s_ ">") rest1 = Some (attrs, gt, rest2) ->
  split_at_first DOTALL (s_ "</script>") rest2 = Some (content, close, post) ->
  exists g0,
    search script_tag_alternative response DOTALL =
    Some {| m_start := List.length pre; m_group0 := g0; m_caps := [(2, content)] |}.
Proof.
  intros H1 Hword H2 H3.
  destruct (split_at_first_spec _ _ _ H1) as (Hresp & Htag & Hbefore1).
  destruct (split_at_first_spec _ _ _ H2) as (Hrest1 & Hgt & Hbefore2).
  destruct (split_at_first_spec _ _ _ H3) as (Hrest2 & Hclose & Hbefore3).
  pose proof (@strip_prefix_exact DOTALL (s_ "<script") eq_refl _ _ _ Htag) as Etag.
  pose proof (@strip_prefix_exact DOTALL (s_ ">") eq_refl _ _ _ Hgt) as Egt.
  eexists. unfold search. rewrite Hresp, search_from_skip.
  - erewrite search_from_hit; [reflexivity|].
    unfold attempt, script_tag_alternative.
    rewrite exec_seq, exec_lit, Htag. rewrite exec_seq, exec_bnd.
    assert (Hb : at_boundary (lastc (lastc None pre) tag) rest1 = true).
    { rewrite Etag. unfold at_boundary. fold (word_status (hd_error rest1)).
      rewrite Hword. reflexivity. }
    rewrite Hb. rewrite exec_seq, exec_star_greedy.
    rewrite Hrest1. apply star_greedy_max.
    + apply (@before_first_gt attrs gt rest2 Hbefore2).
    + rewrite Egt. reflexivity.
    + rewrite exec_seq, exec_lit, Hgt. rewrite exec_seq, exec_grp, exec_star_lazy.
      rewrite Hrest2, star_lazy_skip.
      * apply star_lazy_hit. rewrite exec_lit, Hclose, firstn_app_minus. reflexivity.
      * apply all_any. reflexivity.
      * intros a1 a2 Ha Hne. rewrite exec_lit, (Hbefore3 a1 a2 Ha Hne). reflexivity.
  - intros a1 a2 Ha Hne. apply attempt_lit_fail. eauto.
Qed.

(** X8.  In a response without any [```] fence whose first [<script]
    ends a word, the text between the first [>] after it and the first
    [</script>] after that is returned: the attributes of the tag are
    skipped. *)
Theorem extract_code_response_chartjs_script_tag
        response pre tag rest1 attrs gt rest2 content close post :
  split_at_first DOTALL (s_ "```") response = None ->
  split_at_first DOTALL (s_ "<script") response = Some (pre, tag, rest1) ->
  no_word_head rest1 ->
  split_at_first DOTALL (s_ ">") rest1 = Some (attrs, gt, rest2) ->
  split_at_first DOTALL (s_ "</script>") rest2 = Some (content, close, post) ->
  chartjs_code response = PStr content.
Proof.
  intros Hfence H1 Hword H2 H3. rewrite chartjs_code_search.
  unfold js_fenced_alternative at 1.
  rewrite (@search_first_lit_none _ _ _ response Hfence).
  destruct (script_tag_search _ H1 Hword H2 H3) as (g0 & ->). reflexivity.
Qed.

Lemma extract_code_response_chartjs_script_tag_example :
  chartjs_code example_script_with_attributes = PStr (s_ (LF ++ "draw();" ++ LF)).
Proof.
  apply (@extract_code_response_chartjs_script_tag example_script_with_attributes
           (s_ ("Chart:" ++ LF)) (s_ "<script")
           (s_ (" type='module' defer>" ++ LF ++ "draw();" ++ LF ++ "</script> done"))
           (s_ " type='module' defer") (s_ ">")
           (s_ (LF ++ "draw();" ++ LF ++ "</script> done"))
           (s_ (LF ++ "draw();" ++ LF)) (s_ "</script>") (s_ " done"));
    vm_compute; reflexivity.
Defined.

(** ** The cache wrapper, written and read back *)

Section MorePipelineFacts.
Context {env : Collaborators}.
Variable self : OpenSQLRAG.

(** X9.  What [set] stored under a key, [get] returns: provided the
    encoder gives a non-empty text that decodes to the value again and
    the server returns for the key the text it was given. *)
Theorem RedisCache_set_get_round_trip
        (key text : str) (value : pyvalue) (expiration : Z)
        (w : @World env) (r1 r2 : Redis env) :
  json_dumps env value = Ret text ->
  text <> [] ->
  json_loads env text = Ret value ->
  redis_set env (w_redis w) key text expiration = (Ret tt, r1) ->
  redis_get env r1 key = (Ret (Some text), r2) ->
  bind (RedisCache_set key value expiration) (fun _ => RedisCache_get key) w =
    (Ret value,
     logged w r2 (w_model w) (w_db w)
            [EvCacheSet key text expiration; EvCacheGet key]).
Proof.
  intros Hdumps Hne Hloads Hset Hget.
  unfold RedisCache_set, RedisCache_get, bind, lift, client_set, client_get, ret, logged.
  rewrite Hdumps, Hset. simpl. rewrite Hget.
  destruct text as [|c text]; [congruence|]. simpl. rewrite Hloads.
  rewrite <- app_assoc. reflexivity.
Qed.

(** *** The trace of each step *)

Lemma check_cache_trace k (w w2 : @World env) o :
  _check_cache k w = (o, w2) ->
  w_trace w2 = w_trace w ++ [EvCacheGet k] /\
  w_model w2 = w_model w /\ w_db w2 = w_db w /\ w_ticks w2 = w_ticks w.
Proof.
  unfold _check_cache, RedisCache_get, bind, client_get, lift, ret.
  destruct (redis_get env (w_redis w) k) as [[[data|]|e] r]; simpl.
  - destruct data; intros H; inversion H; subst; simpl; auto.
  - intros H; inversion H; subst; simpl; auto.
  - intros H; inversion H; subst; simpl; auto.
Qed.

Lemma format_response_trace msg result start (w w3 : @World env) o :
  _format_response msg result start w = (o, w3) -> w_trace w3 = w_trace w.
Proof.
  unfold _format_response, bind, lift, time_time, ret.
  destruct (py_get result (s_ "sql_query")); [|intros H; inversion H; reflexivity].
  destruct (py_get result (s_ "chart_code")); intros H; inversion H; reflexivity.
Qed.

Lemma db_call_trace k (w w' : @World env) o :
  db_call k w = (o, w') -> w_trace w' = w_trace w ++ [EvDbRun k].
Proof.
  unfold db_call. destruct (db_run env (w_db w) k). intros H. inversion H. reflexivity.
Qed.

Lemma llm_invoke_input_trace message (w w' : @World env) o :
  llm_invoke_input self message w = (o, w') ->
  (is_openai self = true /\ w_trace w' = w_trace w ++ [EvModel message]) \/
  (is_openai self = false /\ w' = w /\ exists e, o = Raise e).
Proof.
  unfold llm_invoke_input. destruct (is_openai self).
  - unfold ChatOpenAI_invoke_content, model_call.
    destruct (chat_invoke env (w_model w) message). intros H. inversion H.
    left. auto.
  - intros H. inversion H. right. eauto.
Qed.

Lemma generate_chart_code_trace chart_type result (w w' : @World env) o :
  _generate_chart_code self chart_type result w = (o, w') ->
  (is_openai self = true /\
   w_trace w' = w_trace w ++ [EvModel (chart_prompt env self chart_type result)]) \/
  (is_openai self = false /\ w' = w /\ exists e, o = Raise e).
Proof.
  unfold _generate_chart_code, bind. fold (chart_prompt env self chart_type result).
  destruct (llm_invoke_input self (chart_prompt env self chart_type result) w)
    as [[response|e] w1] eqn:E; intros H.
  - destruct (llm_invoke_input_trace _ _ E) as [(Ho & Ht)|(Ho & _ & e & He)];
      [|discriminate He].
    left. split; [exact Ho|].
    destruct (extract_code_response response chart_type);
      inversion H; subst; exact Ht.
  - inversion H; subst.
    destruct (llm_invoke_input_trace _ _ E) as [(Ho & Ht)|(Ho & Hw & _)].
    + left. auto.
    + right. eauto.
Qed.

Lemma cache_result_trace k result chart_code (w w' : @World env) o :
  _cache_result k result chart_code w = (o, w') ->
  (w' = w /\ exists e, o = Raise e) \/
  (exists text, w_trace w' = w_trace w ++ [EvCacheSet k text default_expiration]).
Proof.
  unfold _cache_result, RedisCache_set, bind, lift, client_set.
  destruct (json_dumps env _) as [text|e]; intros H.
  - destruct (redis_set env (w_redis w) k text default_expiration).
    inversion H. right. exists text. reflexivity.
  - inversion H. left. eauto.
Qed.

(** X10.  Whatever the request and the answers of the collaborators,
    the calls of one request are a beginning of the sequence: model,
    cache get, database, model, cache set.  Each is made at most once;
    the get, the run and the set carry the same SQL text; the set uses
    the default expiration. *)
Theorem generate_code_and_sql_call_order
        (data : dict) (w w' : @World env) (out : result Response) :
  generate_code_and_sql self data w = (out, w') ->
  exists evs, w_trace w' = w_trace w ++ evs /\ in_pipeline_order evs.
Proof.
  intros Hrun. unfold generate_code_and_sql in Hrun.
  erewrite bind_ret in Hrun by apply time_time_run.
  assert (Hnone : forall o, (o, tick w) = (out, w') ->
            exists evs, w_trace w' = w_trace w ++ evs /\ in_pipeline_order evs).
  { intros o H. inversion H; subst. exists []. simpl. rewrite app_nil_r. auto. }
  destruct (dict_get data (s_ "chart_type")) as [value|]; [|eapply Hnone; exact Hrun].
  destruct value as [|b|z|x|chart_type|l|d|m]; cbn [py_lower] in Hrun;
    try (eapply Hnone; exact Hrun).
  destruct (dict_get data (s_ "query")) as [query|]; [|eapply Hnone; exact Hrun].
  destruct (negb (str_in (Py.lower chart_type) ALLOWED_CHART_TYPES));
    [eapply Hnone; exact Hrun|].
  clear Hnone.
  destruct (_generate_sql_query self query (tick w)) as [[sql|e] w1] eqn:Hsql.
  - erewrite bind_ret in Hrun by exact Hsql.
    assert (Ht1 : w_trace w1 = w_trace w ++ [EvModel (sql_prompt env self query)] /\
                  is_openai self = true).
    { rewrite generate_sql_query_run in Hsql.
      destruct (is_openai self); [|discriminate Hsql].
      destruct (chat_invoke env (w_model (tick w)) _) as [[content|e] m];
        inversion Hsql; subst; simpl; auto. }
    destruct Ht1 as (Ht1 & Hopenai).
    destruct (_check_cache sql w1) as [[cached|e] w2] eqn:Hcheck.
    + erewrite bind_ret in Hrun by exact Hcheck.
      destruct (check_cache_trace _ _ Hcheck) as (Ht2 & _).
      destruct (truthy cached).
      * apply format_response_trace in Hrun.
        exists [EvModel (sql_prompt env self query); EvCacheGet sql].
        split; [|exact I]. rewrite Hrun, Ht2, Ht1, <- app_assoc. reflexivity.
      * unfold try_except in Hrun.
        match type of Hrun with
        | match ?c with _ => _ end = _ => destruct c as [[resp|e0] w3] eqn:Hbody
        end.
        -- inversion Hrun; subst. clear Hrun. unfold bind at 1 in Hbody.
           destruct (db_call sql w2) as [[result|e1] w4] eqn:Hdb; [|discriminate Hbody].
           unfold bind at 1 in Hbody.
           destruct (_generate_chart_code self (Py.lower chart_type) result w4)
             as [[code|e1] w5] eqn:Hchart; [|discriminate Hbody].
           unfold bind at 1 in Hbody.
           destruct (_cache_result sql result code w5) as [[u|e1] w6] eqn:Hcache;
             [|discriminate Hbody].
           apply format_response_trace in Hbody.
           apply db_call_trace in Hdb.
           destruct (generate_chart_code_trace _ _ _ Hchart) as [(_ & Ht5)|(Hl & _)];
             [|congruence].
           destruct (cache_result_trace _ _ _ _ Hcache) as [(_ & e1 & He)|(text & Ht6)];
             [discriminate He|].
           eexists. split.
           ++ rewrite Hbody, Ht6, Ht5, Hdb, Ht2, Ht1. repeat rewrite <- app_assoc.
              simpl. reflexivity.
           ++ simpl. auto.
        -- unfold raise in Hrun. inversion Hrun; subst. clear Hrun.
           unfold bind at 1 in Hbody.
           destruct (db_call sql w2) as [[result|e1] w4] eqn:Hdb.
           ++ pose proof (db_call_trace _ _ Hdb) as Ht4.
              unfold bind at 1 in Hbody.
              destruct (_generate_chart_code self (Py.lower chart_type) result w4)
                as [[code|e1] w5] eqn:Hchart.
              ** destruct (generate_chart_code_trace _ _ _ Hchart) as [(_ & Ht5)|(Hl & _)];
                   [|congruence].
                 unfold bind at 1 in Hbody.
                 destruct (_cache_result sql result code w5) as [[u|e1] w6] eqn:Hcache.
                 --- apply format_response_trace in Hbody.
                     destruct (cache_result_trace _ _ _ _ Hcache)
                       as [(_ & e1 & He)|(text & Ht6)]; [discriminate He|].
                     eexists. split.
                     +++ rewrite Hbody, Ht6, Ht5, Ht4, Ht2, Ht1.
                         repeat rewrite <- app_assoc. simpl. reflexivity.
                     +++ simpl. auto.
                 --- inversion Hbody; subst.
                     destruct (cache_result_trace _ _ _ _ Hcache)
                       as [(Hw & _)|(text & Ht6)].
                     +++ eexists. split.
                         *** rewrite Hw, Ht5, Ht4, Ht2, Ht1.
                             repeat rewrite <- app_assoc. simpl. reflexivity.
                         *** simpl. auto.
                     +++ eexists. split.
                         *** rewrite Ht6, Ht5, Ht4, Ht2, Ht1.
                             repeat rewrite <- app_assoc. simpl. reflexivity.
                         *** simpl. auto.
              ** inversion Hbody; subst.
                 destruct (generate_chart_code_trace _ _ _ Hchart) as [(_ & Ht5)|(Hl & _)];
                   [|congruence].
                 eexists. split.
                 --- rewrite Ht5, Ht4, Ht2, Ht1.
                     repeat rewrite <- app_assoc. simpl. reflexivity.
                 --- simpl. auto.
           ++ inversion Hbody; subst. pose proof (db_call_trace _ _ Hdb) as Ht4.
              eexists. split.
              ** rewrite Ht4, Ht2, Ht1. repeat rewrite <- app_assoc. simpl. reflexivity.
              ** simpl. auto.
    + erewrite bind_raise in Hrun by exact Hcheck. inversion Hrun; subst.
      destruct (check_cache_trace _ _ Hcheck) as (Ht2 & _).
      exists [EvModel (sql_prompt env self query); EvCacheGet sql].
      split; [|exact I]. rewrite Ht2, Ht1, <- app_assoc. reflexivity.
  - erewrite bind_raise in Hrun by exact Hsql. inversion Hrun; subst.
    rewrite generate_sql_query_run in Hsql.
    destruct (is_openai self).
    + destruct (chat_invoke env (w_model (tick w)) _) as [[content|e0] m];
        inversion Hsql; subst.
      exists [EvModel (sql_prompt env self query)]. split; [reflexivity|exact I].
    + inversion Hsql; subst. exists []. simpl. rewrite app_nil_r. auto.
Qed.

(** *** A request that misses the cache *)

(** The world after the SQL step and a lookup that found nothing. *)
Lemma generate_code_and_sql_miss
      (data : dict) (chart_type : str) (query : pyvalue) (content : str)
      (w : @World env) (m1 : Model env) (r1 : Redis env) :
  is_openai self = true ->
  dict_get data (s_ "chart_type") = Some (PStr chart_type) ->
  dict_get data (s_ "query") = Some query ->
  str_in (Py.lower chart_type) ALLOWED_CHART_TYPES = true ->
  chat_invoke env (w_model w) (sql_prompt env self query) = (Ret content, m1) ->
  redis_get env (w_redis w) (Py.strip content) = (Ret None, r1) ->
  generate_code_and_sql self data w =
  try_except
    (bind (db_call (Py.strip content))
       (fun result =>
          bind (_generate_chart_code self (Py.lower chart_type) result)
            (fun chart_code =>
               bind (_cache_result (Py.strip content) result chart_code)
                 (fun _ =>
                    _format_response
                      (s_ "Query and chart generated successfully.")
                      (PDict [(s_ "sql_query", PStr (Py.strip content));
                              (s_ "chart_code", chart_code)])
                      (clock env (w_ticks w))))))
    (fun e => raise (something_went_wrong e))
    {| w_redis := r1; w_model := m1; w_db := w_db w; w_ticks := S (w_ticks w);
       w_trace := w_trace w ++ [EvModel (sql_prompt env self query);
                                EvCacheGet (Py.strip content)] |}.
Proof.
  intros Hopenai Hct Hq Hallowed Hchat Hget.
  unfold generate_code_and_sql.
  erewrite bind_ret by apply time_time_run.
  rewrite Hct. cbn [py_lower]. rewrite Hq, Hallowed. change (negb true) with false. cbv iota.
  erewrite bind_ret;
    [|rewrite generate_sql_query_run, Hopenai; simpl w_model; rewrite Hchat;
      reflexivity].
  erewrite bind_ret;
    [|unfold _check_cache, RedisCache_get, bind, client_get, logged, tick;
      simpl w_redis; rewrite Hget; reflexivity].
  simpl truthy. cbv iota. unfold ret, logged, tick. simpl.
  rewrite <- app_assoc. reflexivity.
Qed.

(** X11.  A valid request to the OpenAI model that misses the cache and
    meets no failure: the SQL is run, the chart code is extracted from
    the second answer, the entry is stored under the SQL with the
    default expiration, and the response carries the SQL and the code. *)
Theorem generate_code_and_sql_miss_success
        (data : dict) (chart_type : str) (query : pyvalue) (content result answer text : str)
        (code : pyvalue) (w : @World env)
        (m1 m2 : Model env) (r1 r2 : Redis env) (d1 : Database env) :
  is_openai self = true ->
  dict_get data (s_ "chart_type") = Some (PStr chart_type) ->
  dict_get data (s_ "query") = Some query ->
  str_in (Py.lower chart_type) ALLOWED_CHART_TYPES = true ->
  chat_invoke env (w_model w) (sql_prompt env self query) = (Ret content, m1) ->
  redis_get env (w_redis w) (Py.strip content) = (Ret None, r1) ->
  db_run env (w_db w) (Py.strip content) = (Ret result, d1) ->
  chat_invoke env m1 (chart_prompt env self (Py.lower chart_type) result) =
    (Ret answer, m2) ->
  extract_code_response answer (Py.lower chart_type) = code ->
  code <> PNone ->
  json_dumps env (cache_entry (Py.strip content) result code) = Ret text ->
  redis_set env r1 (Py.strip content) text default_expiration = (Ret tt, r2) ->
  generate_code_and_sql self data w =
    (Ret {| message := s_ "Query and chart generated successfully.";
            sql_query := PStr (Py.strip content);
            chart_code := code;
            total_time := PrimFloat.sub (clock env (S (w_ticks w)))
                                        (clock env (w_ticks w)) |},
     {| w_redis := r2; w_model := m2; w_db := d1; w_ticks := S (S (w_ticks w));
        w_trace := w_trace w ++
          [EvModel (sql_prompt env self query);
           EvCacheGet (Py.strip content);
           EvDbRun (Py.strip content);
           EvModel (chart_prompt env self (Py.lower chart_type) result);
           EvCacheSet (Py.strip content) text default_expiration] |}).
Proof.
  intros Hopenai Hct Hq Hallowed Hchat Hget Hdb Hchart Hcode Hne Hdumps Hset.
  rewrite (@generate_code_and_sql_miss data chart_type query content w m1 r1 Hopenai Hct Hq Hallowed Hchat Hget).
  unfold try_except, bind, db_call. simpl w_db. rewrite Hdb.
  unfold _generate_chart_code, bind, llm_invoke_input. rewrite Hopenai.
  unfold ChatOpenAI_invoke_content, model_call. simpl w_model.
  fold (chart_prompt env self (Py.lower chart_type) result). rewrite Hchart, Hcode.
  assert (Hret : forall w0 : @World env,
             match code with
             | PNone => @raise env pyvalue
                          (invalid_input (s_ "Something went wrong: Could not generate code"))
             | _ => ret code
             end w0 = (Ret code, w0)).
  { intros w0. destruct code; try reflexivity. congruence. }
  rewrite Hret.
  unfold _cache_result, RedisCache_set, bind, lift, client_set.
  fold (cache_entry (Py.strip content) result code). rewrite Hdumps.
  simpl w_redis. rewrite Hset.
  unfold _format_response, bind, lift, py_get, time_time, ret. simpl.
  repeat rewrite <- app_assoc. reflexivity.
Qed.

(** X12.  When running the SQL fails, the failure is reported as an
    InvalidInputError that quotes it; the model is not asked for a chart
    and nothing is stored. *)
Theorem generate_code_and_sql_sql_failure
        (data : dict) (chart_type : str) (query : pyvalue) (content : str) (e : exn)
        (w : @World env) (m1 : Model env) (r1 : Redis env) (d1 : Database env) :
  is_openai self = true ->
  dict_get data (s_ "chart_type") = Some (PStr chart_type) ->
  dict_get data (s_ "query") = Some query ->
  str_in (Py.lower chart_type) ALLOWED_CHART_TYPES = true ->
  chat_invoke env (w_model w) (sql_prompt env self query) = (Ret content, m1) ->
  redis_get env (w_redis w) (Py.strip content) = (Ret None, r1) ->
  db_run env (w_db w) (Py.strip content) = (Raise e, d1) ->
  generate_code_and_sql self data w =
    (Raise (invalid_input (s_ "Something went wrong: " ++ e_str e ++ s_ ".")),
     {| w_redis := r1; w_model := m1; w_db := d1; w_ticks := S (w_ticks w);
        w_trace := w_trace w ++
          [EvModel (sql_prompt env self query);
           EvCacheGet (Py.strip content);
           EvDbRun (Py.strip content)] |}).
Proof.
  intros Hopenai Hct Hq Hallowed Hchat Hget Hdb.
  rewrite (@generate_code_and_sql_miss data chart_type query content w m1 r1 Hopenai Hct Hq Hallowed Hchat Hget).
  unfold try_except, bind, db_call. simpl w_db. rewrite Hdb.
  unfold raise, something_went_wrong. simpl.
  repeat rewrite <- app_assoc. reflexivity.
Qed.

(** X13.  When the second answer holds no code for the chart type, the
    request fails with an InvalidInputError whose message says
    "Something went wrong" twice (the error raised in the chart step is
    wrapped again), and nothing is stored. *)
Theorem generate_code_and_sql_no_code
        (data : dict) (chart_type : str) (query : pyvalue) (content result answer : str)
        (w : @World env) (m1 m2 : Model env) (r1 : Redis env) (d1 : Database env) :
  is_openai self = true ->
  dict_get data (s_ "chart_type") = Some (PStr chart_type) ->
  dict_get data (s_ "query") = Some query ->
  str_in (Py.lower chart_type) ALLOWED_CHART_TYPES = true ->
  chat_invoke env (w_model w) (sql_prompt env self query) = (Ret content, m1) ->
  redis_get env (w_redis w) (Py.strip content) = (Ret None, r1) ->
  db_run env (w_db w) (Py.strip content) = (Ret result, d1) ->
  chat_invoke env m1 (chart_prompt env self (Py.lower chart_type) result) =
    (Ret answer, m2) ->
  extract_code_response answer (Py.lower chart_type) = PNone ->
  generate_code_and_sql self data w =
    (Raise (invalid_input
              (s_ "Something went wrong: Something went wrong: Could not generate code.")),
     {| w_redis := r1; w_model := m2; w_db := d1; w_ticks := S (w_ticks w);
        w_trace := w_trace w ++
          [EvModel (sql_prompt env self query);
           EvCacheGet (Py.strip content);
           EvDbRun (Py.strip content);
           EvModel (chart_prompt env self (Py.lower chart_type) result)] |}).
Proof.
  intros Hopenai Hct Hq Hallowed Hchat Hget Hdb Hchart Hcode.
  rewrite (@generate_code_and_sql_miss data chart_type query content w m1 r1 Hopenai Hct Hq Hallowed Hchat Hget).
  unfold try_except, bind, db_call. simpl w_db. rewrite Hdb.
  unfold _generate_chart_code, bind, llm_invoke_input. rewrite Hopenai.
  unfold ChatOpenAI_invoke_content, model_call. simpl w_model.
  fold (chart_prompt env self (Py.lower chart_type) result). rewrite Hchart, Hcode.
  unfold raise, something_went_wrong. simpl.
  repeat rewrite <- app_assoc. reflexivity.
Qed.

(** X14.  With an encoder that refuses match objects, as [json.dumps]
    does, a request for a matplotlib chart that misses the cache and
    whose second answer holds a [```python] block fails at the cache
    write: the error of the encoder is reported, quoted in an
    InvalidInputError, after both model calls and the SQL run, and
    nothing is stored. *)
Theorem generate_code_and_sql_matplotlib_block_fails
        (data : dict) (chart_type : str) (query : pyvalue) (content result answer : str)
        (pre fence rest body close post : str) (e : exn)
        (w : @World env) (m1 m2 : Model env) (r1 : Redis env) (d1 : Database env) :
  is_openai self = true ->
  dict_get data (s_ "chart_type") = Some (PStr chart_type) ->
  dict_get data (s_ "query") = Some query ->
  Py.lower chart_type = s_ "matplotlib" ->
  chat_invoke env (w_model w) (sql_prompt env self query) = (Ret content, m1) ->
  redis_get env (w_redis w) (Py.strip content) = (Ret None, r1) ->
  db_run env (w_db w) (Py.strip content) = (Ret result, d1) ->
  chat_invoke env m1 (chart_prompt env self (s_ "matplotlib") result) =
    (Ret answer, m2) ->
  split_at_first DOTALL (s_ "```python") answer = Some (pre, fence, rest) ->
  split_at_first DOTALL (s_ "```") rest = Some (body, close, post) ->
  (forall m, json_dumps env (cache_entry (Py.strip content) result (PMatch m)) =
             Raise e) ->
  generate_code_and_sql self data w =
    (Raise (invalid_input (s_ "Something went wrong: " ++ e_str e ++ s_ ".")),
     {| w_redis := r1; w_model := m2; w_db := d1; w_ticks := S (w_ticks w);
        w_trace := w_trace w ++
          [EvModel (sql_prompt env self query);
           EvCacheGet (Py.strip content);
           EvDbRun (Py.strip content);
           EvModel (chart_prompt env self (s_ "matplotlib") result)] |}).
Proof.
  intros Hopenai Hct Hq Hlower Hchat Hget Hdb Hchart Hs1 Hs2 Hdumps.
  assert (Hallowed : str_in (Py.lower chart_type) ALLOWED_CHART_TYPES = true)
    by (rewrite Hlower; reflexivity).
  rewrite (@generate_code_and_sql_miss data chart_type query content w m1 r1 Hopenai Hct Hq Hallowed Hchat Hget).
  rewrite Hlower.
  unfold try_except, bind, db_call. simpl w_db. rewrite Hdb.
  unfold _generate_chart_code, bind, llm_invoke_input. rewrite Hopenai.
  unfold ChatOpenAI_invoke_content, model_call. simpl w_model.
  fold (chart_prompt env self (s_ "matplotlib") result). rewrite Hchart.
  rewrite (extract_code_response_matplotlib_block _ Hs1 Hs2).
  unfold ret, _cache_result, RedisCache_set, bind, lift.
  fold (cache_entry (Py.strip content) result
          (PMatch {| m_start := List.length pre; m_group0 := fence ++ body ++ close;
                     m_caps := [(1, body)] |})).
  rewrite Hdumps. unfold raise, something_went_wrong. simpl.
  repeat rewrite <- app_assoc. reflexivity.
Qed.

(** After a lookup that gave a false value the SQL is run, whatever
    happens next. *)
Lemma miss_body_trace sql chart_type start (w2 w' : @World env)
      (out : result Response) :
  try_except
    (bind (db_call sql)
       (fun result =>
          bind (_generate_chart_code self chart_type result)
            (fun chart_code =>
               bind (_cache_result sql result chart_code)
                 (fun _ =>
                    _format_response
                      (s_ "Query and chart generated successfully.")
                      (PDict [(s_ "sql_query", PStr sql);
                              (s_ "chart_code", chart_code)])
                      start))))
    (fun e => raise (something_went_wrong e)) w2 = (out, w') ->
  exists tail, w_trace w' = w_trace w2 ++ EvDbRun sql :: tail.
Proof.
  intros Hrun.
  assert (Hbody : forall o w3,
            bind (db_call sql)
              (fun result =>
                 bind (_generate_chart_code self chart_type result)
                   (fun chart_code =>
                      bind (_cache_result sql result chart_code)
                        (fun _ =>
                           _format_response
                             (s_ "Query and chart generated successfully.")
                             (PDict [(s_ "sql_query", PStr sql);
                                     (s_ "chart_code", chart_code)])
                             start))) w2 = (o, w3) ->
            exists tail, w_trace w3 = w_trace w2 ++ EvDbRun sql :: tail).
  { intros o w3 H. unfold bind at 1 in H.
    destruct (db_call sql w2) as [[result|e] w4] eqn:Hdb;
      pose proof (db_call_trace _ _ Hdb) as Ht4;
      [|inversion H; subst; exists []; exact Ht4].
    unfold bind at 1 in H.
    destruct (_generate_chart_code self chart_type result w4)
      as [[code|e] w5] eqn:Hchart.
    - assert (Ht5 : exists t5, w_trace w5 = w_trace w4 ++ t5).
      { destruct (generate_chart_code_trace _ _ _ Hchart) as [(_ & Ht)|(_ & Hw & _)].
        - eexists. exact Ht.
        - exists []. rewrite Hw, app_nil_r. reflexivity. }
      destruct Ht5 as (t5 & Ht5).
      unfold bind at 1 in H.
      destruct (_cache_result sql result code w5) as [[u|e] w6] eqn:Hcache.
      + apply format_response_trace in H.
        destruct (cache_result_trace _ _ _ _ Hcache) as [(Hw & _)|(text & Ht6)].
        * exists t5. rewrite H, Hw, Ht5, Ht4, <- app_assoc. reflexivity.
        * exists (t5 ++ [EvCacheSet sql text default_expiration]).
          rewrite H, Ht6, Ht5, Ht4. repeat rewrite <- app_assoc. reflexivity.
      + inversion H; subst.
        destruct (cache_result_trace _ _ _ _ Hcache) as [(Hw & _)|(text & Ht6)].
        * exists t5. rewrite Hw, Ht5, Ht4, <- app_assoc. reflexivity.
        * exists (t5 ++ [EvCacheSet sql text default_expiration]).
          rewrite Ht6, Ht5, Ht4. repeat rewrite <- app_assoc. reflexivity.
    - inversion H; subst.
      destruct (generate_chart_code_trace _ _ _ Hchart) as [(_ & Ht)|(_ & Hw & _)].
      + eexists. rewrite Ht, Ht4, <- app_assoc. reflexivity.
      + exists []. rewrite Hw. exact Ht4. }
  unfold try_except in Hrun.
  match type of Hrun with
  | match ?c with _ => _ end = _ =>
      pose proof (Hbody (fst c) (snd c) (surjective_pairing c)) as Hc;
      destruct c as [[resp|e0] w3]
  end.
  - inversion Hrun; subst. exact Hc.
  - unfold raise in Hrun. inversion Hrun; subst. exact Hc.
Qed.

(** X15.  A stored entry that decodes to a false value (the empty
    object, null, 0, an empty list or string) does not count as a hit:
    the SQL is run as after a miss. *)
Theorem generate_code_and_sql_false_entry_is_miss
        (data : dict) (chart_type : str) (query : pyvalue) (content text : str) (value : pyvalue)
        (w : @World env) (m1 : Model env) (r1 : Redis env) :
  is_openai self = true ->
  dict_get data (s_ "chart_type") = Some (PStr chart_type) ->
  dict_get data (s_ "query") = Some query ->
  str_in (Py.lower chart_type) ALLOWED_CHART_TYPES = true ->
  chat_invoke env (w_model w) (sql_prompt env self query) = (Ret content, m1) ->
  redis_get env (w_redis w) (Py.strip content) = (Ret (Some text), r1) ->
  text <> [] ->
  json_loads env text = Ret value ->
  truthy value = false ->
  exists tail,
    w_trace (snd (generate_code_and_sql self data w)) =
      w_trace w ++ [EvModel (sql_prompt env self query);
                    EvCacheGet (Py.strip content);
                    EvDbRun (Py.strip content)] ++ tail.
Proof.
  intros Hopenai Hct Hq Hallowed Hchat Hget Hne Hloads Hfalse.
  unfold generate_code_and_sql.
  erewrite bind_ret by apply time_time_run.
  rewrite Hct. cbn [py_lower]. rewrite Hq, Hallowed. change (negb true) with false. cbv iota.
  erewrite bind_ret;
    [|rewrite generate_sql_query_run, Hopenai; simpl w_model; rewrite Hchat;
      reflexivity].
  erewrite bind_ret;
    [|unfold _check_cache, RedisCache_get, bind, client_get, logged, tick;
      simpl w_redis; rewrite Hget;
      destruct text as [|c text]; [congruence|];
      simpl truthy; cbv iota; unfold lift; rewrite Hloads; reflexivity].
  rewrite Hfalse.
  match goal with
  | |- context [snd ?c] => destruct c as [out w'] eqn:Hrun
  end.
  apply miss_body_trace in Hrun. destruct Hrun as (tail & Ht).
  exists tail. simpl snd. rewrite Ht. unfold logged, tick. simpl.
  repeat rewrite <- app_assoc. reflexivity.
Qed.

(** X16.  With the local model no request is answered and no
    collaborator is called: what is raised is the InvalidInputError of
    the request check, the AttributeError of a [chart_type] that is no
    string or, for a request that passes the check, the TypeError of
    the call [invoke(input=...)] on a method whose parameter is named
    [data]. *)
Theorem generate_code_and_sql_local_backend_never_answers
        (data : dict) (w : @World env) :
  is_openai self = false ->
  exists e,
    generate_code_and_sql self data w = (Raise e, tick w) /\
    (e_class e = InvalidInputError \/
     (exists value,
        dict_get data (s_ "chart_type") = Some value /\
        (forall chart_type, value <> PStr chart_type) /\
        e = no_lower_attribute value) \/
     e = type_error "OpenLLM.invoke() got an unexpected keyword argument 'input'").
Proof.
  intros Hlocal. unfold generate_code_and_sql.
  erewrite bind_ret by apply time_time_run.
  destruct (dict_get data (s_ "chart_type")) as [value|];
    [|eexists; split; [reflexivity|left; reflexivity]].
  destruct value as [|b|z|x|chart_type|l|d|m]; cbn [py_lower];
    try (eexists; split; [reflexivity|];
         right; left; eexists; split; [reflexivity|];
         split; [intros ct; discriminate|reflexivity]).
  destruct (dict_get data (s_ "query")) as [query|];
    [|eexists; split; [reflexivity|left; reflexivity]].
  destruct (negb (str_in (Py.lower chart_type) ALLOWED_CHART_TYPES));
    [eexists; split; [reflexivity|left; reflexivity]|].
  eexists. split.
  - erewrite bind_raise; [reflexivity|].
    rewrite generate_sql_query_run, Hlocal. reflexivity.
  - right. right. reflexivity.
Qed.

End MorePipelineFacts.

(** ** [get_open_source_models] *)

Lemma dict_item_has_key d key :
  has_key d key = true -> dict_item d key = Ret (assoc d key).
Proof.
  induction d as [|[k v] d IH]; simpl; [discriminate|].
  destruct (Py.str_eqb k key); simpl; auto.
Qed.

Lemma dict_item_no_key d key :
  has_key d key = false ->
  dict_item d key = Raise {| e_class := KeyError; e_str := s_ "'" ++ key ++ s_ "'" |}.
Proof.
  induction d as [|[k v] d IH]; simpl; [reflexivity|].
  destruct (Py.str_eqb k key); simpl; [discriminate|auto].
Qed.

Lemma display_items_all model : forall fields,
  (forall field, In field fields -> has_key model (snd field) = true) ->
  display_items fields model =
    Ret (map (fun field => (fst field, assoc model (snd field))) fields).
Proof.
  induction fields as [|[key source] fields IH]; intros Hall; [reflexivity|].
  assert (Hk : has_key model source = true)
    by (apply (Hall (key, source)); left; reflexivity).
  simpl. rewrite (@dict_item_has_key model source Hk).
  rewrite IH; [reflexivity|]. intros field Hin. apply Hall. right. exact Hin.
Qed.

Lemma display_items_missing model key : forall fields,
  first_missing fields model = Some key ->
  display_items fields model =
    Raise {| e_class := KeyError; e_str := s_ "'" ++ key ++ s_ "'" |}.
Proof.
  induction fields as [|[k source] fields IH]; simpl; [discriminate|].
  destruct (has_key model source) eqn:Hk.
  - intros H. rewrite (@dict_item_has_key model source Hk), (IH H). reflexivity.
  - intros H. inversion H; subst. rewrite (@dict_item_no_key model key Hk).
    reflexivity.
Qed.

Lemma summarize_models_cons model models models_list :
  summarize_models (model :: models) models_list =
  match display_items summary_fields model with
  | Ret items => summarize_models models (models_list ++ [PDict items])
  | Raise e => Raise e
  end.
Proof. reflexivity. Qed.

Lemma summarize_models_all : forall models models_list,
  Forall has_summary_keys models ->
  summarize_models models models_list = Ret (models_list ++ map summary_of models).
Proof.
  induction models as [|model models IH]; intros models_list Hall.
  - simpl. rewrite app_nil_r. reflexivity.
  - inversion Hall as [|? ? Hmodel Hrest]; subst.
    rewrite summarize_models_cons.
    rewrite (@display_items_all model summary_fields Hmodel).
    fold (summary_of model).
    rewrite (IH (models_list ++ [summary_of model]) Hrest), <- app_assoc.
    reflexivity.
Qed.

(** X17.  When every model listed has the six keys read, the result
    holds one summary for each model, in the order of the list, with
    the keys name, model_id, filesize, ram, parameters and type and the
    values of the model; other keys of a model are dropped. *)
Theorem get_open_source_models_summaries (models : list (list (str * pyvalue))) :
  Forall has_summary_keys models ->
  get_open_source_models (Ret models) = Ret (map summary_of models).
Proof.
  intros Hall. unfold get_open_source_models.
  rewrite (@summarize_models_all models [] Hall). reflexivity.
Qed.

(** X18.  When a model listed lacks one of the keys read, and the models
    before it have them all, the call raises KeyError for the first key
    that this model lacks, in the order name, filename, filesize,
    ramrequired, parameters, type; no list is returned, the summaries
    built so far are lost. *)
Theorem get_open_source_models_missing_key
        (before after : list (list (str * pyvalue)))
        (model : list (str * pyvalue)) (key : str) :
  Forall has_summary_keys before ->
  first_missing summary_fields model = Some key ->
  get_open_source_models (Ret (before ++ model :: after)) =
    Raise {| e_class := KeyError; e_str := s_ "'" ++ key ++ s_ "'" |}.
Proof.
  intros Hall Hmiss. unfold get_open_source_models.
  generalize (@nil pyvalue) as models_list.
  induction Hall as [|m before Hm Hall IH]; intros models_list.
  - change ([] ++ model :: after) with (model :: after).
    rewrite summarize_models_cons.
    rewrite (@display_items_missing model key summary_fields Hmiss). reflexivity.
  - change ((m :: before) ++ model :: after) with (m :: (before ++ model :: after)).
    rewrite summarize_models_cons.
    rewrite (@display_items_all m summary_fields Hm). apply IH.
Qed.

(** ** Examples *)

Lemma RedisCache_set_get_round_trip_example :
  bind (RedisCache_set (s_ "SELECT 1;") Sample.entry default_expiration)
       (fun _ => RedisCache_get (s_ "SELECT 1;")) Examples.w0 =
    (Ret Sample.entry,
     @Build_World (Sample.collaborators Examples.chat)
        [(s_ "SELECT 1;", Sample.entry_text)] tt tt 0
        [EvCacheSet (s_ "SELECT 1;") Sample.entry_text 3600;
         EvCacheGet (s_ "SELECT 1;")]).
Proof.
  apply (@RedisCache_set_get_round_trip
           (Sample.collaborators Examples.chat)
           (s_ "SELECT 1;") Sample.entry_text Sample.entry default_expiration
           Examples.w0
           [(s_ "SELECT 1;", Sample.entry_text)]
           [(s_ "SELECT 1;", Sample.entry_text)]);
    try reflexivity.
  discriminate.
Defined.

Lemma generate_code_and_sql_call_order_example :
  exists evs,
    w_trace (snd (generate_code_and_sql (Sample.rag true)
                    (Sample.request "chart.js" "how many") Examples.w0)) =
      w_trace Examples.w0 ++ evs /\
    in_pipeline_order evs.
Proof.
  apply (@generate_code_and_sql_call_order
           (Sample.collaborators Examples.chat) (Sample.rag true)
           (Sample.request "chart.js" "how many") Examples.w0
           (snd (generate_code_and_sql (Sample.rag true)
                   (Sample.request "chart.js" "how many") Examples.w0))
           (fst (generate_code_and_sql (Sample.rag true)
                   (Sample.request "chart.js" "how many") Examples.w0))).
  vm_compute. reflexivity.
Defined.

Lemma generate_code_and_sql_miss_success_example :
  generate_code_and_sql (Sample.rag true) (Sample.request "Chart.js" "how many")
                        Examples.w0 =
    (Ret {| message := s_ "Query and chart generated successfully.";
            sql_query := PStr (s_ "SELECT 1;");
            chart_code := PStr (s_ "draw();");
            total_time := PrimFloat.sub PrimFloat.zero PrimFloat.zero |},
     @Build_World (Sample.collaborators Examples.chat)
        [(s_ "SELECT 1;", Sample.entry_text)] tt tt 2
        [EvModel (s_ "sql prompt"); EvCacheGet (s_ "SELECT 1;");
         EvDbRun (s_ "SELECT 1;"); EvModel (s_ "chart prompt");
         EvCacheSet (s_ "SELECT 1;") Sample.entry_text 3600]).
Proof.
  apply (@generate_code_and_sql_miss_success
           (Sample.collaborators Examples.chat) (Sample.rag true)
           (Sample.request "Chart.js" "how many")
           (s_ "Chart.js") (PStr (s_ "how many")) (s_ "SELECT 1;") (s_ "[(1,)]")
           (s_ "<script>draw();</script>") Sample.entry_text
           (PStr (s_ "draw();")) Examples.w0 tt tt [] 
           [(s_ "SELECT 1;", Sample.entry_text)] tt);
    try reflexivity.
  discriminate.
Defined.

Lemma generate_code_and_sql_sql_failure_example :
  generate_code_and_sql (Sample.rag true) (Sample.request "chart.js" "how many")
                        MoreSamples.w_no_table =
    (Raise (invalid_input
              (s_ "Something went wrong: (sqlite3.OperationalError) no such table: users.")),
     @Build_World
        (MoreSamples.collaborators_with Examples.chat MoreSamples.run_sql_fails
           Sample.loads)
        [] tt tt 1
        [EvModel (s_ "sql prompt"); EvCacheGet (s_ "SELECT 1;");
         EvDbRun (s_ "SELECT 1;")]).
Proof.
  apply (@generate_code_and_sql_sql_failure
           (MoreSamples.collaborators_with Examples.chat MoreSamples.run_sql_fails
           Sample.loads)
           (Sample.rag true) (Sample.request "chart.js" "how many")
           (s_ "chart.js") (PStr (s_ "how many")) (s_ "SELECT 1;")
           MoreSamples.no_such_table MoreSamples.w_no_table tt [] tt);
    reflexivity.
Defined.

Lemma generate_code_and_sql_no_code_example :
  generate_code_and_sql (Sample.rag true) (Sample.request "chart.js" "how many")
                        MoreSamples.w_prose =
    (Raise (invalid_input
              (s_ "Something went wrong: Something went wrong: Could not generate code.")),
     @Build_World (Sample.collaborators MoreSamples.chat_prose) [] tt tt 1
        [EvModel (s_ "sql prompt"); EvCacheGet (s_ "SELECT 1;");
         EvDbRun (s_ "SELECT 1;"); EvModel (s_ "chart prompt")]).
Proof.
  apply (@generate_code_and_sql_no_code
           (Sample.collaborators MoreSamples.chat_prose) (Sample.rag true)
           (Sample.request "chart.js" "how many")
           (s_ "chart.js") (PStr (s_ "how many")) (s_ "SELECT 1;") (s_ "[(1,)]")
           (s_ "Sorry, I cannot draw that.") MoreSamples.w_prose tt tt [] tt);
    reflexivity.
Defined.

Lemma generate_code_and_sql_matplotlib_block_fails_example :
  generate_code_and_sql (Sample.rag true) (Sample.request "Matplotlib" "how many")
                        MoreSamples.w_python =
    (Raise (invalid_input
              (s_ "Something went wrong: Object of type Match is not JSON serializable.")),
     @Build_World (Sample.collaborators MoreSamples.chat_python) [] tt tt 1
        [EvModel (s_ "sql prompt"); EvCacheGet (s_ "SELECT 1;");
         EvDbRun (s_ "SELECT 1;"); EvModel (s_ "chart prompt")]).
Proof.
  apply (@generate_code_and_sql_matplotlib_block_fails
           (Sample.collaborators MoreSamples.chat_python) (Sample.rag true)
           (Sample.request "Matplotlib" "how many")
           (s_ "Matplotlib") (PStr (s_ "how many")) (s_ "SELECT 1;") (s_ "[(1,)]")
           (s_ MoreSamples.python_answer)
           [] (s_ "```python") (s_ (LF ++ "plt.show()" ++ LF ++ "```"))
           (s_ (LF ++ "plt.show()" ++ LF)) (s_ "```") []
           (type_error "Object of type Match is not JSON serializable")
           MoreSamples.w_python tt tt [] tt);
    try reflexivity.
Defined.

Lemma generate_code_and_sql_local_backend_never_answers_example :
  exists e,
    generate_code_and_sql (Sample.rag false) (Sample.request "chart.js" "how many")
                          Examples.w0 =
      (Raise e, tick Examples.w0) /\
    (e_class e = InvalidInputError \/
     (exists value,
        dict_get (Sample.request "chart.js" "how many") (s_ "chart_type") =
          Some value /\
        (forall chart_type, value <> PStr chart_type) /\
        e = no_lower_attribute value) \/
     e = type_error "OpenLLM.invoke() got an unexpected keyword argument 'input'").
Proof.
  apply (@generate_code_and_sql_local_backend_never_answers
           (Sample.collaborators Examples.chat) (Sample.rag false)
           (Sample.request "chart.js" "how many") Examples.w0).
  reflexivity.
Defined.

Lemma get_open_source_models_summaries_example :
  get_open_source_models
    (Ret [MoreSamples.model_entry "Llama 3 8B Instruct"
                                  "Meta-Llama-3-8B-Instruct.Q4_0.gguf";
          MoreSamples.model_entry "Phi-3 Mini Instruct"
                                  "Phi-3-mini-4k-instruct.Q4_0.gguf"]) =
    Ret [PDict [(s_ "name", PStr (s_ "Llama 3 8B Instruct"));
                (s_ "model_id", PStr (s_ "Meta-Llama-3-8B-Instruct.Q4_0.gguf"));
                (s_ "filesize", PStr (s_ "4661724384"));
                (s_ "ram", PStr (s_ "8"));
                (s_ "parameters", PStr (s_ "8 billion"));
                (s_ "type", PStr (s_ "LLaMA3"))];
         PDict [(s_ "name", PStr (s_ "Phi-3 Mini Instruct"));
                (s_ "model_id", PStr (s_ "Phi-3-mini-4k-instruct.Q4_0.gguf"));
                (s_ "filesize", PStr (s_ "4661724384"));
                (s_ "ram", PStr (s_ "8"));
                (s_ "parameters", PStr (s_ "8 billion"));
                (s_ "type", PStr (s_ "LLaMA3"))]].
Proof.
  apply (@get_open_source_models_summaries
           [MoreSamples.model_entry "Llama 3 8B Instruct"
                                    "Meta-Llama-3-8B-Instruct.Q4_0.gguf";
            MoreSamples.model_entry "Phi-3 Mini Instruct"
                                    "Phi-3-mini-4k-instruct.Q4_0.gguf"]).
  repeat constructor;
    intros field Hin; simpl in Hin;
    repeat (destruct Hin as [Hin|Hin]; [subst field; reflexivity|]);
    destruct Hin.
Defined.

Lemma get_open_source_models_missing_key_example :
  get_open_source_models
    (Ret ([MoreSamples.model_entry "Llama 3 8B Instruct"
                                   "Meta-Llama-3-8B-Instruct.Q4_0.gguf"]
          ++ MoreSamples.model_without_filename
          :: [MoreSamples.model_entry "Phi-3 Mini Instruct"
                                      "Phi-3-mini-4k-instruct.Q4_0.gguf"])) =
    Raise {| e_class := KeyError; e_str := s_ "'" ++ s_ "filename" ++ s_ "'" |}.
Proof.
  apply (@get_open_source_models_missing_key
           [MoreSamples.model_entry "Llama 3 8B Instruct"
                                    "Meta-Llama-3-8B-Instruct.Q4_0.gguf"]
           [MoreSamples.model_entry "Phi-3 Mini Instruct"
                                    "Phi-3-mini-4k-instruct.Q4_0.gguf"]
           MoreSamples.model_without_filename (s_ "filename")).
  - repeat constructor.
    intros field Hin; simpl in Hin;
      repeat (destruct Hin as [Hin|Hin]; [subst field; reflexivity|]);
      destruct Hin.
  - reflexivity.
Defined.

Lemma generate_code_and_sql_false_entry_is_miss_example :
  exists tail,
    w_trace (snd (generate_code_and_sql (Sample.rag true)
                    (Sample.request "chart.js" "how many")
                    MoreSamples.w_empty_object)) =
      w_trace MoreSamples.w_empty_object ++
      [EvModel (s_ "sql prompt"); EvCacheGet (s_ "SELECT 1;");
       EvDbRun (s_ "SELECT 1;")] ++ tail.
Proof.
  apply (@generate_code_and_sql_false_entry_is_miss
           (MoreSamples.collaborators_with Examples.chat Sample.run_sql
              MoreSamples.loads_empty_object)
           (Sample.rag true) (Sample.request "chart.js" "how many")
           (s_ "chart.js") (PStr (s_ "how many")) (s_ "SELECT 1;") (s_ "{}") (PDict [])
           MoreSamples.w_empty_object tt [(s_ "SELECT 1;", s_ "{}")]);
    try reflexivity.
  discriminate.
Defined.
